(** * ETL_V3: the raw -> staging -> reporting pipeline

    A shallow embedding of the three pipeline scripts
    ([scripts/csv_importer.py], [scripts/raw_to_stg.py],
    [scripts/stg_to_rpt.py]) and of the runner ([scripts/run_pipeline.py]),
    together with the properties of the reconciliation and aggregation
    engine stated in the specification.

    The scripts talk to SQLite through SQL text.  The embedding gives each
    statement the scripts issue its relational meaning over an explicit
    database value: a finite map from table names to tables, a table being
    its declared column list and a bag (list) of rows. *)

From stdpp Require Import base strings list gmap sets sorting.
From Stdlib Require Import ZArith Ascii.

Local Open Scope Z_scope.
Set Warnings "-clear-no-such-hyp".

(** ** Python string helpers

    Strings are byte strings.  [lower], [strip] and the regular expression
    class [\s] are modelled on ASCII; Python applies them to every Unicode
    code point. *)

Module Str.

Definition lower_ascii (c : ascii) : ascii :=
  let n := nat_of_ascii c in
  if ((65 <=? n)%nat && (n <=? 90)%nat)%bool then ascii_of_nat (n + 32) else c.

(** [str.lower()] *)
Fixpoint lower (s : string) : string :=
  match s with
  | EmptyString => EmptyString
  | String c rest => String (lower_ascii c) (lower rest)
  end.

(** [str.startswith(p)] *)
Definition startswith (p s : string) : bool := String.prefix p s.

(** The characters [str.isspace()] accepts below 128: TAB, LF, VT, FF, CR,
    FS, GS, RS, US and SPACE. *)
Definition isspace (c : ascii) : bool :=
  let n := nat_of_ascii c in
  (((9 <=? n)%nat && (n <=? 13)%nat) || ((28 <=? n)%nat && (n <=? 32)%nat))%bool.

Fixpoint lstrip (s : string) : string :=
  match s with
  | EmptyString => EmptyString
  | String c rest => if isspace c then lstrip rest else s
  end.

Fixpoint rstrip (s : string) : string :=
  match s with
  | EmptyString => EmptyString
  | String c rest =>
      match rstrip rest with
      | EmptyString => if isspace c then EmptyString else String c EmptyString
      | rest' => String c rest'
      end
  end.

(** [str.strip()] *)
Definition strip (s : string) : string := rstrip (lstrip s).

(** [re.sub(r'\s+', ' ', s)]: every maximal run of white space becomes one
    space. *)
Fixpoint collapse_ws (s : string) : string :=
  match s with
  | EmptyString => EmptyString
  | String c rest =>
      if isspace c then
        match rest with
        | String c' _ => if isspace c' then collapse_ws rest
                         else String " " (collapse_ws rest)
        | EmptyString => String " " EmptyString
        end
      else String c (collapse_ws rest)
  end.

End Str.

(** ** SQLite values, rows, tables

    A cell holds NULL, an integer or a text.  REAL cells take no part in any
    property below and get no constructor; the numeric aggregates of the
    report builder are kept abstract (see [Section Aggregates]). *)

Inductive value :=
  | VNull
  | VInt (n : Z)
  | VText (s : string).

#[global] Instance value_eq_dec : EqDecision value.
Proof. solve_decision. Defined.

(** SQLite compares identifiers (column names, table qualifiers) without
    regard to ASCII case. *)
Definition norm_ident (c : string) : string := Str.lower c.

(** A row maps (normalised) column names to cells; a column the row does not
    mention holds NULL. *)
Abbreviation row := (gmap string value).

Record table := Table {
  columns : list string;   (* declared spelling, declaration order *)
  rows : list row          (* a bag: duplicates and order are kept *)
}.

Abbreviation database := (gmap string table).

Definition cell (r : row) (c : string) : value :=
  default VNull (r !! norm_ident c).

Definition has_column (t : table) (c : string) : bool :=
  bool_decide (norm_ident c ∈ norm_ident <$> columns t).

(** ** Three-valued logic: [None] is SQL's NULL truth value *)

(** [a = b] *)
Definition sql_eq (a b : value) : option bool :=
  match a, b with
  | VNull, _ | _, VNull => None
  | _, _ => Some (bool_decide (a = b))
  end.

(** [a IS b] *)
Definition sql_is (a b : value) : option bool := Some (bool_decide (a = b)).

(** [x AND y] *)
Definition sql_and (x y : option bool) : option bool :=
  match x, y with
  | Some false, _ | _, Some false => Some false
  | Some true, Some true => Some true
  | _, _ => None
  end.

(** [' AND '.join(conds)] for a non-empty [conds] *)
Definition sql_and_all (conds : list (option bool)) : option bool :=
  foldr sql_and (Some true) conds.

(** A WHERE clause keeps a row only when its condition is true. *)
Definition where_true (x : option bool) : bool :=
  match x with Some true => true | _ => false end.

(** What [sqlite3] raises, by kind ([str(e)] in the scripts' messages). *)
Inductive sql_error :=
  | SyntaxError                                 (* near ",": syntax error *)
  | NoSuchTable (t : string)                    (* no such table: t *)
  | NoSuchColumn (qualifier c : string)         (* no such column: q.c *)
  | NoColumnNamed (t c : string)                (* table t has no column named c *)
  | DuplicateColumn (t : string).               (* duplicate column name *)

#[global] Instance sql_error_eq_dec : EqDecision sql_error.
Proof. solve_decision. Defined.

Inductive result (A : Type) :=
  | Ok (a : A)
  | Raise (e : sql_error).
Arguments Ok {A} a.
Arguments Raise {A} e.

#[global] Instance result_ret : MRet result := λ A a, Ok a.
#[global] Instance result_bind : MBind result := λ A B k m,
  match m with
  | Ok a => k a
  | Raise e => Raise e
  end.

Definition guard (b : bool) (e : sql_error) : result unit :=
  if b then Ok tt else Raise e.

(** The first element of [l] that fails [ok], if any. *)
Definition first_bad {A} (ok : A → bool) (l : list A) : option A :=
  List.find (λ x, negb (ok x)) l.

(** A table named in a FROM or INSERT clause.  Table names are looked up as
    they are spelt: every name the scripts pass was read from
    [sqlite_master] or derived from such a name by swapping its prefix. *)
Definition get_table (conn : database) (name : string) : result table :=
  match conn !! name with
  | Some t => Ok t
  | None => Raise (NoSuchTable name)
  end.

(** ** scripts/raw_to_stg.py *)

Module RawToStg.

Record stats := Stats {
  rows_inserted : Z;
  stg_before : Z;
  stg_after : Z
}.

(** [PRAGMA table_info]: the column names of a table, none for a table that
    does not exist.  The declared types only feed the CREATE TABLE text and
    are left out. *)
Definition get_table_columns (conn : database) (table_name : string) : list string :=
  match conn !! table_name with
  | Some t => columns t
  | None => []
  end.

Definition table_exists (conn : database) (table_name : string) : bool :=
  bool_decide (is_Some (conn !! table_name)).

(** [SELECT COUNT( * ) FROM [table_name]] *)
Definition get_row_count (conn : database) (table_name : string) : result Z :=
  t ← get_table conn table_name;
  mret (Z.of_nat (length (rows t))).

(** [s[3:]] *)
Definition drop3 (s : string) : string :=
  match s with
  | String _ (String _ (String _ rest)) => rest
  | _ => EmptyString
  end.

Definition raw_to_stg_name (raw_table_name : string) : string :=
  if Str.startswith "raw" raw_table_name
  then "stg" +:+ drop3 raw_table_name
  else "stg" +:+ raw_table_name.

Definition get_base_table_name (raw_table_name : string) : string :=
  if Str.startswith "raw" raw_table_name
  then drop3 raw_table_name
  else raw_table_name.

(** [not name.startswith('_')] *)
Definition is_data_column (name : string) : bool :=
  negb (Str.startswith "_" name).

Definition stg_meta_columns : list string :=
  ["_stg_loaded_at"; "_stg_source_table"].

(** [create_stg_table]: CREATE TABLE IF NOT EXISTS with the raw table's
    non-metadata columns and the two staging metadata columns. *)
Definition create_stg_table (conn : database) (raw_table_name stg_table_name : string)
  : database * list string :=
  let columns := filter (λ name, is_data_column name = true)
                        (get_table_columns conn raw_table_name) in
  let conn' := match conn !! stg_table_name with
               | Some _ => conn
               | None => <[stg_table_name := Table (columns ++ stg_meta_columns) []]> conn
               end in
  (conn', columns).

(** The table-keys configuration: entity base name to its key column list.
    A JSON [null] or [[]] entry is falsy and stands here as [[]]. *)
Definition get_key_columns (base_name : string) (keys_config : gmap string (list string))
  : option (list string) :=
  keys_config !! base_name.

(** Python truthiness of [key_columns] *)
Definition truthy (key_columns : option (list string)) : bool :=
  match key_columns with
  | Some (_ :: _) => true
  | _ => false
  end.

(** [stg."k1" = raw."k1" AND stg."k2" = raw."k2" ...] *)
Definition key_conditions (key_columns : list string) (stg raw : row) : option bool :=
  sql_and_all ((λ key, sql_eq (cell stg key) (cell raw key)) <$> key_columns).

(** [stg."c1" IS raw."c1" AND ...] *)
Definition full_row_conditions (data_columns : list string) (stg raw : row) : option bool :=
  sql_and_all ((λ col, sql_is (cell stg col) (cell raw col)) <$> data_columns).

(** [NOT EXISTS (SELECT 1 FROM stg WHERE cond)] *)
Definition not_exists (stg : table) (cond : row → option bool) : bool :=
  negb (existsb (λ s, where_true (cond s)) (rows stg)).

(** Name resolution of the correlated sub-query's condition, left to right:
    each column is looked up under the qualifier [stg] and then under the
    qualifier [raw]. *)
Fixpoint resolve_conditions (stg_has raw_has : string → bool) (cols : list string)
  : result unit :=
  match cols with
  | [] => Ok tt
  | c :: rest =>
      if negb (stg_has c) then Raise (NoSuchColumn "stg" c)
      else if negb (raw_has c) then Raise (NoSuchColumn "raw" c)
      else resolve_conditions stg_has raw_has rest
  end.

(** A select-list item ["col"] of the outer SELECT.  It names a column of the
    raw table; a double-quoted name that matches no column is read by SQLite
    as the string literal (its default double-quoted-string setting). *)
Definition select_value (raw : table) (r : row) (col : string) : value :=
  if has_column raw col then cell r col else VText col.

(** [SELECT DISTINCT col_list, 'now', 'raw_table_name']: the two literals are
    the same on every row, so the distinct tuples are the distinct
    projections on [data_columns].  SQL does not fix the order of the result;
    the list order here is one of them. *)
Definition select_distinct (raw : table) (data_columns : list string)
    (candidates : list row) : list (list value) :=
  remove_dups ((λ r, select_value raw r <$> data_columns) <$> candidates).

(** One inserted row: the listed columns receive the selected tuple, every
    other staging column is NULL. *)
Definition insert_row (data_columns : list string) (now raw_table_name : string)
    (vals : list value) : row :=
  list_to_map (zip (norm_ident <$> (data_columns ++ stg_meta_columns))
                   (vals ++ [VText now; VText raw_table_name])).

(** [move_data_to_stg].  The INSERT ... SELECT reads the staging table it
    writes, so the SELECT is run to completion on the staging rows as they
    are before the statement, and its result is then appended.

    In the keyed branch the raw table is given the alias [raw]; the unkeyed
    branch has no alias, so there the qualifier [raw] only resolves when the
    raw table itself is called [raw]. *)
Definition move_data_to_stg (conn : database) (raw_table_name stg_table_name : string)
    (key_columns : option (list string)) (data_columns : list string) (now : string)
  : result (database * stats) :=
  stg_count_before ← get_row_count conn stg_table_name;
  stg ← get_table conn stg_table_name;
  guard (negb (bool_decide (data_columns = []))) SyntaxError;;
  match first_bad (has_column stg) (data_columns ++ stg_meta_columns) with
  | Some c => Raise (NoColumnNamed stg_table_name c)
  | None => Ok tt
  end;;
  raw ← get_table conn raw_table_name;
  candidates ←
    (if truthy key_columns then
       let keys := default [] key_columns in
       resolve_conditions (has_column stg) (has_column raw) keys;;
       mret (filter (λ r, not_exists stg (λ s, key_conditions keys s r) = true)
                    (rows raw))
     else
       let raw_visible := bool_decide (norm_ident raw_table_name = "raw") in
       resolve_conditions (has_column stg)
                          (λ c, raw_visible && has_column raw c) data_columns;;
       mret (filter (λ r, not_exists stg (λ s, full_row_conditions data_columns s r) = true)
                    (rows raw)));
  let inserted := insert_row data_columns now raw_table_name
                    <$> select_distinct raw data_columns candidates in
  let conn' := <[stg_table_name := Table (columns stg) (rows stg ++ inserted)]> conn in
  stg_count_after ← get_row_count conn' stg_table_name;
  mret (conn', Stats (stg_count_after - stg_count_before)
                     stg_count_before stg_count_after).

(** The [result] dictionary of [process_single_table]; its [message] by
    kind. *)
Inductive message :=
  | MsgNone                                        (* '' *)
  | MsgRawEmpty                                    (* "Raw table is empty" *)
  | MsgKeyColumnsNotFound (missing_keys : list string)
                                                   (* f"Key columns not found: {missing_keys}" *)
  | MsgSuccess                                     (* 'Success' *)
  | MsgException (e : sql_error).                  (* str(e) *)

Record table_result := TableResult {
  raw_table : string;
  stg_table : option string;
  success : bool;
  result_rows_inserted : Z;
  result_message : message
}.

End RawToStg.

(** ** The audit log

    Both scripts collect log entries in a Python list that the per-batch
    function appends to, and write the list to [_etl_log] when the loop over
    the batches is over. *)

Record log_entry := LogEntry {
  operation : string;
  table_name : string;
  rows_affected : Z;
  status : string;
  log_message : string;
  started_at : string;
  completed_at : string
}.

Definition etl_log_columns : list string :=
  ["operation"; "table_name"; "rows_affected"; "status"; "message";
   "started_at"; "completed_at"].

Definition log_row (entry : log_entry) : row :=
  list_to_map (zip (norm_ident <$> etl_log_columns)
    [VText (operation entry); VText (table_name entry); VInt (rows_affected entry);
     VText (status entry); VText (log_message entry);
     VText (started_at entry); VText (completed_at entry)]).

(** One [INSERT INTO _etl_log (...) VALUES (?, ...)] inside [try/except: pass]:
    when the table is missing or lacks one of the columns the entry is dropped
    silently.  The rowid alias [id] that SQLite fills in is not modelled. *)
Definition write_log_entry (conn : database) (entry : log_entry) : database :=
  match conn !! "_etl_log" with
  | Some t =>
      if forallb (has_column t) etl_log_columns
      then <["_etl_log" := Table (columns t) (rows t ++ [log_row entry])]> conn
      else conn
  | None => conn
  end.

Definition write_log_entries (conn : database) (log_entries : list log_entry) : database :=
  foldl write_log_entry conn log_entries.

Module RawToStgRun.
Import RawToStg.

(** [process_single_table].  [now_move] and [now_log] are the two readings of
    [datetime.now()], inside [move_data_to_stg] and for the log entry.  The
    only exception that escapes is the one of the first [get_row_count]. *)
Definition process_single_table (conn : database) (raw_table_name : string)
    (keys_config : gmap string (list string)) (log_entries : list log_entry)
    (now_move now_log : string)
  : result (table_result * database * list log_entry) :=
  let stg_table_name := raw_to_stg_name raw_table_name in
  let base_name := get_base_table_name raw_table_name in
  let fail conn' msg :=
    (TableResult raw_table_name (Some stg_table_name) false 0 msg, conn', log_entries) in
  raw_count ← get_row_count conn raw_table_name;
  if bool_decide (raw_count = 0) then mret (fail conn MsgRawEmpty)
  else
    let '(conn1, data_columns) :=
      if table_exists conn stg_table_name
      then (conn, filter (λ name, is_data_column name = true)
                         (get_table_columns conn raw_table_name))
      else create_stg_table conn raw_table_name stg_table_name in
    let key_columns := get_key_columns base_name keys_config in
    let missing_keys := filter (λ k, k ∉ data_columns) (default [] key_columns) in
    if truthy key_columns && negb (bool_decide (missing_keys = []))
    then mret (fail conn1 (MsgKeyColumnsNotFound missing_keys))
    else
      match move_data_to_stg conn1 raw_table_name stg_table_name
                             key_columns data_columns now_move with
      | Ok (conn2, stats) =>
          mret (TableResult raw_table_name (Some stg_table_name) true
                            (rows_inserted stats) MsgSuccess,
                conn2,
                log_entries ++
                  [LogEntry "raw_to_stg" stg_table_name (rows_inserted stats) "success"
                            ("From " +:+ raw_table_name) now_log now_log])
      | Raise e => mret (fail conn1 (MsgException e))
      end.

(** The loop of [main] over the raw tables, in the order [get_all_raw_tables]
    lists them; [times] gives the clock readings made while a table is
    processed. *)
Fixpoint process_tables (conn : database) (raw_tables : list string)
    (keys_config : gmap string (list string)) (times : string → string * string)
    (results : list table_result) (log_entries : list log_entry)
  : result (list table_result * database * list log_entry) :=
  match raw_tables with
  | [] => mret (results, conn, log_entries)
  | raw_table :: rest =>
      '(r, conn', log_entries') ←
        process_single_table conn raw_table keys_config log_entries
                             (times raw_table).1 (times raw_table).2;
      process_tables conn' rest keys_config times (results ++ [r]) log_entries'
  end.

(** [main] once the configuration is loaded, the database file is open and
    [raw_tables] is not empty: the loop, the log write, and the value
    [failed_count == 0]. *)
Definition main_body (conn : database) (raw_tables : list string)
    (keys_config : gmap string (list string)) (times : string → string * string)
  : result (bool * list table_result * database) :=
  '(results, conn', log_entries) ←
    process_tables conn raw_tables keys_config times [] [];
  let conn'' := write_log_entries conn' log_entries in
  let success_count := length (filter (λ r, success r = true) results) in
  let failed_count := (length results - success_count)%nat in
  mret (bool_decide (failed_count = 0%nat), results, conn'').

End RawToStgRun.

(** ** scripts/csv_importer.py *)

Module CsvImporter.

Definition chars (s : string) : list ascii := String.list_ascii_of_string s.
Definition of_chars (l : list ascii) : string := String.string_of_list_ascii l.

Definition is_dot (c : ascii) : bool := bool_decide (c = "."%char).

Definition is_digit (c : ascii) : bool :=
  let n := nat_of_ascii c in ((48 <=? n)%nat && (n <=? 57)%nat)%bool.

Definition upper_ascii (c : ascii) : ascii :=
  let n := nat_of_ascii c in
  if ((97 <=? n)%nat && (n <=? 122)%nat)%bool then ascii_of_nat (n - 32) else c.

(** [os.path.splitext(filename)[0]] for a name without directory part: cut at
    the last dot, unless only dots come before it. *)
Definition splitext_root (filename : string) : string :=
  let l := chars filename in
  match list_find (λ c, is_dot c = true) (reverse l) with
  | Some (i, _) =>
      let root := take (length l - S i) l in
      if existsb (λ c, negb (is_dot c)) root then of_chars root else filename
  | None => filename
  end.

(** [parse_filename]: [re.match(r'^(.+)_(\d{8})$', name)] on a name without
    line breaks. *)
Definition parse_filename (filename : string) : string * option string :=
  let name := splitext_root filename in
  let l := chars name in
  let base := take (length l - 9) l in
  match drop (length l - 9) l with
  | sep :: digits =>
      if bool_decide (sep = "_"%char) && forallb is_digit digits
         && bool_decide (length digits = 8%nat) && negb (bool_decide (base = []))
      then (of_chars base, Some (of_chars digits))
      else (name, None)
  | [] => (name, None)
  end.

(** [s.split('_')] *)
Fixpoint split_underscore (l : list ascii) : list (list ascii) :=
  match l with
  | [] => [[]]
  | c :: rest =>
      if bool_decide (c = "_"%char) then [] :: split_underscore rest
      else match split_underscore rest with
           | w :: ws => (c :: w) :: ws
           | [] => [[c]]
           end
  end.

(** [word.capitalize()] *)
Definition capitalize (w : list ascii) : list ascii :=
  match w with
  | [] => []
  | c :: rest => upper_ascii c :: (Str.lower_ascii <$> rest)
  end.

Definition base_name_to_table_name (base_name : string) : string :=
  of_chars (concat (capitalize <$> split_underscore (chars base_name))).

(** [compare_columns]: the Python sets are finite sets of strings, and
    [list(set)] lists a set in an order the language does not fix. *)
Definition compare_columns (table_cols csv_cols : list string)
  : bool * list string * list string :=
  let table_set : gset string := list_to_set (Str.lower <$> table_cols) in
  let csv_set : gset string := list_to_set (Str.lower <$> csv_cols) in
  let table_set := filter (λ col, Str.startswith "_" col = false) table_set in
  let missing_in_csv := table_set ∖ csv_set in
  let extra_in_csv := csv_set ∖ table_set in
  let match_ := bool_decide (size missing_in_csv = 0%nat) &&
                bool_decide (size extra_in_csv = 0%nat) in
  (match_, elements missing_in_csv, elements extra_in_csv).

(** A pandas DataFrame: its column labels and its rows. *)
Record dataframe := DataFrame {
  df_columns : list string;
  df_rows : list (gmap string value)
}.

(** What one call of [pd.read_csv] on a file with a given encoding does:
    it returns, raises [UnicodeDecodeError]/[UnicodeError], or raises some
    other exception [e] (kept as [str(e)]). *)
Inductive read_outcome (A : Type) :=
  | ReadOk (a : A)
  | DecodeError
  | OtherError (msg : string).
Arguments ReadOk {A} a.
Arguments DecodeError {A}.
Arguments OtherError {A} msg.

(** A file of the intake folder, as the importer sees it: its name, and the
    outcome of [pd.read_csv(path, encoding=e)] and of
    [pd.read_csv(path, encoding=e, nrows=0).columns] for every encoding. *)
Record csv_file := CsvFile {
  filename : string;
  read_csv : string → read_outcome dataframe;
  read_header : string → read_outcome (list string)
}.

(** [configs['csv']['import_settings']] with the defaults of [.get] applied. *)
Record import_settings := ImportSettings {
  encoding_attempts : list string;
  trim_whitespace : bool;
  skip_empty_rows : bool
}.

Definition default_settings : import_settings :=
  ImportSettings ["utf-8"; "latin-1"; "cp1252"] true true.

(** Renaming the columns of a frame (the cells follow their column). *)
Definition rename_columns (f : string → string) (df : dataframe) : dataframe :=
  DataFrame (f <$> df_columns df)
            ((λ r, list_to_map ((λ c, (f c, default VNull (r !! c))) <$> df_columns df))
               <$> df_rows df).

(** [df.dropna(how='all')] *)
Definition dropna_all (df : dataframe) : dataframe :=
  DataFrame (df_columns df)
            (filter (λ r, existsb (λ c, negb (bool_decide (default VNull (r !! c) = VNull)))
                                  (df_columns df) = true)
                    (df_rows df)).

Definition clean (settings : import_settings) (df : dataframe) : dataframe :=
  let df := if trim_whitespace settings
            then rename_columns (λ c, Str.collapse_ws (Str.strip c)) df else df in
  if skip_empty_rows settings then dropna_all df else df.

Definition exhausted : string := "Could not read file with any encoding".

(** The loop of [read_csv_file] over the remaining encodings. *)
Fixpoint read_csv_file_from (file : csv_file) (settings : import_settings)
    (encodings : list string) : option dataframe * string :=
  match encodings with
  | [] => (None, exhausted)
  | encoding :: rest =>
      match read_csv file encoding with
      | ReadOk df => (Some (clean settings df), encoding)
      | DecodeError => read_csv_file_from file settings rest
      | OtherError msg => (None, msg)
      end
  end.

(** [read_csv_file]: [(df, encoding_used)] or [(None, error_message)] *)
Definition read_csv_file (file : csv_file) (settings : import_settings)
  : option dataframe * string :=
  read_csv_file_from file settings (encoding_attempts settings).

Fixpoint get_csv_columns_from (file : csv_file) (encodings : list string)
  : option (list string) * option string :=
  match encodings with
  | [] => (None, Some exhausted)
  | encoding :: rest =>
      match read_header file encoding with
      | ReadOk cols => (Some (Str.strip <$> cols), None)
      | DecodeError => get_csv_columns_from file rest
      | OtherError msg => (None, Some msg)
      end
  end.

(** [get_csv_columns]: [(columns, None)] or [(None, error_message)] *)
Definition get_csv_columns (file : csv_file) (settings : import_settings)
  : option (list string) * option string :=
  get_csv_columns_from file (encoding_attempts settings).

(** [df[c] = v] *)
Definition set_column (c : string) (v : value) (df : dataframe) : dataframe :=
  DataFrame (if bool_decide (c ∈ df_columns df) then df_columns df
             else df_columns df ++ [c])
            ((λ r, <[c := v]> r) <$> df_rows df).

Definition to_sql_row (df : dataframe) (r : gmap string value) : row :=
  list_to_map ((λ c, (norm_ident c, default VNull (r !! c))) <$> df_columns df).

(** [df.to_sql(table_name, conn, if_exists='append', index=False)] *)
Definition to_sql_append (conn : database) (table_name : string) (df : dataframe)
  : result database :=
  t ← get_table conn table_name;
  match first_bad (has_column t) (df_columns df) with
  | Some c => Raise (NoColumnNamed table_name c)
  | None =>
      mret (<[table_name := Table (columns t) (rows t ++ (to_sql_row df <$> df_rows df))]> conn)
  end.

(** [df.to_sql(table_name, conn, if_exists='replace', index=False)] *)
Definition to_sql_replace (conn : database) (table_name : string) (df : dataframe)
  : result database :=
  guard (bool_decide (NoDup (norm_ident <$> df_columns df))) (DuplicateColumn table_name);;
  mret (<[table_name := Table (df_columns df) (to_sql_row df <$> df_rows df)]> conn).

(** The [message] of an import result, by kind. *)
Inductive message :=
  | MsgNone                                         (* '' *)
  | MsgInvalidFilename                              (* "Invalid filename format" *)
  | MsgErrorReadingCSV (error : string)             (* f"Error reading CSV: {error}" *)
  | MsgColumnMismatch (missing extra : list string) (* f"Column mismatch - Missing: {missing}, Extra: {extra}" *)
  | MsgSuccess                                      (* "Success" *)
  | MsgException (e : sql_error).                   (* str(e) *)

Record import_result := ImportResult {
  result_filename : string;
  success : bool;
  result_table_name : option string;
  rows_imported : Z;
  result_message : message
}.

(** A function that returns or lets an exception escape. *)
Inductive outcome (A : Type) :=
  | Returned (a : A)
  | Uncaught.
Arguments Returned {A} a.
Arguments Uncaught {A}.

(** [import_single_csv].  [now] and [now_done] are its two clock readings.
    An exception escapes in one place: when [get_csv_columns] reports an
    error whose text is empty, [if error:] does not fire and
    [compare_columns] is handed [None]. *)
Definition import_single_csv (conn : database) (file : csv_file)
    (settings : import_settings) (log_entries : list log_entry) (now now_done : string)
  : outcome (import_result * database * list log_entry) :=
  let '(base_name, date_str) := parse_filename (filename file) in
  let fail table_name msg :=
    Returned (ImportResult (filename file) false table_name 0 msg, conn, log_entries) in
  if bool_decide (base_name = "") then fail None MsgInvalidFilename
  else
    let table_name := "raw" +:+ base_name_to_table_name base_name in
    let exists_ := RawToStg.table_exists conn table_name in
    let load :=
      match read_csv_file file settings with
      | (None, encoding) => fail (Some table_name) (MsgErrorReadingCSV encoding)
      | (Some df, encoding) =>
          let df := set_column "_imported_at" (VText now) df in
          let df := set_column "_source_file" (VText (filename file)) df in
          let df := match date_str with
                    | Some d => if bool_decide (d = "") then df
                                else set_column "_file_date" (VText d) df
                    | None => df
                    end in
          match (if exists_ then to_sql_append conn table_name df
                 else to_sql_replace conn table_name df) with
          | Ok conn' =>
              Returned (ImportResult (filename file) true (Some table_name)
                                     (Z.of_nat (length (df_rows df))) MsgSuccess,
                        conn',
                        log_entries ++
                          [LogEntry "csv_import" table_name (Z.of_nat (length (df_rows df)))
                                    "success" ("Imported from " +:+ filename file)
                                    now now_done])
          | Raise e => fail (Some table_name) (MsgException e)
          end
      end in
    if exists_ then
      let table_cols := RawToStg.get_table_columns conn table_name in
      match get_csv_columns file settings with
      | (_, Some error) =>
          if bool_decide (error = "") then Uncaught
          else fail (Some table_name) (MsgErrorReadingCSV error)
      | (None, None) => Uncaught
      | (Some csv_cols, None) =>
          let '(match_, missing, extra) := compare_columns table_cols csv_cols in
          if negb match_ then fail (Some table_name) (MsgColumnMismatch missing extra)
          else load
      end
    else load.

(** The loop of [process_csv_folder] over the sorted file list. *)
Fixpoint import_files (conn : database) (csv_files : list csv_file)
    (settings : import_settings) (times : string → string * string)
    (results : list import_result) (log_entries : list log_entry)
  : outcome (list import_result * database * list log_entry) :=
  match csv_files with
  | [] => Returned (results, conn, log_entries)
  | file :: rest =>
      match import_single_csv conn file settings log_entries
              (times (filename file)).1 (times (filename file)).2 with
      | Returned (r, conn', log_entries') =>
          import_files conn' rest settings times (results ++ [r]) log_entries'
      | Uncaught => Uncaught
      end
  end.

(** [process_csv_folder]: the loop, then the log entries go to [_etl_log]. *)
Definition process_csv_folder (csv_files : list csv_file) (settings : import_settings)
    (conn : database) (times : string → string * string)
  : outcome (list import_result * database) :=
  match import_files conn csv_files settings times [] [] with
  | Returned (results, conn', log_entries) =>
      Returned (results, write_log_entries conn' log_entries)
  | Uncaught => Uncaught
  end.

(** What [main] finds when it starts. *)
Record world := World {
  configs : option import_settings;     (* [None]: [load_configs] raises *)
  db_file : option database;            (* [None]: no file at [db_path] *)
  folder : option (list csv_file);      (* [None]: the folder does not exist *)
  stdin : option string;                (* the line [input()] reads; [None]: end of file *)
  times : string → string * string
}.

(** [main(use_sample)]: its return value and the database it leaves.  Moving
    the processed files away does not change either. *)
Definition main (use_sample : bool) (w : world) : outcome (bool * option database) :=
  match configs w with
  | None => Returned (false, db_file w)
  | Some settings =>
      match db_file w with
      | None => Returned (false, None)
      | Some conn =>
          match folder w with
          | None => Returned (false, Some conn)
          | Some csv_files =>
              match process_csv_folder csv_files settings conn (times w) with
              | Uncaught => Uncaught
              | Returned (results, conn') =>
                  let success_count := length (filter (λ r, success r = true) results) in
                  let failed_count := (length results - success_count)%nat in
                  if negb use_sample && bool_decide (0 < success_count)%nat
                  then match stdin w with
                       | None => Uncaught
                       | Some _ => Returned (bool_decide (failed_count = 0%nat), Some conn')
                       end
                  else Returned (bool_decide (failed_count = 0%nat), Some conn')
              end
          end
      end
  end.

(** The script itself: [if __name__ == "__main__": main(use_sample=...)].
    The value [main] returns is dropped, so the process ends with status 0
    unless an exception escapes (status 1). *)
Definition script_returncode (use_sample : bool) (w : world) : Z :=
  match main use_sample w with
  | Returned _ => 0
  | Uncaught => 1
  end.

End CsvImporter.

(** ** scripts/run_pipeline.py *)

Module RunPipeline.

(** [run_step], given the status the step's subprocess ended with *)
Definition run_step (returncode : Z) : bool :=
  if bool_decide (returncode ≠ 0) then false else true.

(** [main]: the steps run in order, and the first one for which [run_step]
    is false stops the pipeline with [sys.exit(1)]; otherwise the pipeline
    announces that all steps finished successfully (status 0).  A step's
    status is only looked at when every earlier step has passed. *)
Fixpoint main (returncodes : list Z) : Z :=
  match returncodes with
  | [] => 0
  | rc :: rest => if run_step rc then main rest else 1
  end.

End RunPipeline.

(** ** scripts/stg_to_rpt.py *)

Module StgToRpt.

(** [COALESCE(v, d)] *)
Definition coalesce (v d : value) : value :=
  match v with
  | VNull => d
  | _ => v
  end.

Definition account_summary_columns : list string :=
  ["account_type"; "currency"; "status"; "account_count"; "total_balance";
   "avg_balance"; "min_balance"; "max_balance"; "updated_at"].

(** [GROUP BY account_type, currency, status]: the names are columns of the
    staging table, so the groups are formed on the stored cells (NULL is a
    group value of its own), not on the COALESCEd result columns. *)
Definition group_key (r : row) : value * value * value :=
  (cell r "account_type", cell r "currency", cell r "status").

Definition group_members (stg : table) (g : value * value * value) : list row :=
  filter (λ r, group_key r = g) (rows stg).

Definition groups (stg : table) : list (value * value * value) :=
  remove_dups (group_key <$> rows stg).

Section Aggregates.

(** SUM, AVG, MIN and MAX of the [balance] cells of a group.  They compute on
    REAL numbers and are kept abstract. *)
Variables sql_sum sql_avg sql_min sql_max : list value → value.

(** The result row of one group. *)
Definition summary_row (stg : table) (now : string) (g : value * value * value) : row :=
  let '(account_type, currency, status) := g in
  let members := group_members stg g in
  let balances := (λ r, cell r "balance") <$> members in
  list_to_map (zip (norm_ident <$> account_summary_columns)
    [coalesce account_type (VText "Unknown");
     coalesce currency (VText "USD");
     coalesce status (VText "active");
     VInt (Z.of_nat (length members));
     coalesce (sql_sum balances) (VInt 0);
     coalesce (sql_avg balances) (VInt 0);
     coalesce (sql_min balances) (VInt 0);
     coalesce (sql_max balances) (VInt 0);
     VText now]).

(** [create_account_summary]: the database it leaves, and the count it
    returns or the exception of the CREATE TABLE ... AS SELECT.  The DROP is
    a statement of its own and has taken effect when the SELECT fails. *)
Definition create_account_summary (conn : database) (now : string)
  : database * result Z :=
  match conn !! "stgAccountProducts" with
  | None => (conn, Ok 0)
  | Some stg =>
      let conn1 := delete "rptAccountSummary" conn in
      match first_bad (has_column stg) ["account_type"; "currency"; "status"; "balance"] with
      | Some c => (conn1, Raise (NoSuchColumn "" c))
      | None =>
          let rpt := Table account_summary_columns (summary_row stg now <$> groups stg) in
          (<["rptAccountSummary" := rpt]> conn1, Ok (Z.of_nat (length (rows rpt))))
      end
  end.

End Aggregates.

End StgToRpt.

(** ** scripts/raw_to_stg.py: the table list and [main] *)

Module RawToStgMain.
Import RawToStg RawToStgRun.

(** [name LIKE 'raw%']: LIKE folds ASCII case. *)
Definition like_raw (name : string) : bool :=
  Str.startswith "raw" (Str.lower name).

(** ORDER BY name: byte order. *)
Definition name_le (a b : string) : Prop := String.leb a b = true.

#[global] Instance name_le_dec : RelDecision name_le.
Proof. intros a b. unfold name_le. apply _. Defined.

(** [get_all_raw_tables]: the names of [sqlite_master] that are LIKE 'raw%'
    and NOT LIKE '_%' (escaped underscore), ORDER BY name. *)
Definition get_all_raw_tables (conn : database) : list string :=
  merge_sort name_le
    (filter (λ name, like_raw name && negb (Str.startswith "_" name) = true)
            (elements (dom conn))).

(** What [main] finds when it starts. *)
Record world := World {
  configs : option (gmap string (list string));   (* [None]: [load_configs] raises *)
  db_file : option database;                      (* [None]: no file at [db_path] *)
  times : string → string * string
}.

(** [main]: its return value and the database it leaves. *)
Definition main (w : world) : result (bool * option database) :=
  match configs w with
  | None => mret (false, db_file w)
  | Some keys_config =>
      match db_file w with
      | None => mret (false, None)
      | Some conn =>
          let raw_tables := get_all_raw_tables conn in
          if bool_decide (raw_tables = []) then mret (false, Some conn)
          else
            '(ok, _, conn') ← main_body conn raw_tables keys_config (times w);
            mret (ok, Some conn')
      end
  end.

End RawToStgMain.

(** ** scripts/csv_importer.py: the archive *)

Module CsvImporterArchive.
Import CsvImporter.

(** [move_processed_files]: every CSV file of the folder is moved to the
    archive folder of the day; the count and the names moved. *)
Definition move_processed_files (folder_files : list csv_file) : nat * list string :=
  (length folder_files, filename <$> folder_files).

(** The names [main(use_sample)] moves to the archive. *)
Definition archived (use_sample : bool) (w : world) : outcome (list string) :=
  match configs w, db_file w, folder w with
  | Some settings, Some conn, Some csv_files =>
      match process_csv_folder csv_files settings conn (times w) with
      | Uncaught => Uncaught
      | Returned (results, _) =>
          let success_count := length (filter (λ r, success r = true) results) in
          if negb use_sample && bool_decide (0 < success_count)%nat
          then match stdin w with
               | None => Uncaught
               | Some line =>
                   if bool_decide (Str.lower (Str.strip line) = "yes")
                   then Returned (move_processed_files csv_files).2
                   else Returned []
               end
          else Returned []
      end
  | _, _, _ => Returned []
  end.

End CsvImporterArchive.

(** * Specification vocabulary *)

Module Spec.
Import RawToStg.

(** When the statement of [move_data_to_stg] compiles: both tables exist,
    the column lists are not empty and every name resolves. *)
Definition resolves (conn : database) (raw_table_name stg_table_name : string)
    (key_columns : option (list string)) (data_columns : list string)
    (stg raw : table) : Prop :=
  conn !! stg_table_name = Some stg ∧
  conn !! raw_table_name = Some raw ∧
  data_columns ≠ [] ∧
  Forall (λ c, has_column stg c = true) (data_columns ++ stg_meta_columns) ∧
  if truthy key_columns
  then Forall (λ k, has_column stg k = true ∧ has_column raw k = true)
              (default [] key_columns)
  else norm_ident raw_table_name = "raw" ∧
       Forall (λ c, has_column stg c = true ∧ has_column raw c = true) data_columns.

(** The acceptance test of a raw row against the staging rows. *)
Definition accepts (key_columns : option (list string)) (data_columns : list string)
    (stg : table) (r : row) : bool :=
  if truthy key_columns
  then not_exists stg (λ s, key_conditions (default [] key_columns) s r)
  else not_exists stg (λ s, full_row_conditions data_columns s r).

Definition accepted_rows (key_columns : option (list string)) (data_columns : list string)
    (now raw_table_name : string) (stg raw : table) : list row :=
  insert_row data_columns now raw_table_name
    <$> select_distinct raw data_columns
          (filter (λ r, accepts key_columns data_columns stg r = true) (rows raw)).

(** The identity of a row under the key [keys]: its cells in the key
    columns. *)
Definition key_of (keys : list string) (r : row) : list value :=
  cell r <$> keys.

(** A table holds no two rows (at different positions) that agree on every
    column of [keys]. *)
Definition no_duplicates (keys : list string) (t : table) : Prop :=
  NoDup (key_of keys <$> rows t).

(** No row of the table has a NULL cell in a key column. *)
Definition key_cells_not_null (keys : list string) (t : table) : Prop :=
  Forall (λ r, Forall (λ k, cell r k ≠ VNull) keys) (rows t).

(** Two rows of the raw table that share a key which staging does not hold
    yet agree on every data column. *)
Definition new_keys_unambiguous (keys data_columns : list string) (stg raw : table) : Prop :=
  Forall (λ r1, Forall (λ r2,
            key_of keys r1 = key_of keys r2 →
            key_of keys r1 ∉ key_of keys <$> rows stg →
            key_of data_columns r1 = key_of data_columns r2) (rows raw)) (rows raw).

(** The states of the database in which the staging table [stg_table_name]
    started empty and was only ever written by keyed runs of
    [move_data_to_stg] on batches without NULL keys and with unambiguous new
    keys.  Between runs, any other table may change (new intake arrives). *)
Inductive reachable (stg_table_name : string) (keys data_columns : list string)
  : database → Prop :=
  | reach_empty conn cols :
      conn !! stg_table_name = Some (Table cols []) →
      reachable stg_table_name keys data_columns conn
  | reach_intake conn name t :
      reachable stg_table_name keys data_columns conn →
      name ≠ stg_table_name →
      reachable stg_table_name keys data_columns (<[name := t]> conn)
  | reach_run conn conn' raw_table_name now st stg raw :
      reachable stg_table_name keys data_columns conn →
      conn !! stg_table_name = Some stg →
      conn !! raw_table_name = Some raw →
      key_cells_not_null keys raw →
      new_keys_unambiguous keys data_columns stg raw →
      move_data_to_stg conn raw_table_name stg_table_name
                       (Some keys) data_columns now = Ok (conn', st) →
      reachable stg_table_name keys data_columns conn'.

(** The two column sets [compare_columns] compares, as membership tests on
    the column lists: the lower-cased table columns that do not begin with an
    underscore, and the lower-cased CSV columns. *)
Definition in_table_set (table_cols : list string) (x : string) : Prop :=
  ∃ c, c ∈ table_cols ∧ x = Str.lower c ∧ Str.startswith "_" x = false.

Definition in_csv_set (csv_cols : list string) (x : string) : Prop :=
  ∃ c, c ∈ csv_cols ∧ x = Str.lower c.

(** The log entries a list of batch results stands for: one entry per
    successful result, none for a failed one. *)
Definition import_entries (times : string → string * string)
    (results : list CsvImporter.import_result) : list log_entry :=
  r ← results;
  if CsvImporter.success r
  then [LogEntry "csv_import" (default "" (CsvImporter.result_table_name r))
                 (CsvImporter.rows_imported r) "success"
                 ("Imported from " +:+ CsvImporter.result_filename r)
                 (times (CsvImporter.result_filename r)).1
                 (times (CsvImporter.result_filename r)).2]
  else [].

Definition staging_entries (times : string → string * string)
    (results : list table_result) : list log_entry :=
  r ← results;
  if success r
  then [LogEntry "raw_to_stg" (default "" (stg_table r)) (result_rows_inserted r)
                 "success" ("From " +:+ raw_table r)
                 (times (raw_table r)).2 (times (raw_table r)).2]
  else [].

End Spec.

(** * Further vocabulary *)

Module Notions.
Import CsvImporter.

(** A name made of ASCII characters, none of them a line break: the names
    on which the byte-wise reading of [str.lower], [str.capitalize] and of
    the regular expression of [parse_filename] is the one Python makes. *)
Definition ascii_name (s : string) : Prop :=
  Forall (λ c, (nat_of_ascii c < 128)%nat ∧ c ≠ "010"%char ∧ c ≠ "013"%char) (chars s).

(** A database whose table and column names hold no double quote and no
    closing bracket: the names that the statements of raw_to_stg.py, which
    puts them between such marks as they are, name correctly. *)
Definition plain_identifier (s : string) : Prop :=
  Forall (λ c, nat_of_ascii c ≠ 34%nat ∧ nat_of_ascii c ≠ 93%nat) (chars s).

Definition plain_names (conn : database) : Prop :=
  map_Forall (λ name t, plain_identifier name ∧ Forall plain_identifier (columns t)) conn.

(** The frame [import_single_csv] hands to [to_sql]: the file's frame with
    the metadata columns set. *)
Definition stamped (now file_name : string) (date_str : option string) (df : dataframe)
  : dataframe :=
  let df := set_column "_imported_at" (VText now) df in
  let df := set_column "_source_file" (VText file_name) df in
  match date_str with
  | Some d => if bool_decide (d = "") then df else set_column "_file_date" (VText d) df
  | None => df
  end.

End Notions.

(** * Scenarios

    Concrete databases on which the properties are exercised. *)

Module Scenarios.

Definition customer (customer_id name : value) : row :=
  <["customer_id" := customer_id]> (<["name" := name]> ∅).

(** The row [move_data_to_stg] stages for a customer. *)
Definition staged_customer (customer_id name : value) (now : string) : row :=
  <["customer_id" := customer_id]> (<["name" := name]>
  (<["_stg_loaded_at" := VText now]> (<["_stg_source_table" := VText "rawCustomers"]> ∅))).

Definition raw_customers (batch : list row) : table :=
  Table ["customer_id"; "name"; "_imported_at"; "_source_file"] batch.

Definition stg_customers (staged : list row) : table :=
  Table ["customer_id"; "name"; "_stg_loaded_at"; "_stg_source_table"] staged.

(** The raw customers table holding [batch], the staging table holding
    [staged]. *)
Definition customers_staged (batch staged : list row) : database :=
  <["rawCustomers" := raw_customers batch]> (<["stgCustomers" := stg_customers staged]> ∅).

(** The same before anything is staged. *)
Definition customers_db (batch : list row) : database := customers_staged batch [].

(** Two customers with distinct, non-NULL keys. *)
Definition two_customers : list row :=
  [customer (VText "C1") (VText "Ann"); customer (VText "C2") (VText "Bea")].

(** A customer whose key cell is NULL. *)
Definition null_key_customer : list row :=
  [customer VNull (VText "Zed")].

(** One raw batch with two rows that share the key and differ on [name]. *)
Definition same_key_twice : list row :=
  [customer (VText "C1") (VText "Ann"); customer (VText "C1") (VText "Anne")].

(** An entity without declared key: audit events.  No staging table yet. *)
Definition audit_event (event : value) : row := <["event" := event]> ∅.

Definition raw_audit_log (batch : list row) : table :=
  Table ["event"; "_imported_at"; "_source_file"] batch.

Definition audit_db (batch : list row) : database :=
  <["rawAuditLog" := raw_audit_log batch]> ∅.

(** The same once [create_stg_table] has created the (empty) staging table. *)
Definition audit_db_stg (batch : list row) : database :=
  <["stgAuditLog" := Table ["event"; "_stg_loaded_at"; "_stg_source_table"] []]>
  (audit_db batch).

Definition login_event : list row := [audit_event (VText "login")].

(** The table-keys configuration names a key column the raw table lacks. *)
Definition wrong_key_config : gmap string (list string) :=
  {[ "Customers" := ["customer_no"] ]}.

(** The raw accounts table exists with data columns a, b, c; the audit log
    table exists and is empty. *)
Definition accounts_db : database :=
  <["rawAccounts" := Table ["a"; "b"; "c"; "_imported_at"; "_source_file"; "_file_date"] []]>
  (<["_etl_log" := Table ["id"; "operation"; "table_name"; "rows_affected"; "status";
                          "message"; "started_at"; "completed_at"] []]> ∅).

(** A file that any encoding reads, with the given header and no rows. *)
Definition readable_file (name : string) (header : list string) : CsvImporter.csv_file :=
  CsvImporter.CsvFile name
    (λ _, CsvImporter.ReadOk (CsvImporter.DataFrame header []))
    (λ _, CsvImporter.ReadOk header).

(** An accounts file whose columns are a, b, d. *)
Definition drifted_file : CsvImporter.csv_file :=
  readable_file "accounts_20260202.csv" ["a"; "b"; "d"].

(** An accounts file with the table's columns and one more that begins with
    an underscore. *)
Definition underscore_file : CsvImporter.csv_file :=
  readable_file "accounts_20260203.csv" ["a"; "b"; "c"; "_Note"].

(** An accounts file with the table's columns and one row. *)
Definition matching_file : CsvImporter.csv_file :=
  CsvImporter.CsvFile "accounts_20260204.csv"
    (λ _, CsvImporter.ReadOk
            (CsvImporter.DataFrame ["a"; "b"; "c"]
               [<["a" := VInt 1]> (<["b" := VInt 2]> (<["c" := VInt 3]> ∅))]))
    (λ _, CsvImporter.ReadOk ["a"; "b"; "c"]).

(** The database after the matching file has been imported and logged. *)
Definition accounts_imported : database :=
  <["rawAccounts" :=
      Table ["a"; "b"; "c"; "_imported_at"; "_source_file"; "_file_date"]
        [<["a" := VInt 1]> (<["b" := VInt 2]> (<["c" := VInt 3]>
         (<["_imported_at" := VText "2026-02-02 10:00:00"]>
         (<["_source_file" := VText "accounts_20260204.csv"]>
         (<["_file_date" := VText "20260204"]> ∅)))))]]>
  (<["_etl_log" :=
       Table ["id"; "operation"; "table_name"; "rows_affected"; "status";
              "message"; "started_at"; "completed_at"]
         [log_row (LogEntry "csv_import" "rawAccounts" 1 "success"
                            "Imported from accounts_20260204.csv"
                            "2026-02-02 10:00:00" "2026-02-02 10:00:01")]]> ∅).

(** A file that utf-8 cannot decode and latin-1 reads. *)
Definition latin1_file : CsvImporter.csv_file :=
  CsvImporter.CsvFile "branches.csv"
    (λ encoding, if bool_decide (encoding = "utf-8") then CsvImporter.DecodeError
                 else CsvImporter.ReadOk (CsvImporter.DataFrame ["branch_id"] []))
    (λ encoding, if bool_decide (encoding = "utf-8") then CsvImporter.DecodeError
                 else CsvImporter.ReadOk ["branch_id"]).

(** A plain file every real encoding reads, and a configuration whose first
    encoding name is misspelt: Python does not know the codec and raises
    [LookupError], which is not a decoding error. *)
Definition plain_file : CsvImporter.csv_file :=
  CsvImporter.CsvFile "branches.csv"
    (λ encoding, if bool_decide (encoding = "utf8x")
                 then CsvImporter.OtherError "unknown encoding: utf8x"
                 else CsvImporter.ReadOk (CsvImporter.DataFrame ["branch_id"] []))
    (λ encoding, if bool_decide (encoding = "utf8x")
                 then CsvImporter.OtherError "unknown encoding: utf8x"
                 else CsvImporter.ReadOk ["branch_id"]).

Definition misspelt_settings : CsvImporter.import_settings :=
  CsvImporter.ImportSettings ["utf8x"; "latin-1"; "cp1252"] true true.

(** A file no encoding of the default list can decode. *)
Definition undecodable_file : CsvImporter.csv_file :=
  CsvImporter.CsvFile "branches.csv"
    (λ _, CsvImporter.DecodeError) (λ _, CsvImporter.DecodeError).

Definition fixed_times : string → string * string :=
  λ _, ("2026-02-02 10:00:00", "2026-02-02 10:00:01").

(** A run of the importer on the incoming folder holding the drifted file. *)
Definition drifted_world : CsvImporter.world :=
  CsvImporter.World (Some CsvImporter.default_settings) (Some accounts_db)
                    (Some [drifted_file]) None fixed_times.

(** Staged accounts: three checking and two savings accounts, and a report
    table left by an earlier build that still lists a group ("closed") no
    staged account belongs to. *)
Definition account (account_type : string) (balance : Z) : row :=
  <["account_type" := VText account_type]> (<["currency" := VText "USD"]>
  (<["status" := VText "active"]> (<["balance" := VInt balance]> ∅))).

Definition stg_accounts : table :=
  Table ["account_id"; "account_type"; "currency"; "status"; "balance";
         "_stg_loaded_at"; "_stg_source_table"]
    [account "checking" 10; account "savings" 20; account "checking" 30;
     account "checking" 40; account "savings" 50].

Definition stale_report : table :=
  Table StgToRpt.account_summary_columns
    [<["account_type" := VText "closed"]> (<["account_count" := VInt 7]> ∅)].

Definition accounts_report_db : database :=
  <["stgAccountProducts" := stg_accounts]> (<["rptAccountSummary" := stale_report]> ∅).

(** A stand-in for the numeric aggregates, where their value is of no
    interest. *)
Definition no_aggregate : list value → value := λ _, VNull.

End Scenarios.

Module MoreScenarios.
Import Scenarios.

(** The accounts database once the matching file is loaded, its import not
    yet logged. *)
Definition accounts_loaded (now : string) (copies : nat) : database :=
  <["rawAccounts" :=
      Table ["a"; "b"; "c"; "_imported_at"; "_source_file"; "_file_date"]
        (replicate copies
           (<["a" := VInt 1]> (<["b" := VInt 2]> (<["c" := VInt 3]>
            (<["_imported_at" := VText now]>
            (<["_source_file" := VText "accounts_20260204.csv"]>
            (<["_file_date" := VText "20260204"]> ∅)))))))]> accounts_db.


(** A run of the importer on a folder holding a file that is rejected and a
    file that is imported, the user agreeing to archive. *)
Definition mixed_world : CsvImporter.world :=
  CsvImporter.World (Some CsvImporter.default_settings) (Some accounts_db)
                    (Some [drifted_file; matching_file]) (Some " Yes ") fixed_times.

End MoreScenarios.

Module ReportScenarios.
Import Scenarios.

(** A staging table of the accounts that has lost its [balance] column,
    beside a report built earlier. *)
Definition accounts_without_balance : database :=
  <["stgAccountProducts" :=
      Table ["account_id"; "account_type"; "currency"; "status"]
            [<["account_type" := VText "checking"]> ∅]]>
  (<["rptAccountSummary" := stale_report]> ∅).

(** Two staged accounts, one without account type and one whose account
    type is spelt Unknown. *)
Definition untyped_accounts : database :=
  <["stgAccountProducts" :=
      Table ["account_id"; "account_type"; "currency"; "status"; "balance"]
            [<["currency" := VText "USD"]> (<["status" := VText "active"]> ∅);
             account "Unknown" 10]]> ∅.

End ReportScenarios.

Module HeaderScenarios.
Import Scenarios.

(** A file of people whose only column is spelt with two blanks inside. *)
Definition spaced_file : CsvImporter.csv_file :=
  CsvImporter.CsvFile "people_20260301.csv"
    (λ _, CsvImporter.ReadOk
            (CsvImporter.DataFrame ["first  name"] [<["first  name" := VText "Ann"]> ∅]))
    (λ _, CsvImporter.ReadOk ["first  name"]).

(** The accounts database once that file has created its table. *)
Definition people_loaded : database :=
  <["rawPeople" :=
      Table ["first name"; "_imported_at"; "_source_file"; "_file_date"]
        [<["first name" := VText "Ann"]>
         (<["_imported_at" := VText "2026-03-01 10:00:00"]>
         (<["_source_file" := VText "people_20260301.csv"]>
         (<["_file_date" := VText "20260301"]> ∅)))]]> accounts_db.

End HeaderScenarios.

(** * Properties *)

(** ** The examples of the docstrings *)

Module Docstrings.

Example parse_filename_dated :
  CsvImporter.parse_filename "customer_profiles_20260202.csv"
    = ("customer_profiles", Some "20260202").
Proof. reflexivity. Qed.

Example parse_filename_undated :
  CsvImporter.parse_filename "loans.csv" = ("loans", None).
Proof. reflexivity. Qed.

Example base_name_to_table_name_profiles :
  CsvImporter.base_name_to_table_name "customer_profiles" = "CustomerProfiles".
Proof. reflexivity. Qed.

Example base_name_to_table_name_audit :
  CsvImporter.base_name_to_table_name "audit_log" = "AuditLog".
Proof. reflexivity. Qed.

Example raw_to_stg_name_profiles :
  RawToStg.raw_to_stg_name "rawCustomerProfiles" = "stgCustomerProfiles".
Proof. reflexivity. Qed.

Example get_base_table_name_profiles :
  RawToStg.get_base_table_name "rawCustomerProfiles" = "CustomerProfiles".
Proof. reflexivity. Qed.

End Docstrings.

(** ** Strings *)

Module StrFacts.
Import Str.

Lemma lower_ascii_underscore c : lower_ascii c = "_"%char ↔ c = "_"%char.
Proof.
  destruct c as [[] [] [] [] [] [] [] []]; vm_compute; split; intros H;
    first [exact H | discriminate H].
Qed.

Lemma startswith_underscore_cons c s :
  startswith "_" (String c s) = bool_decide (c = "_"%char).
Proof.
  unfold startswith. cbn -[Ascii.ascii_dec].
  destruct (Ascii.ascii_dec "_" c) as [E|E]; symmetry.
  - destruct s; by apply bool_decide_eq_true.
  - apply bool_decide_eq_false. by intros ->.
Qed.

Lemma startswith_underscore_lower s :
  startswith "_" (lower s) = startswith "_" s.
Proof.
  destruct s as [|c s]; [done|].
  cbn [lower]. rewrite !startswith_underscore_cons.
  apply bool_decide_ext, lower_ascii_underscore.
Qed.

Lemma rstrip_cons c s :
  isspace c = false → ∃ s', rstrip (String c s) = String c s'.
Proof.
  intros Hc. simpl. destruct (rstrip s); [rewrite Hc|]; eauto.
Qed.

Lemma startswith_underscore_strip s :
  startswith "_" s = true → startswith "_" (strip s) = true.
Proof.
  destruct s as [|c s]; [done|].
  rewrite startswith_underscore_cons. intros ->%bool_decide_eq_true.
  unfold strip. change (lstrip (String "_" s)) with (String "_"%char s).
  destruct (rstrip_cons "_" s) as [s' ->]; [done|].
  rewrite startswith_underscore_cons. by apply bool_decide_eq_true.
Qed.

End StrFacts.

(** ** SQL conditions and name resolution *)

Module SqlFacts.
Import RawToStg Spec.

Lemma sql_and_all_true conds :
  sql_and_all conds = Some true ↔ Forall (λ c, c = Some true) conds.
Proof.
  induction conds as [|c conds IH]; simpl.
  - split; [constructor | done].
  - rewrite Forall_cons, <- IH.
    destruct c as [[]|], (sql_and_all conds) as [[]|]; simpl; naive_solver.
Qed.

Lemma where_true_iff x : where_true x = true ↔ x = Some true.
Proof. destruct x as [[]|]; simpl; naive_solver. Qed.

Lemma sql_eq_true a b : sql_eq a b = Some true ↔ a = b ∧ a ≠ VNull.
Proof.
  destruct a, b; simpl; try naive_solver;
    (split; [intros [= ?%bool_decide_eq_true]; naive_solver
            | intros [-> _]; f_equal; by apply bool_decide_eq_true]).
Qed.

Lemma sql_is_true a b : sql_is a b = Some true ↔ a = b.
Proof.
  unfold sql_is. split.
  - by intros [= ?%bool_decide_eq_true].
  - intros ->. f_equal. by apply bool_decide_eq_true.
Qed.

Lemma cell_norm (r : row) c c' : norm_ident c = norm_ident c' → cell r c = cell r c'.
Proof. unfold cell. by intros ->. Qed.

Lemma has_column_norm t c c' :
  norm_ident c = norm_ident c' → has_column t c = has_column t c'.
Proof. unfold has_column. by intros ->. Qed.

Lemma has_column_elem t c : c ∈ columns t → has_column t c = true.
Proof.
  intros Hc. apply bool_decide_eq_true. by apply list_elem_of_fmap_2.
Qed.

Lemma first_bad_None {A} (ok : A → bool) l :
  first_bad ok l = None ↔ Forall (λ x, ok x = true) l.
Proof.
  unfold first_bad. induction l as [|x l IH]; simpl.
  - split; [constructor | done].
  - rewrite Forall_cons. destruct (ok x); simpl; naive_solver.
Qed.

Lemma resolve_conditions_Ok stg_has raw_has cols u :
  resolve_conditions stg_has raw_has cols = Ok u ↔
  Forall (λ c, stg_has c = true ∧ raw_has c = true) cols.
Proof.
  destruct u. induction cols as [|c cols IH]; simpl.
  - split; [constructor | done].
  - rewrite Forall_cons. destruct (stg_has c), (raw_has c); simpl; naive_solver.
Qed.

(** The key test is true exactly when the two rows agree on every key column
    and none of those cells is NULL. *)
Lemma key_conditions_true keys (s r : row) :
  key_conditions keys s r = Some true ↔
  key_of keys s = key_of keys r ∧ Forall (λ k, cell r k ≠ VNull) keys.
Proof.
  unfold key_conditions, key_of. rewrite sql_and_all_true, Forall_fmap.
  induction keys as [|k keys IH]; simpl.
  - split; [by split; [|constructor] | constructor].
  - rewrite !Forall_cons, IH. simpl. rewrite sql_eq_true. split.
    + intros [[E N] [E' N']]. split; [by f_equal | split; [congruence | done]].
    + intros [[= E E'] [N N']]. split; [split; congruence | done].
Qed.

(** The full-row test is true exactly when the two rows agree on every data
    column, NULL agreeing with NULL. *)
Lemma full_row_conditions_true cols (s r : row) :
  full_row_conditions cols s r = Some true ↔ key_of cols s = key_of cols r.
Proof.
  unfold full_row_conditions, key_of. rewrite sql_and_all_true, Forall_fmap.
  induction cols as [|c cols IH]; simpl.
  - split; [done | constructor].
  - rewrite Forall_cons, IH. simpl. rewrite sql_is_true. split.
    + intros [E E']. by f_equal.
    + intros [= E E']. done.
Qed.

Lemma not_exists_true stg cond :
  not_exists stg cond = true ↔ ∀ s, s ∈ rows stg → cond s ≠ Some true.
Proof.
  unfold not_exists. rewrite negb_true_iff, <- not_true_iff_false, existsb_exists.
  split.
  - intros H s Hs E. apply H. exists s. split; [by apply list_elem_of_In|].
    by apply where_true_iff.
  - intros H (s & Hs%list_elem_of_In & E%where_true_iff). by eapply H.
Qed.

(** The cell an inserted row holds in a data column is the raw row's cell. *)
Lemma insert_row_lookup raw (r : row) dc k rest_names rest_vals :
  k ∈ dc → has_column raw k = true →
  (list_to_map (zip (norm_ident <$> (dc ++ rest_names))
                    ((select_value raw r <$> dc) ++ rest_vals)) : row)
    !! norm_ident k = Some (cell r k).
Proof.
  intros Hk Hraw. induction dc as [|c dc IH]; [by apply elem_of_nil in Hk|].
  simpl. destruct (decide (norm_ident c = norm_ident k)) as [E|E].
  - rewrite E, lookup_insert_eq. f_equal. unfold select_value.
    by rewrite (has_column_norm _ _ _ E), Hraw, (cell_norm _ _ _ E).
  - rewrite lookup_insert_ne by done. apply IH.
    apply elem_of_cons in Hk as [->|Hk]; done.
Qed.

Lemma insert_row_cell raw (r : row) dc now rn k :
  k ∈ dc → has_column raw k = true →
  cell (insert_row dc now rn (select_value raw r <$> dc)) k = cell r k.
Proof.
  intros Hk Hraw. unfold cell at 1, insert_row.
  by rewrite (insert_row_lookup raw r dc k).
Qed.

Lemma insert_row_key_of raw (r : row) dc now rn keys :
  keys ⊆ dc → Forall (λ k, has_column raw k = true) keys →
  key_of keys (insert_row dc now rn (select_value raw r <$> dc)) = key_of keys r.
Proof.
  intros Hsub Hraw. unfold key_of. apply Forall_fmap_ext_1.
  rewrite Forall_forall in Hraw |- *. intros k Hk.
  apply (insert_row_cell raw); auto.
Qed.

End SqlFacts.

(** ** move_data_to_stg *)

Module RawToStgFacts.
Import RawToStg Spec SqlFacts.

Lemma move_data_to_stg_Ok conn rn sn kc dc now conn' st :
  move_data_to_stg conn rn sn kc dc now = Ok (conn', st) ↔
  ∃ stg raw,
    resolves conn rn sn kc dc stg raw ∧
    conn' = <[sn := Table (columns stg)
                          (rows stg ++ accepted_rows kc dc now rn stg raw)]> conn ∧
    st = Stats (Z.of_nat (length (rows stg ++ accepted_rows kc dc now rn stg raw))
                - Z.of_nat (length (rows stg)))
               (Z.of_nat (length (rows stg)))
               (Z.of_nat (length (rows stg ++ accepted_rows kc dc now rn stg raw))).
Proof.
  unfold move_data_to_stg, resolves, accepted_rows, accepts, get_row_count, get_table.
  destruct (conn !! sn) as [stg|] eqn:Hstg; simpl;
    [|split; [done | by intros (? & ? & (? & _) & _)]].
  unfold guard. destruct (bool_decide_reflect (dc = [])) as [Hdc|Hdc]; simpl.
  { split; [done | by intros (? & ? & (_ & _ & ? & _) & _)]. }
  destruct (first_bad (has_column stg) (dc ++ stg_meta_columns)) as [c|] eqn:Hins; simpl.
  { split; [done|]. intros (stg' & raw & (E & _ & _ & Hall & _) & _).
    simplify_eq. apply first_bad_None in Hall. congruence. }
  apply first_bad_None in Hins.
  destruct (conn !! rn) as [raw|] eqn:Hraw; simpl;
    [|split; [done | by intros (? & ? & (_ & ? & _) & _)]].
  destruct (truthy kc) eqn:Hkc.
  - destruct (resolve_conditions (has_column stg) (has_column raw) (default [] kc))
      as [[]|e] eqn:Hres; simpl.
    + apply resolve_conditions_Ok in Hres. rewrite lookup_insert_eq. simpl.
      split.
      * intros [= <- <-]. by exists stg, raw.
      * intros (stg' & raw' & (E1 & E2 & _) & -> & ->). by simplify_eq.
    + split; [done|]. intros (stg' & raw' & (E1 & E2 & _ & _ & Hall) & _).
      assert (stg' = stg) as -> by congruence.
      assert (raw' = raw) as -> by congruence.
      apply (resolve_conditions_Ok _ _ _ tt) in Hall. congruence.
  - destruct (resolve_conditions (has_column stg)
                (λ c, bool_decide (norm_ident rn = "raw") && has_column raw c) dc)
      as [[]|e] eqn:Hres; simpl.
    + apply resolve_conditions_Ok in Hres. rewrite lookup_insert_eq. simpl.
      assert (norm_ident rn = "raw" ∧
              Forall (λ c, has_column stg c = true ∧ has_column raw c = true) dc)
        as Hvis.
      { destruct dc as [|c dc]; [done|]. split.
        - apply Forall_cons in Hres as [[_ H%andb_true_iff] _].
          by destruct H as [?%bool_decide_eq_true _].
        - eapply Forall_impl; [exact Hres|]. simpl.
          intros x [? H%andb_true_iff]. naive_solver. }
      split.
      * intros [= <- <-]. by exists stg, raw.
      * intros (stg' & raw' & (E1 & E2 & _) & -> & ->). by simplify_eq.
    + split; [done|]. intros (stg' & raw' & (E1 & E2 & _ & _ & Hall) & _).
      assert (stg' = stg) as -> by congruence.
      assert (raw' = raw) as -> by congruence.
      destruct Hall as [Hname Hall].
      assert (resolve_conditions (has_column stg)
                (λ c, bool_decide (norm_ident rn = "raw") && has_column raw c) dc = Ok tt)
        as E; [|congruence].
      apply resolve_conditions_Ok. eapply Forall_impl; [exact Hall|]. simpl.
      intros x [-> ->]. split; [done|]. apply andb_true_iff. split; [|done].
      by apply bool_decide_eq_true.
Qed.

End RawToStgFacts.

Module Idempotence.
Import RawToStg Spec SqlFacts RawToStgFacts.

Lemma truthy_Some keys : keys ≠ [] → truthy (Some keys) = true.
Proof. by destruct keys. Qed.

Lemma elem_of_accepted kc dc now rn stg raw (r : row) :
  r ∈ rows raw → accepts kc dc stg r = true →
  insert_row dc now rn (select_value raw r <$> dc) ∈ accepted_rows kc dc now rn stg raw.
Proof.
  intros Hr Hadm. unfold accepted_rows, select_distinct.
  apply list_elem_of_fmap_2, elem_of_remove_dups.
  apply (list_elem_of_fmap_2 (λ r, select_value raw r <$> dc)).
  by apply list_elem_of_filter.
Qed.

(** Once a run has appended what it accepts, no raw row passes the keyed test
    any more, provided its key cells are not NULL. *)
Lemma keyed_accepts_nothing_after keys dc now rn stg raw (r : row) :
  keys ≠ [] → keys ⊆ dc →
  Forall (λ k, has_column raw k = true) keys →
  r ∈ rows raw → Forall (λ k, cell r k ≠ VNull) keys →
  accepts (Some keys) dc
         (Table (columns stg) (rows stg ++ accepted_rows (Some keys) dc now rn stg raw)) r
    = false.
Proof.
  intros Hne Hsub Hcols Hr Hnn. apply not_true_is_false. intros Hadm.
  unfold accepts in Hadm. rewrite truthy_Some in Hadm by done. simpl in Hadm.
  rewrite not_exists_true in Hadm. simpl in Hadm.
  eapply (Hadm (insert_row dc now rn (select_value raw r <$> dc))).
  - apply elem_of_app. right. apply elem_of_accepted; [done|].
    unfold accepts. rewrite truthy_Some by done. simpl.
    apply not_exists_true. intros s Hs. apply Hadm, elem_of_app. by left.
  - apply key_conditions_true. split; [|done].
    by apply (insert_row_key_of raw).
Qed.

(** The same for the full-row test, NULL cells included. *)
Lemma full_row_accepts_nothing_after kc dc now rn stg raw (r : row) :
  truthy kc = false →
  Forall (λ c, has_column raw c = true) dc →
  r ∈ rows raw →
  accepts kc dc (Table (columns stg) (rows stg ++ accepted_rows kc dc now rn stg raw)) r
    = false.
Proof.
  intros Hkc Hcols Hr. apply not_true_is_false. intros Hadm.
  unfold accepts in Hadm. rewrite Hkc in Hadm.
  rewrite not_exists_true in Hadm. simpl in Hadm.
  eapply (Hadm (insert_row dc now rn (select_value raw r <$> dc))).
  - apply elem_of_app. right. apply elem_of_accepted; [done|].
    unfold accepts. rewrite Hkc.
    apply not_exists_true. intros s Hs. apply Hadm, elem_of_app. by left.
  - apply full_row_conditions_true. by apply (insert_row_key_of raw).
Qed.

Lemma accepted_rows_nil kc dc now rn stg raw :
  Forall (λ r, accepts kc dc stg r = false) (rows raw) →
  accepted_rows kc dc now rn stg raw = [].
Proof.
  intros Hall. unfold accepted_rows, select_distinct.
  replace (filter (λ r, accepts kc dc stg r = true) (rows raw)) with (@nil row); [done|].
  symmetry. induction Hall as [|r l Hr Hl IH]; [done|].
  rewrite filter_cons_False; [done | congruence].
Qed.

(** A second run right after a successful first run, in either mode: if no
    raw row is accepted any more, it inserts nothing and leaves the database
    as it is. *)
Lemma second_run conn rn sn kc dc now1 now2 conn1 st1 :
  rn ≠ sn →
  move_data_to_stg conn rn sn kc dc now1 = Ok (conn1, st1) →
  (∀ stg raw, conn !! sn = Some stg → conn !! rn = Some raw →
     resolves conn rn sn kc dc stg raw →
     Forall (λ r, accepts kc dc
                    (Table (columns stg)
                           (rows stg ++ accepted_rows kc dc now1 rn stg raw)) r = false)
            (rows raw)) →
  move_data_to_stg conn1 rn sn kc dc now2
    = Ok (conn1, Stats 0 (stg_after st1) (stg_after st1)).
Proof.
  intros Hne Hrun Hnone.
  apply move_data_to_stg_Ok in Hrun as (stg & raw & Hres & -> & ->).
  pose proof Hres as (Hstg & Hraw & Hdc & Hins & Hcond).
  specialize (Hnone stg raw Hstg Hraw Hres).
  set (stg1 := Table (columns stg) (rows stg ++ accepted_rows kc dc now1 rn stg raw)) in *.
  apply move_data_to_stg_Ok. exists stg1, raw. split; [|split].
  - repeat split; try done.
    + apply lookup_insert_eq.
    + by rewrite lookup_insert_ne.
  - rewrite (accepted_rows_nil _ _ _ _ stg1 raw) by done.
    rewrite app_nil_r. subst stg1. simpl. by rewrite insert_insert_eq.
  - rewrite (accepted_rows_nil _ _ _ _ stg1 raw) by done.
    rewrite app_nil_r. simpl. f_equal. lia.
Qed.

End Idempotence.

Module Reconciliation.
Import RawToStg Spec SqlFacts RawToStgFacts Idempotence Scenarios.

(** C1, as amended.  Keyed mode: when the key columns are among the data
    columns and no raw row has a NULL key cell, a second run of
    [move_data_to_stg] right after a successful first run, the raw table
    unchanged in between, inserts zero rows ([rows_inserted = 0]) and leaves
    the database as the first run left it. *)
Theorem keyed_reconciliation_idempotent conn rn sn keys dc now1 now2 conn1 st1 raw :
  keys ≠ [] → keys ⊆ dc → rn ≠ sn →
  conn !! rn = Some raw → key_cells_not_null keys raw →
  move_data_to_stg conn rn sn (Some keys) dc now1 = Ok (conn1, st1) →
  conn1 !! rn = Some raw ∧
  move_data_to_stg conn1 rn sn (Some keys) dc now2
    = Ok (conn1, Stats 0 (stg_after st1) (stg_after st1)).
Proof.
  intros Hne Hsub Hdiff Hraw Hnn Hrun. split.
  - apply move_data_to_stg_Ok in Hrun as (stg & raw' & _ & -> & _).
    by rewrite lookup_insert_ne.
  - eapply second_run; [done | exact Hrun |].
    intros stg raw' Hstg Hraw' (_ & _ & _ & _ & Hcond).
    assert (raw' = raw) as -> by congruence.
    rewrite truthy_Some in Hcond by done. simpl in Hcond.
    unfold key_cells_not_null in Hnn. rewrite Forall_forall in Hnn |- *.
    intros r Hr. apply keyed_accepts_nothing_after; auto.
    eapply Forall_impl; [exact Hcond|]. by intros k [_ ?].
Qed.

Lemma keyed_reconciliation_idempotent_witness :
  let staged := [staged_customer (VText "C1") (VText "Ann") "2026-02-02 10:00:00";
                 staged_customer (VText "C2") (VText "Bea") "2026-02-02 10:00:00"] in
  move_data_to_stg (customers_db two_customers) "rawCustomers" "stgCustomers"
    (Some ["customer_id"]) ["customer_id"; "name"] "2026-02-02 10:00:00"
    = Ok (customers_staged two_customers staged, Stats 2 0 2) ∧
  move_data_to_stg (customers_staged two_customers staged) "rawCustomers" "stgCustomers"
    (Some ["customer_id"]) ["customer_id"; "name"] "2026-02-02 10:00:05"
    = Ok (customers_staged two_customers staged, Stats 0 2 2).
Proof.
  intros staged.
  assert (move_data_to_stg (customers_db two_customers) "rawCustomers" "stgCustomers"
            (Some ["customer_id"]) ["customer_id"; "name"] "2026-02-02 10:00:00"
          = Ok (customers_staged two_customers staged, Stats 2 0 2)) as Hrun
    by (vm_compute; reflexivity).
  split; [exact Hrun|].
  refine (proj2 (keyed_reconciliation_idempotent
                   (customers_db two_customers) "rawCustomers" "stgCustomers"
                   ["customer_id"] ["customer_id"; "name"] "2026-02-02 10:00:00"
                   "2026-02-02 10:00:05" (customers_staged two_customers staged)
                   (Stats 2 0 2) (raw_customers two_customers) _ _ _ _ _ Hrun)).
  - done.
  - intros k Hk. apply elem_of_cons. left. by apply list_elem_of_singleton in Hk.
  - done.
  - reflexivity.
  - unfold key_cells_not_null. apply (bool_decide_unpack _). vm_compute. exact I.
Defined.

(** The full-row branch, on the one raw table name for which its statement
    compiles, is idempotent as well, NULL cells included. *)
Lemma full_row_second_run conn rn sn kc dc now1 now2 conn1 st1 :
  truthy kc = false → rn ≠ sn →
  move_data_to_stg conn rn sn kc dc now1 = Ok (conn1, st1) →
  move_data_to_stg conn1 rn sn kc dc now2
    = Ok (conn1, Stats 0 (stg_after st1) (stg_after st1)).
Proof.
  intros Hkc Hdiff Hrun. eapply second_run; [done | exact Hrun |].
  intros stg raw Hstg Hraw (_ & _ & _ & _ & Hcond).
  rewrite Hkc in Hcond. destruct Hcond as [_ Hcond].
  apply Forall_forall. intros r Hr. apply full_row_accepts_nothing_after; [done | | done].
  eapply Forall_impl; [exact Hcond|]. by intros c [_ ?].
Qed.

(** C1 fails as stated: with a NULL key cell the keyed test [stg.k = raw.k]
    is never true, so the second run inserts the row again. *)
Lemma idempotence_counterexample :
  let first := staged_customer VNull (VText "Zed") "2026-02-02 10:00:00" in
  let second := staged_customer VNull (VText "Zed") "2026-02-02 10:00:05" in
  move_data_to_stg (customers_db null_key_customer) "rawCustomers" "stgCustomers"
    (Some ["customer_id"]) ["customer_id"; "name"] "2026-02-02 10:00:00"
    = Ok (customers_staged null_key_customer [first], Stats 1 0 1) ∧
  move_data_to_stg (customers_staged null_key_customer [first])
    "rawCustomers" "stgCustomers"
    (Some ["customer_id"]) ["customer_id"; "name"] "2026-02-02 10:00:05"
    = Ok (customers_staged null_key_customer [first; second], Stats 1 1 2).
Proof. split; vm_compute; reflexivity. Qed.

Lemma elem_of_accepted_inv kc dc now rn stg raw (s : row) :
  s ∈ accepted_rows kc dc now rn stg raw →
  ∃ r, r ∈ rows raw ∧ accepts kc dc stg r = true ∧
       s = insert_row dc now rn (select_value raw r <$> dc).
Proof.
  unfold accepted_rows, select_distinct.
  intros (p & -> & Hp)%list_elem_of_fmap.
  apply elem_of_remove_dups, list_elem_of_fmap in Hp as (r & -> & Hr).
  apply list_elem_of_filter in Hr as [Hadm Hr]. eauto.
Qed.

(** A raw row that passes the keyed test carries a key staging does not
    hold. *)
Lemma accepted_key_fresh keys dc stg (r : row) :
  keys ≠ [] → Forall (λ k, cell r k ≠ VNull) keys →
  accepts (Some keys) dc stg r = true →
  key_of keys r ∉ key_of keys <$> rows stg.
Proof.
  intros Hne Hnn Hadm (s & E & Hs)%list_elem_of_fmap.
  unfold accepts in Hadm. rewrite truthy_Some in Hadm by done. simpl in Hadm.
  rewrite not_exists_true in Hadm. apply (Hadm s Hs).
  by apply key_conditions_true.
Qed.

Lemma select_value_ext raw dc (r1 r2 : row) :
  key_of dc r1 = key_of dc r2 →
  select_value raw r1 <$> dc = select_value raw r2 <$> dc.
Proof.
  unfold key_of. induction dc as [|c dc IH]; [done|].
  simpl. intros [= E E']. f_equal; [|by apply IH].
  unfold select_value. by rewrite E.
Qed.

(** One keyed run keeps the staging table free of duplicate keys. *)
Lemma no_duplicates_step conn rn sn keys dc now conn' st stg raw :
  keys ≠ [] → keys ⊆ dc →
  conn !! sn = Some stg → conn !! rn = Some raw →
  no_duplicates keys stg →
  key_cells_not_null keys raw → new_keys_unambiguous keys dc stg raw →
  move_data_to_stg conn rn sn (Some keys) dc now = Ok (conn', st) →
  ∃ stg', conn' !! sn = Some stg' ∧ no_duplicates keys stg'.
Proof.
  intros Hne Hsub Hstg Hraw Hinv Hnn Hunamb Hrun.
  apply move_data_to_stg_Ok in Hrun as (stg0 & raw0 & Hres & -> & _).
  destruct Hres as (Hstg0 & Hraw0 & _ & _ & Hcond).
  assert (stg0 = stg) as -> by congruence.
  assert (raw0 = raw) as -> by congruence.
  rewrite truthy_Some in Hcond by done. simpl in Hcond.
  assert (Forall (λ k, has_column raw k = true) keys) as Hcols.
  { eapply Forall_impl; [exact Hcond|]. by intros k [_ ?]. }
  unfold key_cells_not_null in Hnn. rewrite Forall_forall in Hnn.
  unfold new_keys_unambiguous in Hunamb. rewrite Forall_forall in Hunamb.
  eexists. split; [apply lookup_insert_eq|].
  unfold no_duplicates in *. simpl. rewrite fmap_app. apply NoDup_app.
  split; [done|]. split.
  - intros x Hx (s & -> & Hs)%list_elem_of_fmap.
    apply elem_of_accepted_inv in Hs as (r & Hr & Hadm & ->).
    rewrite (insert_row_key_of raw) in Hx by done.
    by apply (accepted_key_fresh keys dc stg r Hne (Hnn r Hr) Hadm).
  - unfold accepted_rows. rewrite <- list_fmap_compose.
    apply NoDup_fmap_2_strong; [|apply NoDup_remove_dups].
    intros p1 p2 Hp1 Hp2 E. unfold select_distinct in Hp1, Hp2.
    apply elem_of_remove_dups, list_elem_of_fmap in Hp1 as (r1 & -> & Hr1).
    apply elem_of_remove_dups, list_elem_of_fmap in Hp2 as (r2 & -> & Hr2).
    apply list_elem_of_filter in Hr1 as [Hadm1 Hr1].
    apply list_elem_of_filter in Hr2 as [Hadm2 Hr2].
    simpl in E. rewrite !(insert_row_key_of raw) in E by done.
    apply select_value_ext.
    specialize (Hunamb r1 Hr1). rewrite Forall_forall in Hunamb.
    apply (Hunamb r2 Hr2 E).
    by apply (accepted_key_fresh keys dc stg r1 Hne (Hnn r1 Hr1)).
Qed.

(** C2, as amended.  For an entity with key [keys] (among the data columns),
    after any sequence of keyed runs of [move_data_to_stg] that starts from
    an empty staging table, the staging table holds no two rows that agree
    on every key column, provided every batch is free of NULL key cells and
    two of its rows that share a key not yet in staging agree on every data
    column. *)
Theorem no_duplication_invariant sn keys dc conn :
  keys ≠ [] → keys ⊆ dc →
  reachable sn keys dc conn →
  ∃ stg, conn !! sn = Some stg ∧ no_duplicates keys stg.
Proof.
  intros Hne Hsub Hreach.
  induction Hreach as [conn cols Hstg
                      |conn name t _ IH Hname
                      |conn conn' rn now st stg raw _ IH Hstg Hraw Hnn Hunamb Hrun].
  - exists (Table cols []). split; [done|]. unfold no_duplicates. simpl. constructor.
  - destruct IH as (stg & Hstg & Hinv). exists stg.
    by rewrite lookup_insert_ne.
  - destruct IH as (stg0 & Hstg0 & Hinv).
    assert (stg0 = stg) as -> by congruence.
    exact (no_duplicates_step conn rn sn keys dc now conn' st stg raw
             Hne Hsub Hstg Hraw Hinv Hnn Hunamb Hrun).
Qed.

Lemma no_duplication_invariant_witness :
  let staged := [staged_customer (VText "C1") (VText "Ann") "2026-02-02 10:00:00";
                 staged_customer (VText "C2") (VText "Bea") "2026-02-02 10:00:00"] in
  move_data_to_stg (customers_db two_customers) "rawCustomers" "stgCustomers"
    (Some ["customer_id"]) ["customer_id"; "name"] "2026-02-02 10:00:00"
    = Ok (customers_staged two_customers staged, Stats 2 0 2) ∧
  no_duplicates ["customer_id"] (stg_customers staged).
Proof.
  intros staged.
  assert (move_data_to_stg (customers_db two_customers) "rawCustomers" "stgCustomers"
            (Some ["customer_id"]) ["customer_id"; "name"] "2026-02-02 10:00:00"
          = Ok (customers_staged two_customers staged, Stats 2 0 2)) as Hrun
    by (vm_compute; reflexivity).
  split; [exact Hrun|].
  destruct (no_duplication_invariant "stgCustomers" ["customer_id"]
              ["customer_id"; "name"] (customers_staged two_customers staged))
    as (stg & Hstg & Hinv).
  - done.
  - intros k Hk. apply elem_of_cons. left. by apply list_elem_of_singleton in Hk.
  - eapply (reach_run _ _ _ (customers_db two_customers) _ "rawCustomers"
              "2026-02-02 10:00:00" (Stats 2 0 2)
              (stg_customers []) (raw_customers two_customers)).
    + by eapply reach_empty.
    + reflexivity.
    + reflexivity.
    + unfold key_cells_not_null. apply (bool_decide_unpack _). vm_compute. exact I.
    + unfold new_keys_unambiguous. apply (bool_decide_unpack _). vm_compute. exact I.
    + exact Hrun.
  - assert (customers_staged two_customers staged !! "stgCustomers"
            = Some (stg_customers staged)) as E by reflexivity.
    rewrite E in Hstg. by injection Hstg as <-.
Defined.

(** C2 fails as stated: the keyed test looks at the staging rows as they are
    before the statement, so two rows of one batch that share a new key and
    differ on [name] are both inserted. *)
Lemma no_duplication_counterexample :
  let staged := [staged_customer (VText "C1") (VText "Ann") "2026-02-02 10:00:00";
                 staged_customer (VText "C1") (VText "Anne") "2026-02-02 10:00:00"] in
  move_data_to_stg (customers_db same_key_twice) "rawCustomers" "stgCustomers"
    (Some ["customer_id"]) ["customer_id"; "name"] "2026-02-02 10:00:00"
    = Ok (customers_staged same_key_twice staged, Stats 2 0 2) ∧
  key_of ["customer_id"] <$> staged = [[VText "C1"]; [VText "C1"]] ∧
  ¬ no_duplicates ["customer_id"] (stg_customers staged).
Proof.
  split; [vm_compute; reflexivity|]. split; [vm_compute; reflexivity|].
  unfold no_duplicates. intros H%(bool_decide_pack _). by vm_compute in H.
Qed.

End Reconciliation.

(** ** process_single_table *)

Module Processing.
Import RawToStg RawToStgRun Spec SqlFacts RawToStgFacts Scenarios.

(** Without a key, the statement only compiles for a raw table called
    [raw]: for every other table [move_data_to_stg] raises. *)
Lemma unkeyed_raises conn rn sn kc dc now :
  truthy kc = false → norm_ident rn ≠ "raw" →
  ∃ e, move_data_to_stg conn rn sn kc dc now = Raise e.
Proof.
  intros Hkc Hname.
  destruct (move_data_to_stg conn rn sn kc dc now) as [[conn' st]|e] eqn:Hrun; [|eauto].
  apply move_data_to_stg_Ok in Hrun as (stg & raw & (_ & _ & _ & _ & Hcond) & _).
  rewrite Hkc in Hcond. by destruct Hcond.
Qed.

(** C6: the code at the failing input.  An entity without key, one row, the
    same row again in a second batch: both runs of [process_single_table]
    fail on the statement of the full-row branch (no such column: raw.event),
    nothing is logged, and the staging table holds no copy of the row. *)
Theorem full_row_fallback_raises :
  let failed := TableResult "rawAuditLog" (Some "stgAuditLog") false 0
                            (MsgException (NoSuchColumn "raw" "event")) in
  process_single_table (audit_db login_event) "rawAuditLog" ∅ []
      "2026-02-02 10:00:00" "2026-02-02 10:00:01"
    = Ok (failed, audit_db_stg login_event, []) ∧
  process_single_table (audit_db_stg (login_event ++ login_event)) "rawAuditLog" ∅ []
      "2026-02-03 10:00:00" "2026-02-03 10:00:01"
    = Ok (failed, audit_db_stg (login_event ++ login_event), []) ∧
  rows <$> audit_db_stg (login_event ++ login_event) !! "stgAuditLog" = Some [].
Proof. repeat split; vm_compute; reflexivity. Qed.

Lemma process_single_table_unfold conn rn kcfg log n1 n2 raw :
  conn !! rn = Some raw → rows raw ≠ [] →
  let sn := raw_to_stg_name rn in
  let dc := filter (λ name, is_data_column name = true) (columns raw) in
  let conn1 := match conn !! sn with
               | Some _ => conn
               | None => <[sn := Table (dc ++ stg_meta_columns) []]> conn
               end in
  let key_columns := get_key_columns (get_base_table_name rn) kcfg in
  let missing := filter (λ k, k ∉ dc) (default [] key_columns) in
  process_single_table conn rn kcfg log n1 n2 =
    if truthy key_columns && negb (bool_decide (missing = []))
    then Ok (TableResult rn (Some sn) false 0 (MsgKeyColumnsNotFound missing), conn1, log)
    else match move_data_to_stg conn1 rn sn key_columns dc n1 with
         | Ok (conn2, stats) =>
             Ok (TableResult rn (Some sn) true (rows_inserted stats) MsgSuccess, conn2,
                 log ++ [LogEntry "raw_to_stg" sn (rows_inserted stats) "success"
                                  ("From " +:+ rn) n2 n2])
         | Raise e => Ok (TableResult rn (Some sn) false 0 (MsgException e), conn1, log)
         end.
Proof.
  intros Hraw Hrows. simpl.
  unfold process_single_table, get_row_count, get_table. rewrite Hraw. simpl.
  rewrite bool_decide_eq_false_2 by (destruct (rows raw); [done | simpl; lia]).
  unfold table_exists, create_stg_table, get_table_columns. rewrite Hraw.
  destruct (conn !! raw_to_stg_name rn) as [stg|] eqn:Hstg.
  - rewrite bool_decide_eq_true_2 by eauto. done.
  - rewrite bool_decide_eq_false_2 by (by intros [? ?]). done.
Qed.

(** C8, as amended.  For a raw table with at least one row: if the entity
    has declared key columns and one of them is not among the raw table's
    non-metadata columns, [process_single_table] fails for that table with
    the key-columns-not-found message listing the absent keys, and the
    statement of [move_data_to_stg] is not run in either mode: no row is
    inserted, nothing is logged, the staging table is as it was (or has just
    been created empty) and every other table is untouched. *)
Theorem key_columns_missing_fails_fast conn rn kcfg log n1 n2 raw keys k :
  conn !! rn = Some raw → rows raw ≠ [] →
  get_key_columns (get_base_table_name rn) kcfg = Some keys →
  k ∈ keys →
  k ∉ filter (λ name, is_data_column name = true) (columns raw) →
  let sn := raw_to_stg_name rn in
  let dc := filter (λ name, is_data_column name = true) (columns raw) in
  let missing := filter (λ k, k ∉ dc) keys in
  ∃ conn',
    process_single_table conn rn kcfg log n1 n2
      = Ok (TableResult rn (Some sn) false 0 (MsgKeyColumnsNotFound missing), conn', log) ∧
    k ∈ missing ∧
    (∀ name, name ≠ sn → conn' !! name = conn !! name) ∧
    conn' !! sn = Some (default (Table (dc ++ stg_meta_columns) []) (conn !! sn)).
Proof.
  intros Hraw Hrows Hkeys Hk Hmiss sn dc missing.
  assert (k ∈ missing) as Hkm by (by apply list_elem_of_filter).
  rewrite (process_single_table_unfold conn rn kcfg log n1 n2 raw) by done.
  rewrite Hkeys. change (default [] (Some keys)) with keys. fold sn dc missing.
  assert (truthy (Some keys) = true) as ->.
  { destruct keys; [by apply elem_of_nil in Hk | done]. }
  rewrite bool_decide_eq_false_2
    by (intros E; rewrite E in Hkm; by apply elem_of_nil in Hkm).
  simpl. eexists. split; [done|]. split; [done|].
  destruct (conn !! sn) as [stg|] eqn:Hstg; simpl.
  - done.
  - split; [|apply lookup_insert_eq].
    intros name Hname. by rewrite lookup_insert_ne.
Qed.

Lemma key_columns_missing_fails_fast_witness :
  ∃ conn',
    process_single_table (customers_db two_customers) "rawCustomers"
        wrong_key_config [] "2026-02-02 10:00:00" "2026-02-02 10:00:01"
      = Ok (TableResult "rawCustomers" (Some "stgCustomers") false 0
                        (MsgKeyColumnsNotFound ["customer_no"]), conn', []) ∧
    conn' !! "stgCustomers" = Some (stg_customers []) ∧
    conn' !! "rawCustomers" = Some (raw_customers two_customers).
Proof.
  destruct (key_columns_missing_fails_fast (customers_db two_customers) "rawCustomers"
              wrong_key_config [] "2026-02-02 10:00:00" "2026-02-02 10:00:01"
              (raw_customers two_customers) ["customer_no"] "customer_no")
    as (conn' & Hrun & _ & Hother & Hstg).
  - reflexivity.
  - done.
  - reflexivity.
  - apply list_elem_of_singleton. reflexivity.
  - apply (bool_decide_unpack _). vm_compute. exact I.
  - exists conn'. split; [exact Hrun|]. split.
    + exact Hstg.
    + rewrite (Hother "rawCustomers"); [reflexivity | done].
Defined.

(** C8 fails as stated on an empty raw table: the guard on the row count
    comes first, and the batch is skipped with "Raw table is empty" although
    the declared key column is absent. *)
Lemma key_columns_missing_counterexample :
  (get_key_columns (get_base_table_name "rawCustomers") wrong_key_config
    = Some ["customer_no"]) ∧
  ("customer_no" ∉ get_table_columns (customers_db []) "rawCustomers") ∧
  process_single_table (customers_db []) "rawCustomers" wrong_key_config []
      "2026-02-02 10:00:00" "2026-02-02 10:00:01"
    = Ok (TableResult "rawCustomers" (Some "stgCustomers") false 0 MsgRawEmpty,
          customers_db [], []).
Proof.
  split; [reflexivity|]. split; [|vm_compute; reflexivity].
  apply (bool_decide_unpack _). vm_compute. exact I.
Qed.

(** What a batch leaves in the list of log entries: one entry, with status
    [success], when it succeeds, and nothing when it fails. *)
Lemma process_single_table_log conn rn kcfg log n1 n2 r conn' log' :
  process_single_table conn rn kcfg log n1 n2 = Ok (r, conn', log') →
  log' = log ++
    (if success r
     then [LogEntry "raw_to_stg" (raw_to_stg_name rn) (result_rows_inserted r) "success"
                    ("From " +:+ rn) n2 n2]
     else []).
Proof.
  unfold process_single_table, get_row_count, get_table.
  destruct (conn !! rn) as [raw|]; simpl; [|done].
  case_bool_decide; simpl.
  { intros [= <- <- <-]. simpl. by rewrite app_nil_r. }
  destruct (if table_exists conn (raw_to_stg_name rn)
            then (conn, filter (λ name, is_data_column name = true)
                               (get_table_columns conn rn))
            else create_stg_table conn rn (raw_to_stg_name rn)) as [conn1 dc].
  destruct (truthy _ && negb _); simpl.
  { intros [= <- <- <-]. simpl. by rewrite app_nil_r. }
  destruct (move_data_to_stg _ _ _ _ _ _) as [[conn2 st]|e]; simpl.
  - by intros [= <- <- <-].
  - intros [= <- <- <-]. simpl. by rewrite app_nil_r.
Qed.

End Processing.

(** ** read_csv_file *)

Module Reading.
Import CsvImporter Scenarios.

(** The three ways the loop of [read_csv_file] ends. *)
Lemma read_csv_file_from_cases file settings encodings :
  (∃ pre encoding post df,
      encodings = pre ++ encoding :: post ∧
      Forall (λ e, read_csv file e = DecodeError) pre ∧
      read_csv file encoding = ReadOk df ∧
      read_csv_file_from file settings encodings = (Some (clean settings df), encoding)) ∨
  (∃ pre encoding post msg,
      encodings = pre ++ encoding :: post ∧
      Forall (λ e, read_csv file e = DecodeError) pre ∧
      read_csv file encoding = OtherError msg ∧
      read_csv_file_from file settings encodings = (None, msg)) ∨
  (Forall (λ e, read_csv file e = DecodeError) encodings ∧
   read_csv_file_from file settings encodings = (None, exhausted)).
Proof.
  induction encodings as [|e encodings IH]; simpl.
  - right. right. split; [constructor | done].
  - destruct (read_csv file e) as [df| |msg] eqn:He.
    + left. exists [], e, encodings, df. split; [done|]. split; [constructor | done].
    + destruct IH as [(pre & enc & post & df & -> & Hpre & Henc & Hres)
                     |[(pre & enc & post & msg & -> & Hpre & Henc & Hres)
                      |[Hall Hres]]].
      * left. exists (e :: pre), enc, post, df.
        split; [done|]. split; [by constructor | done].
      * right. left. exists (e :: pre), enc, post, msg.
        split; [done|]. split; [by constructor | done].
      * right. right. split; [by constructor | done].
    + right. left. exists [], e, encodings, msg.
      split; [done|]. split; [constructor | done].
Qed.

Lemma read_csv_file_from_skip file settings pre rest :
  Forall (λ e, read_csv file e = DecodeError) pre →
  read_csv_file_from file settings (pre ++ rest) = read_csv_file_from file settings rest.
Proof.
  induction 1 as [|e pre He _ IH]; [done|]. simpl. by rewrite He.
Qed.

(** C9, as amended.  [read_csv_file] tries the configured encodings in
    order and moves on to the next one when, and only when, the read fails
    with a decoding error.  The first encoding that parses after nothing but
    decoding errors wins and is returned with the (cleaned) data; an
    exception of any other kind ends the read at once with its own message,
    the remaining encodings untried; and when every encoding of the list has
    been tried and failed with a decoding error the result is "Could not
    read file with any encoding", which the loop itself reports in no other
    case. *)
Theorem encoding_fallback file settings pre encoding post :
  encoding_attempts settings = pre ++ encoding :: post →
  Forall (λ e, read_csv file e = DecodeError) pre →
  (∀ df, read_csv file encoding = ReadOk df →
         read_csv_file file settings = (Some (clean settings df), encoding)) ∧
  (∀ msg, read_csv file encoding = OtherError msg →
          read_csv_file file settings = (None, msg)) ∧
  (read_csv file encoding = DecodeError →
   Forall (λ e, read_csv file e = DecodeError) post →
   read_csv_file file settings = (None, exhausted)) ∧
  (read_csv_file file settings = (None, exhausted) →
   Forall (λ e, read_csv file e = DecodeError) (encoding_attempts settings) ∨
   ∃ e, e ∈ encoding_attempts settings ∧ read_csv file e = OtherError exhausted).
Proof.
  intros Hsplit Hpre. unfold read_csv_file. rewrite Hsplit.
  rewrite read_csv_file_from_skip by done. simpl.
  split; [|split; [|split]].
  - by intros df ->.
  - by intros msg ->.
  - intros -> Hpost.
    destruct (read_csv_file_from_cases file settings post)
      as [(p & e & q & df & -> & _ & He & _)
         |[(p & e & q & msg & -> & _ & He & _)|[_ ->]]]; [| |done].
    + apply Forall_app in Hpost as [_ Hq]. apply Forall_cons in Hq as [Hq _]. congruence.
    + apply Forall_app in Hpost as [_ Hq]. apply Forall_cons in Hq as [Hq _]. congruence.
  - intros Hres.
    destruct (read_csv_file_from_cases file settings (encoding :: post))
      as [(p & e & q & df & E & _ & He & Hr)
         |[(p & e & q & msg & E & _ & He & Hr)|[Hall _]]].
    + simpl in Hr. congruence.
    + simpl in Hr. right. exists e. split.
      * apply elem_of_app. right. rewrite E. apply elem_of_app. right. by left.
      * congruence.
    + left. by apply Forall_app.
Qed.

Lemma encoding_fallback_witness :
  read_csv_file latin1_file default_settings
    = (Some (DataFrame ["branch_id"] []), "latin-1") ∧
  read_csv_file undecodable_file
      (ImportSettings ["utf-8"; "latin-1"] true true)
    = (None, exhausted).
Proof.
  split.
  - destruct (encoding_fallback latin1_file default_settings
                ["utf-8"] "latin-1" ["cp1252"]) as (Hok & _).
    + reflexivity.
    + constructor; [reflexivity | constructor].
    + exact (Hok (DataFrame ["branch_id"] []) eq_refl).
  - destruct (encoding_fallback undecodable_file
                (ImportSettings ["utf-8"; "latin-1"] true true)
                ["utf-8"] "latin-1" []) as (_ & _ & Hexhausted & _).
    + reflexivity.
    + constructor; [reflexivity | constructor].
    + apply Hexhausted; [reflexivity | constructor].
Defined.

(** C9 fails as stated: the read with the first configured encoding fails
    with an exception that is not a decoding error, the loop stops there
    with that exception's message, and the second encoding, which parses the
    file, is never tried. *)
Lemma encoding_fallback_counterexample :
  encoding_attempts misspelt_settings = ["utf8x"; "latin-1"; "cp1252"] ∧
  read_csv plain_file "utf8x" = OtherError "unknown encoding: utf8x" ∧
  read_csv plain_file "latin-1" = ReadOk (DataFrame ["branch_id"] []) ∧
  read_csv_file plain_file misspelt_settings = (None, "unknown encoding: utf8x") ∧
  read_csv_file plain_file misspelt_settings
    ≠ (Some (clean misspelt_settings (DataFrame ["branch_id"] [])), "latin-1").
Proof. repeat split; done. Qed.

End Reading.

(** ** compare_columns and import_single_csv *)

Module Importing.
Import CsvImporter Spec Scenarios.

Lemma elem_of_table_set table_cols x :
  x ∈ filter (λ col, Str.startswith "_" col = false)
             (list_to_set (Str.lower <$> table_cols) : gset string)
  ↔ in_table_set table_cols x.
Proof.
  rewrite elem_of_filter, elem_of_list_to_set, list_elem_of_fmap.
  unfold in_table_set. naive_solver.
Qed.

Lemma elem_of_csv_set csv_cols x :
  x ∈ (list_to_set (Str.lower <$> csv_cols) : gset string) ↔ in_csv_set csv_cols x.
Proof.
  rewrite elem_of_list_to_set, list_elem_of_fmap. unfold in_csv_set. naive_solver.
Qed.

(** What [compare_columns] returns: the verdict is a match exactly when the
    two sets are equal, and the two lists enumerate, without repetition, the
    two set differences. *)
Lemma compare_columns_spec table_cols csv_cols :
  ∃ m missing extra,
    compare_columns table_cols csv_cols = (m, missing, extra) ∧
    (m = true ↔ ∀ x, in_table_set table_cols x ↔ in_csv_set csv_cols x) ∧
    (∀ x, x ∈ missing ↔ in_table_set table_cols x ∧ ¬ in_csv_set csv_cols x) ∧
    (∀ x, x ∈ extra ↔ in_csv_set csv_cols x ∧ ¬ in_table_set table_cols x) ∧
    NoDup missing ∧ NoDup extra.
Proof.
  unfold compare_columns.
  set (table_set := filter _ _). set (csv_set := list_to_set _).
  eexists _, _, _. split; [reflexivity|].
  assert (∀ x, x ∈ table_set ↔ in_table_set table_cols x) as Ht
    by apply elem_of_table_set.
  assert (∀ x, x ∈ csv_set ↔ in_csv_set csv_cols x) as Hc
    by apply elem_of_csv_set.
  split; [|split; [|split; [|split]]].
  - rewrite andb_true_iff, !bool_decide_eq_true, !size_empty_iff.
    split.
    + intros [Hm He] x. rewrite <- Ht, <- Hc. split; intros Hx.
      * destruct (decide (x ∈ csv_set)) as [|Hn]; [done|].
        exfalso. apply (not_elem_of_empty (C:=gset string) x).
        rewrite <- Hm. by apply elem_of_difference.
      * destruct (decide (x ∈ table_set)) as [|Hn]; [done|].
        exfalso. apply (not_elem_of_empty (C:=gset string) x).
        rewrite <- He. by apply elem_of_difference.
    + intros Heq. assert (∀ x, x ∈ table_set ↔ x ∈ csv_set) as Heq'.
      { intros x. by rewrite Ht, Hc. }
      split; apply set_equiv; intros x; rewrite elem_of_difference;
        split; try (by intros ?%not_elem_of_empty); intros [H1 H2];
        exfalso; apply H2, Heq', H1.
  - intros x. rewrite elem_of_elements, elem_of_difference, Ht, Hc. done.
  - intros x. rewrite elem_of_elements, elem_of_difference, Ht, Hc. done.
  - apply NoDup_elements.
  - apply NoDup_elements.
Qed.

(** [import_single_csv] on an existing table whose columns the CSV header
    does not match. *)
Lemma import_rejects_mismatch conn file settings log now now_done base date t cc
      missing extra :
  parse_filename (filename file) = (base, date) → base ≠ "" →
  conn !! ("raw" +:+ base_name_to_table_name base) = Some t →
  get_csv_columns file settings = (Some cc, None) →
  compare_columns (columns t) cc = (false, missing, extra) →
  import_single_csv conn file settings log now now_done
    = Returned (ImportResult (filename file) false
                  (Some ("raw" +:+ base_name_to_table_name base)) 0
                  (MsgColumnMismatch missing extra),
                conn, log).
Proof.
  intros Hparse Hbase Ht Hcols Hcmp. unfold import_single_csv.
  rewrite Hparse. rewrite bool_decide_eq_false_2 by done.
  unfold RawToStg.table_exists, RawToStg.get_table_columns. rewrite Ht.
  rewrite bool_decide_eq_true_2 by eauto.
  rewrite Hcols, Hcmp. done.
Qed.

(** C3.  When the raw table of the entity exists and the CSV header is
    read, [import_single_csv] compares the table's non-metadata columns with
    the CSV's columns as lower-cased sets: the verdict is a match exactly
    when the two sets are equal; otherwise the batch is rejected, with zero
    rows imported, the database and the log entries untouched, and a message
    that carries the columns missing from the CSV and the columns extra in
    the CSV.  Table a, b, c against CSV a, b, d gives missing [c] and extra
    [d]. *)
Theorem schema_drift_rejection conn file settings log now now_done base date t cc :
  parse_filename (filename file) = (base, date) → base ≠ "" →
  conn !! ("raw" +:+ base_name_to_table_name base) = Some t →
  get_csv_columns file settings = (Some cc, None) →
  (∃ m missing extra,
     compare_columns (columns t) cc = (m, missing, extra) ∧
     (m = true ↔ ∀ x, in_table_set (columns t) x ↔ in_csv_set cc x) ∧
     (∀ x, x ∈ missing ↔ in_table_set (columns t) x ∧ ¬ in_csv_set cc x) ∧
     (∀ x, x ∈ extra ↔ in_csv_set cc x ∧ ¬ in_table_set (columns t) x) ∧
     (m = false →
      import_single_csv conn file settings log now now_done
        = Returned (ImportResult (filename file) false
                      (Some ("raw" +:+ base_name_to_table_name base)) 0
                      (MsgColumnMismatch missing extra),
                    conn, log))) ∧
  compare_columns ["a"; "b"; "c"] ["a"; "b"; "d"] = (false, ["c"], ["d"]).
Proof.
  intros Hparse Hbase Ht Hcols. split; [|by vm_compute].
  destruct (compare_columns_spec (columns t) cc)
    as (m & missing & extra & Hcmp & Hm & Hmiss & Hextra & _).
  exists m, missing, extra. repeat (split; [done|]).
  intros ->. by eapply import_rejects_mismatch.
Qed.

Lemma schema_drift_rejection_witness :
  import_single_csv accounts_db drifted_file default_settings []
      "2026-02-02 10:00:00" "2026-02-02 10:00:01"
    = Returned (ImportResult "accounts_20260202.csv" false (Some "rawAccounts") 0
                             (MsgColumnMismatch ["c"] ["d"]),
                accounts_db, []).
Proof.
  destruct (schema_drift_rejection accounts_db drifted_file default_settings []
              "2026-02-02 10:00:00" "2026-02-02 10:00:01" "accounts" (Some "20260202")
              (Table ["a"; "b"; "c"; "_imported_at"; "_source_file"; "_file_date"] [])
              ["a"; "b"; "d"])
    as [(m & missing & extra & Hcmp & _ & _ & _ & Hreject) _].
  - by vm_compute.
  - done.
  - by vm_compute.
  - by vm_compute.
  - vm_compute in Hcmp. injection Hcmp as <- <- <-. by apply Hreject.
Defined.

(** C10.  [compare_columns] drops the names that begin with an underscore
    from the table's column set only.  So, whatever the existing table, a
    CSV with a column whose name begins with an underscore is judged a
    mismatch, that column (lower-cased) is listed as extra in the CSV, no
    underscore name is ever listed as missing, and [import_single_csv]
    rejects the batch: zero rows imported, database and log entries
    untouched. *)
Theorem underscore_column_rejected conn file settings log now now_done base date t cc c :
  parse_filename (filename file) = (base, date) → base ≠ "" →
  conn !! ("raw" +:+ base_name_to_table_name base) = Some t →
  get_csv_columns file settings = (Some cc, None) →
  c ∈ cc → Str.startswith "_" c = true →
  ∃ missing extra,
    compare_columns (columns t) cc = (false, missing, extra) ∧
    Str.lower c ∈ extra ∧
    (∀ x, x ∈ missing → Str.startswith "_" x = false) ∧
    import_single_csv conn file settings log now now_done
      = Returned (ImportResult (filename file) false
                    (Some ("raw" +:+ base_name_to_table_name base)) 0
                    (MsgColumnMismatch missing extra),
                  conn, log).
Proof.
  intros Hparse Hbase Ht Hcols Hc Hunder.
  destruct (compare_columns_spec (columns t) cc)
    as (m & missing & extra & Hcmp & Hm & Hmiss & Hextra & _).
  assert (in_csv_set cc (Str.lower c)) as Hcsv by (by exists c).
  assert (¬ in_table_set (columns t) (Str.lower c)) as Htab.
  { intros (c' & _ & _ & Hno).
    rewrite StrFacts.startswith_underscore_lower in Hno. congruence. }
  assert (m = false) as ->.
  { destruct m; [|done]. exfalso. apply Htab. by apply (proj1 Hm eq_refl). }
  exists missing, extra. split; [done|]. split; [by apply Hextra|]. split.
  - intros x (( c' & _ & _ & Hx) & _)%Hmiss. done.
  - by eapply import_rejects_mismatch.
Qed.

Lemma underscore_column_rejected_witness :
  import_single_csv accounts_db underscore_file default_settings []
      "2026-02-03 10:00:00" "2026-02-03 10:00:01"
    = Returned (ImportResult "accounts_20260203.csv" false (Some "rawAccounts") 0
                             (MsgColumnMismatch [] ["_note"]),
                accounts_db, []).
Proof.
  destruct (underscore_column_rejected accounts_db underscore_file default_settings []
              "2026-02-03 10:00:00" "2026-02-03 10:00:01" "accounts" (Some "20260203")
              (Table ["a"; "b"; "c"; "_imported_at"; "_source_file"; "_file_date"] [])
              ["a"; "b"; "c"; "_Note"] "_Note")
    as (missing & extra & Hcmp & _ & _ & Hreject).
  - by vm_compute.
  - done.
  - by vm_compute.
  - by vm_compute.
  - apply (bool_decide_unpack _). by vm_compute.
  - reflexivity.
  - vm_compute in Hcmp. injection Hcmp as <- <-. exact Hreject.
Defined.

End Importing.

(** ** The audit log *)

Module Audit.
Import RawToStg RawToStgRun Spec SqlFacts RawToStgFacts Scenarios.

Lemma write_log_entries_lookup conn entries t :
  conn !! "_etl_log" = Some t →
  forallb (has_column t) etl_log_columns = true →
  write_log_entries conn entries !! "_etl_log"
    = Some (Table (columns t) (rows t ++ (log_row <$> entries))).
Proof.
  unfold write_log_entries. revert conn t.
  induction entries as [|entry entries IH]; intros conn t Ht Hcols; simpl.
  - rewrite app_nil_r. by destruct t.
  - unfold write_log_entry at 2. rewrite Ht, Hcols.
    rewrite (IH _ (Table (columns t) (rows t ++ [log_row entry]))).
    + simpl. by rewrite <- app_assoc.
    + apply lookup_insert_eq.
    + done.
Qed.

Lemma raw_table_name_not_log base : "raw" +:+ base ≠ "_etl_log".
Proof. done. Qed.

Lemma stg_table_name_not_log rn : raw_to_stg_name rn ≠ "_etl_log".
Proof. unfold raw_to_stg_name. by destruct (Str.startswith "raw" rn). Qed.

(** What an import leaves in the list of log entries and in the audit
    table: one entry, with status [success], when it succeeds, nothing when
    it fails; the audit table itself is not touched. *)
Lemma import_single_csv_log conn file settings log now now_done r conn' log' :
  CsvImporter.import_single_csv conn file settings log now now_done
    = CsvImporter.Returned (r, conn', log') →
  CsvImporter.result_filename r = CsvImporter.filename file ∧
  conn' !! "_etl_log" = conn !! "_etl_log" ∧
  log' = log ++
    (if CsvImporter.success r
     then [LogEntry "csv_import" (default "" (CsvImporter.result_table_name r))
                    (CsvImporter.rows_imported r) "success"
                    ("Imported from " +:+ CsvImporter.result_filename r) now now_done]
     else []).
Proof.
  unfold CsvImporter.import_single_csv.
  destruct (CsvImporter.parse_filename (CsvImporter.filename file)) as [base date].
  case_bool_decide.
  { intros [= <- <- <-]. simpl. by rewrite app_nil_r. }
  set (tn := "raw" +:+ CsvImporter.base_name_to_table_name base).
  assert (∀ res,
    match CsvImporter.read_csv_file file settings with
    | (None, encoding) =>
        CsvImporter.Returned
          (CsvImporter.ImportResult (CsvImporter.filename file) false (Some tn) 0
             (CsvImporter.MsgErrorReadingCSV encoding), conn, log)
    | (Some df, encoding) =>
        let df := CsvImporter.set_column "_imported_at" (VText now) df in
        let df := CsvImporter.set_column "_source_file"
                    (VText (CsvImporter.filename file)) df in
        let df := match date with
                  | Some d => if bool_decide (d = "") then df
                              else CsvImporter.set_column "_file_date" (VText d) df
                  | None => df
                  end in
        match (if table_exists conn tn then CsvImporter.to_sql_append conn tn df
               else CsvImporter.to_sql_replace conn tn df) with
        | Ok conn' =>
            CsvImporter.Returned
              (CsvImporter.ImportResult (CsvImporter.filename file) true (Some tn)
                 (Z.of_nat (length (CsvImporter.df_rows df))) CsvImporter.MsgSuccess,
               conn',
               log ++ [LogEntry "csv_import" tn
                                (Z.of_nat (length (CsvImporter.df_rows df)))
                                "success" ("Imported from " +:+ CsvImporter.filename file)
                                now now_done])
        | Raise e =>
            CsvImporter.Returned
              (CsvImporter.ImportResult (CsvImporter.filename file) false (Some tn) 0
                 (CsvImporter.MsgException e), conn, log)
        end
    end = CsvImporter.Returned res →
    let '(r, conn', log') := res in
    CsvImporter.result_filename r = CsvImporter.filename file ∧
    conn' !! "_etl_log" = conn !! "_etl_log" ∧
    log' = log ++
      (if CsvImporter.success r
       then [LogEntry "csv_import" (default "" (CsvImporter.result_table_name r))
                      (CsvImporter.rows_imported r) "success"
                      ("Imported from " +:+ CsvImporter.result_filename r) now now_done]
       else [])) as Hload.
  { intros [[r0 c0] l0].
    destruct (CsvImporter.read_csv_file file settings) as [[df|] encoding].
    2:{ intros [= <- <- <-]. simpl. by rewrite app_nil_r. }
    cbv zeta.
    set (df' := match date with Some d => _ | None => _ end).
    destruct (table_exists conn tn).
    - unfold CsvImporter.to_sql_append, get_table.
      destruct (conn !! tn) as [t|]; simpl.
      2:{ intros [= <- <- <-]. simpl. by rewrite app_nil_r. }
      destruct (first_bad _ _); simpl.
      + intros [= <- <- <-]. simpl. by rewrite app_nil_r.
      + intros [= <- <- <-]. simpl. split; [done|]. split; [|done].
        rewrite lookup_insert_ne; [done | apply raw_table_name_not_log].
    - unfold CsvImporter.to_sql_replace, guard.
      destruct (bool_decide _); simpl.
      + intros [= <- <- <-]. simpl. split; [done|]. split; [|done].
        rewrite lookup_insert_ne; [done | apply raw_table_name_not_log].
      + intros [= <- <- <-]. simpl. by rewrite app_nil_r. }
  destruct (table_exists conn tn) eqn:Hex.
  - destruct (CsvImporter.get_csv_columns file settings) as [[cc|] [error|]].
    + case_bool_decide; [done|]. intros [= <- <- <-]. simpl. by rewrite app_nil_r.
    + destruct (CsvImporter.compare_columns _ cc) as [[m missing] extra].
      destruct m; simpl.
      * intros Hres. apply (Hload (r, conn', log')). exact Hres.
      * intros [= <- <- <-]. simpl. by rewrite app_nil_r.
    + case_bool_decide; [done|]. intros [= <- <- <-]. simpl. by rewrite app_nil_r.
    + done.
  - intros Hres. apply (Hload (r, conn', log')). exact Hres.
Qed.

Lemma import_files_log conn files settings times results log results' conn' log' :
  CsvImporter.import_files conn files settings times results log
    = CsvImporter.Returned (results', conn', log') →
  ∃ rs, results' = results ++ rs ∧ length rs = length files ∧
        conn' !! "_etl_log" = conn !! "_etl_log" ∧
        log' = log ++ import_entries times rs.
Proof.
  revert conn results log.
  induction files as [|file files IH]; intros conn results log; simpl.
  - intros [= <- <- <-]. exists []. by rewrite !app_nil_r.
  - destruct (CsvImporter.import_single_csv _ _ _ _ _ _) as [[[r conn1] log1]|] eqn:Hone;
      [|done].
    apply import_single_csv_log in Hone as (Hname & Hlog & ->).
    intros (rs & -> & Hlen & Hlog' & ->)%IH.
    exists (r :: rs). split; [by rewrite <- app_assoc|].
    split; [simpl; by rewrite Hlen|]. split; [congruence|].
    rewrite <- app_assoc. f_equal. unfold import_entries. simpl.
    rewrite Hname. done.
Qed.

(** [process_single_table] only ever writes the staging table of its
    entity. *)
Lemma process_single_table_frame conn rn kcfg log n1 n2 r conn' log' name :
  process_single_table conn rn kcfg log n1 n2 = Ok (r, conn', log') →
  name ≠ raw_to_stg_name rn →
  conn' !! name = conn !! name.
Proof.
  unfold process_single_table, get_row_count, get_table.
  destruct (conn !! rn) as [raw|]; simpl; [|done].
  case_bool_decide; simpl; [by intros [= <- <- <-]|].
  intros Hrun Hname.
  assert (∀ conn1 dc,
    (if table_exists conn (raw_to_stg_name rn)
     then (conn, filter (λ name, is_data_column name = true) (get_table_columns conn rn))
     else create_stg_table conn rn (raw_to_stg_name rn)) = (conn1, dc) →
    conn1 !! name = conn !! name) as Hcreate.
  { intros conn1 dc. destruct (table_exists _ _); [by intros [= <- _]|].
    unfold create_stg_table. destruct (conn !! raw_to_stg_name rn); intros [= <- _];
      [done | by rewrite lookup_insert_ne]. }
  destruct (if table_exists conn (raw_to_stg_name rn) then _ else _) as [conn1 dc].
  specialize (Hcreate conn1 dc eq_refl).
  destruct (truthy _ && negb _); simpl in Hrun; [by injection Hrun as <- <- <-|].
  destruct (move_data_to_stg _ _ _ _ _ _) as [[conn2 st]|e] eqn:Hmove; simpl in Hrun.
  - injection Hrun as <- <- <-.
    apply move_data_to_stg_Ok in Hmove as (stg & raw' & _ & -> & _).
    by rewrite lookup_insert_ne.
  - by injection Hrun as <- <- <-.
Qed.

Lemma process_single_table_result conn rn kcfg log n1 n2 r conn' log' :
  process_single_table conn rn kcfg log n1 n2 = Ok (r, conn', log') →
  raw_table r = rn ∧ stg_table r = Some (raw_to_stg_name rn).
Proof.
  unfold process_single_table, get_row_count, get_table.
  destruct (conn !! rn) as [raw|]; simpl; [|done].
  case_bool_decide; simpl; [by intros [= <- <- <-]|].
  destruct (if table_exists conn (raw_to_stg_name rn) then _ else _) as [conn1 dc].
  destruct (truthy _ && negb _); simpl; [by intros [= <- <- <-]|].
  destruct (move_data_to_stg _ _ _ _ _ _) as [[conn2 st]|e]; simpl;
    by intros [= <- <- <-].
Qed.

Lemma process_tables_log conn raw_tables kcfg times results log results' conn' log' :
  process_tables conn raw_tables kcfg times results log = Ok (results', conn', log') →
  ∃ rs, results' = results ++ rs ∧ length rs = length raw_tables ∧
        conn' !! "_etl_log" = conn !! "_etl_log" ∧
        log' = log ++ staging_entries times rs.
Proof.
  revert conn results log.
  induction raw_tables as [|rn raw_tables IH]; intros conn results log; simpl.
  - intros [= <- <- <-]. exists []. by rewrite !app_nil_r.
  - destruct (process_single_table _ _ _ _ _ _) as [[[r conn1] log1]|] eqn:Hone;
      simpl; [|done].
    pose proof (process_single_table_frame _ _ _ _ _ _ _ _ _ "_etl_log" Hone) as Hframe.
    pose proof (process_single_table_result _ _ _ _ _ _ _ _ _ Hone) as [Hraw Hstg].
    apply Processing.process_single_table_log in Hone as ->.
    intros (rs & -> & Hlen & Hlog' & ->)%IH.
    exists (r :: rs). split; [by rewrite <- app_assoc|].
    split; [simpl; by rewrite Hlen|]. split.
    + rewrite Hlog'. apply Hframe. intros E. by apply (stg_table_name_not_log rn).
    + rewrite <- app_assoc. f_equal. unfold staging_entries. simpl.
      rewrite Hraw, Hstg. done.
Qed.

(** C5, as amended.  When the audit table [_etl_log] exists with its
    columns, a run of the importer ([process_csv_folder]) and a run of the
    staging step ([main_body]) append to it exactly one row per successful
    batch, with status [success], the table written and the rows affected;
    a failed batch (column mismatch, unreadable file, missing key columns,
    SQL error) is reported in the returned result only and leaves no row in
    the audit table.  Every batch has its result. *)
Theorem audit_log_records_successes t times :
  forallb (has_column t) etl_log_columns = true →
  (∀ files settings conn results conn',
     conn !! "_etl_log" = Some t →
     CsvImporter.process_csv_folder files settings conn times
       = CsvImporter.Returned (results, conn') →
     length results = length files ∧
     conn' !! "_etl_log"
       = Some (Table (columns t) (rows t ++ (log_row <$> import_entries times results)))) ∧
  (∀ raw_tables kcfg conn ok results conn',
     conn !! "_etl_log" = Some t →
     main_body conn raw_tables kcfg times = Ok (ok, results, conn') →
     length results = length raw_tables ∧
     conn' !! "_etl_log"
       = Some (Table (columns t) (rows t ++ (log_row <$> staging_entries times results)))).
Proof.
  intros Hcols. split.
  - intros files settings conn results conn' Ht. unfold CsvImporter.process_csv_folder.
    destruct (CsvImporter.import_files _ _ _ _ _ _) as [[[rs conn1] log1]|] eqn:Hloop;
      [|done].
    intros [= <- <-].
    apply import_files_log in Hloop as (rs' & -> & Hlen & Hlog & ->).
    simpl. split; [done|]. apply write_log_entries_lookup; [congruence | done].
  - intros raw_tables kcfg conn ok results conn' Ht. unfold main_body.
    destruct (process_tables _ _ _ _ _ _) as [[[rs conn1] log1]|] eqn:Hloop;
      simpl; [|done].
    intros [= _ <- <-].
    apply process_tables_log in Hloop as (rs' & -> & Hlen & Hlog & ->).
    simpl. split; [done|]. apply write_log_entries_lookup; [congruence | done].
Qed.

Lemma audit_log_records_successes_witness :
  let failed := CsvImporter.ImportResult "accounts_20260202.csv" false
                  (Some "rawAccounts") 0 (CsvImporter.MsgColumnMismatch ["c"] ["d"]) in
  let imported := CsvImporter.ImportResult "accounts_20260204.csv" true
                    (Some "rawAccounts") 1 CsvImporter.MsgSuccess in
  CsvImporter.process_csv_folder [drifted_file; matching_file]
      CsvImporter.default_settings accounts_db fixed_times
    = CsvImporter.Returned ([failed; imported], accounts_imported) ∧
  accounts_imported !! "_etl_log"
    = Some (Table ["id"; "operation"; "table_name"; "rows_affected"; "status";
                   "message"; "started_at"; "completed_at"]
              [log_row (LogEntry "csv_import" "rawAccounts" 1 "success"
                                 "Imported from accounts_20260204.csv"
                                 "2026-02-02 10:00:00" "2026-02-02 10:00:01")]).
Proof.
  intros failed imported.
  assert (CsvImporter.process_csv_folder [drifted_file; matching_file]
            CsvImporter.default_settings accounts_db fixed_times
          = CsvImporter.Returned ([failed; imported], accounts_imported)) as Hrun
    by (vm_compute; reflexivity).
  split; [exact Hrun|].
  destruct (audit_log_records_successes
              (Table ["id"; "operation"; "table_name"; "rows_affected"; "status";
                      "message"; "started_at"; "completed_at"] [])
              fixed_times eq_refl) as [Himport _].
  destruct (Himport _ _ accounts_db _ _ eq_refl Hrun) as [_ Hlog].
  exact Hlog.
Defined.

(** C5 fails as stated: the batch whose columns do not match is rejected,
    and the audit table is as empty after the run as it was before. *)
Lemma audit_completeness_counterexample :
  rows <$> accounts_db !! "_etl_log" = Some [] ∧
  CsvImporter.process_csv_folder [drifted_file] CsvImporter.default_settings
      accounts_db fixed_times
    = CsvImporter.Returned
        ([CsvImporter.ImportResult "accounts_20260202.csv" false (Some "rawAccounts") 0
            (CsvImporter.MsgColumnMismatch ["c"] ["d"])],
         accounts_db).
Proof. split; vm_compute; reflexivity. Qed.

End Audit.

(** ** Run status *)

Module RunStatus.
Import CsvImporter Scenarios.

Lemma filter_length_lt {A} (P : A → Prop) `{!∀ x, Decision (P x)} (l : list A) x :
  x ∈ l → ¬ P x → (length (filter P l) < length l)%nat.
Proof.
  induction l as [|y l IH]; [by intros ?%elem_of_nil|].
  intros [->|Hx]%elem_of_cons Hn.
  - rewrite filter_cons_False by done. simpl.
    pose proof (length_filter P l). lia.
  - specialize (IH Hx Hn). destruct (decide (P y)).
    + rewrite filter_cons_True by done. simpl. lia.
    + rewrite filter_cons_False by done. simpl. lia.
Qed.

(** [main] does compute the run status: it returns [False] as soon as one
    batch of the folder failed. *)
Lemma main_false_when_a_batch_failed use_sample w settings conn files results conn' r b d :
  configs w = Some settings → db_file w = Some conn → folder w = Some files →
  process_csv_folder files settings conn (times w) = Returned (results, conn') →
  r ∈ results → success r = false →
  main use_sample w = Returned (b, d) → b = false.
Proof.
  intros Hc Hd Hf Hrun Hr Hfail. unfold main. rewrite Hc, Hd, Hf, Hrun.
  assert (length (filter (λ r, success r = true) results) < length results)%nat as Hlt.
  { apply (filter_length_lt _ _ r); [done | congruence]. }
  assert (bool_decide
            ((length results - length (filter (λ r, success r = true) results))%nat
             = 0%nat) = false) as Hb by (apply bool_decide_eq_false; lia).
  rewrite Hb. destruct (negb use_sample && _); [destruct (stdin w)|]; congruence.
Qed.

(** The value [main] returns never reaches the runner: whenever [main]
    returns, the script ends with status 0 and [run_step] passes the step. *)
Lemma run_step_ignores_main use_sample w x :
  main use_sample w = Returned x →
  script_returncode use_sample w = 0 ∧
  RunPipeline.run_step (script_returncode use_sample w) = true.
Proof. unfold script_returncode. by intros ->. Qed.

(** C4: the code at the failing input.  The only file of the folder is
    rejected for a column mismatch; [main] returns [False], the script
    nevertheless ends with status 0, [run_step] reports the import step as
    completed, and (the two later steps ending with status 0) the pipeline
    ends with status 0 after announcing that all steps finished
    successfully. *)
Theorem failed_batch_reported_as_success :
  main false drifted_world = Returned (false, Some accounts_db) ∧
  script_returncode false drifted_world = 0 ∧
  RunPipeline.run_step (script_returncode false drifted_world) = true ∧
  RunPipeline.main [script_returncode false drifted_world; 0; 0] = 0.
Proof. repeat split; vm_compute; reflexivity. Qed.

End RunStatus.

(** ** create_account_summary *)

Module Aggregation.
Import StgToRpt SqlFacts Scenarios.

Lemma group_members_length_cons r l cols g :
  length (group_members (Table cols (r :: l)) g)
  = ((if decide (group_key r = g) then 1 else 0)
     + length (group_members (Table cols l) g))%nat.
Proof.
  unfold group_members. simpl. destruct (decide (group_key r = g)).
  - by rewrite filter_cons_True.
  - by rewrite filter_cons_False.
Qed.

Lemma indicator_sum {A} `{EqDecision A} (x : A) (gs : list A) :
  NoDup gs → x ∈ gs →
  sum_list ((λ g, if decide (x = g) then 1 else 0)%nat <$> gs) = 1%nat.
Proof.
  induction 1 as [|g gs Hg Hnd IH]; [by intros ?%elem_of_nil|].
  simpl. intros [->|Hx]%elem_of_cons.
  - rewrite decide_True by done.
    replace (sum_list _) with 0%nat; [done|]. symmetry.
    clear IH Hnd. induction gs as [|g' gs IH]; [done|]. simpl.
    rewrite decide_False by (intros ->; apply Hg; by left).
    apply IH. intros ?. apply Hg. by right.
  - rewrite decide_False by (intros ->; done). by apply IH.
Qed.

(** The groups partition the table: their sizes add up to its row count. *)
Lemma group_sizes_sum cols l (gs : list (value * value * value)) :
  NoDup gs → (∀ r, r ∈ l → group_key r ∈ gs) →
  sum_list ((λ g, length (group_members (Table cols l) g)) <$> gs) = length l.
Proof.
  intros Hnd. induction l as [|r l IH]; intros Hin.
  - clear. induction gs as [|g gs IH]; [done|].
    rewrite fmap_cons. cbn [sum_list]. by rewrite IH.
  - transitivity
      (sum_list ((λ g, if decide (group_key r = g) then 1 else 0)%nat <$> gs)
       + sum_list ((λ g, length (group_members (Table cols l) g)) <$> gs))%nat.
    + clear. induction gs as [|g gs IH]; [done|].
      rewrite !fmap_cons. cbn [sum_list].
      rewrite IH, group_members_length_cons.
      unfold id. destruct (decide (group_key r = g)); lia.
    + rewrite indicator_sum by (try done; apply Hin; by left).
      rewrite IH by (intros r' Hr'; apply Hin; by right). done.
Qed.

Section Aggregates.
Variables sql_sum sql_avg sql_min sql_max : list value → value.

Lemma summary_row_cells stg now account_type currency status :
  let r := summary_row sql_sum sql_avg sql_min sql_max stg now
             (account_type, currency, status) in
  cell r "account_type" = coalesce account_type (VText "Unknown") ∧
  cell r "currency" = coalesce currency (VText "USD") ∧
  cell r "status" = coalesce status (VText "active") ∧
  cell r "account_count"
    = VInt (Z.of_nat (length (group_members stg (account_type, currency, status)))).
Proof. repeat split; reflexivity. Qed.

(** Without the staging table the report is skipped: the function returns 0
    and touches nothing, an existing report table included. *)
Lemma create_account_summary_skips conn now :
  conn !! "stgAccountProducts" = None →
  create_account_summary sql_sum sql_avg sql_min sql_max conn now = (conn, Ok 0).
Proof. unfold create_account_summary. by intros ->. Qed.

(** C7.  When the staging table of the accounts exists with the columns the
    query names, [create_account_summary] leaves a report table that is
    computed from the staged rows alone, whatever the report table held
    before: one row per (account_type, currency, status) group that has a
    staged row now, carrying the group's labels and, as [account_count], the
    number of staged rows of that group.  The counts add up to the number of
    staged rows, the function returns the number of groups, and no other
    table changes. *)
Theorem aggregate_rebuild_consistent conn now stg :
  conn !! "stgAccountProducts" = Some stg →
  Forall (λ c, has_column stg c = true) ["account_type"; "currency"; "status"; "balance"] →
  ∃ conn' rpt,
    create_account_summary sql_sum sql_avg sql_min sql_max conn now
      = (conn', Ok (Z.of_nat (length (groups stg)))) ∧
    (∀ old, create_account_summary sql_sum sql_avg sql_min sql_max
              (<["rptAccountSummary" := old]> conn) now
            = (conn', Ok (Z.of_nat (length (groups stg))))) ∧
    (∀ name, name ≠ "rptAccountSummary" → conn' !! name = conn !! name) ∧
    conn' !! "rptAccountSummary" = Some rpt ∧
    columns rpt = account_summary_columns ∧
    NoDup (groups stg) ∧
    (∀ r, r ∈ rows stg → group_key r ∈ groups stg) ∧
    Forall2 (λ g r,
               (0 < length (group_members stg g))%nat ∧
               cell r "account_type" = coalesce g.1.1 (VText "Unknown") ∧
               cell r "currency" = coalesce g.1.2 (VText "USD") ∧
               cell r "status" = coalesce g.2 (VText "active") ∧
               cell r "account_count" = VInt (Z.of_nat (length (group_members stg g))))
            (groups stg) (rows rpt) ∧
    sum_list ((λ g, length (group_members stg g)) <$> groups stg) = length (rows stg).
Proof.
  intros Hstg Hcols. apply first_bad_None in Hcols.
  eexists _, _. split; [|split; [|split; [|split; [|split; [|split; [|split; [|split]]]]]]].
  - unfold create_account_summary. rewrite Hstg, Hcols. simpl.
    rewrite length_fmap. reflexivity.
  - intros old. unfold create_account_summary.
    rewrite lookup_insert_ne by done. rewrite Hstg, Hcols. simpl.
    rewrite length_fmap, delete_insert_eq. reflexivity.
  - intros name Hname. rewrite lookup_insert_ne by done. by rewrite lookup_delete_ne.
  - apply lookup_insert_eq.
  - done.
  - apply NoDup_remove_dups.
  - intros r Hr. apply elem_of_remove_dups. by apply list_elem_of_fmap_2.
  - simpl. apply Forall2_fmap_r, Forall_Forall2_diag, Forall_forall.
    intros [[a c] s] Hg. split; [|apply summary_row_cells].
    apply elem_of_remove_dups, list_elem_of_fmap in Hg as (r & Hr & Hin).
    assert (r ∈ group_members stg (a, c, s)) as Hmem
      by (by apply list_elem_of_filter).
    destruct (group_members stg (a, c, s)); [by apply elem_of_nil in Hmem | simpl; lia].
  - destruct stg as [cols l]. apply group_sizes_sum; [apply NoDup_remove_dups|].
    intros r Hr. apply elem_of_remove_dups. by apply list_elem_of_fmap_2.
Qed.

End Aggregates.

Lemma aggregate_rebuild_consistent_witness :
  ∃ conn' rpt,
    create_account_summary no_aggregate no_aggregate no_aggregate no_aggregate
        accounts_report_db "2026-02-02 11:00:00"
      = (conn', Ok 2) ∧
    conn' !! "rptAccountSummary" = Some rpt ∧
    (λ r, (cell r "account_type", cell r "account_count")) <$> rows rpt
      = [(VText "checking", VInt 3); (VText "savings", VInt 2)].
Proof.
  destruct (aggregate_rebuild_consistent no_aggregate no_aggregate no_aggregate
              no_aggregate accounts_report_db "2026-02-02 11:00:00" stg_accounts)
    as (conn' & rpt & Hrun & _ & _ & Hrpt & _ & _ & _ & Hrows & _).
  - reflexivity.
  - apply (bool_decide_unpack _). by vm_compute.
  - exists conn', rpt. split; [exact Hrun|]. split; [exact Hrpt|].
    assert (groups stg_accounts
            = [(VText "checking", VText "USD", VText "active");
               (VText "savings", VText "USD", VText "active")]) as Hgroups
      by (vm_compute; reflexivity).
    rewrite Hgroups in Hrows.
    apply Forall2_cons_inv_l in Hrows as (r1 & rest & (_ & Ht1 & _ & _ & Hc1) & Hrows & ->).
    apply Forall2_cons_inv_l in Hrows as (r2 & rest' & (_ & Ht2 & _ & _ & Hc2) & Hrows & ->).
    apply Forall2_nil_inv_l in Hrows as ->.
    simpl. rewrite Ht1, Hc1, Ht2, Hc2. reflexivity.
Defined.

End Aggregation.

(** * Further properties *)

(** ** move_data_to_stg: what a run writes *)

Module Staging.
Import RawToStg Spec SqlFacts RawToStgFacts Idempotence Scenarios.

Lemma remove_dups_length {A} `{EqDecision A} (l : list A) :
  (length (remove_dups l) ≤ length l)%nat.
Proof.
  induction l as [|x l IH]; [done|]. simpl.
  destruct (decide_rel elem_of x l); simpl; lia.
Qed.

Lemma accepted_rows_length kc dc now rn stg raw :
  (length (accepted_rows kc dc now rn stg raw) ≤ length (rows raw))%nat.
Proof.
  unfold accepted_rows, select_distinct. rewrite length_fmap.
  etrans; [apply remove_dups_length|]. rewrite length_fmap. apply length_filter.
Qed.

(** X1.  The staging table only grows: a run keeps the rows (and columns) it
    finds, in place, and appends at most one row per raw row; no other table
    changes, and the three numbers returned describe that growth. *)
Theorem move_data_to_stg_appends conn rn sn kc dc now conn' st :
  move_data_to_stg conn rn sn kc dc now = Ok (conn', st) →
  ∃ stg raw new,
    conn !! sn = Some stg ∧ conn !! rn = Some raw ∧
    conn' !! sn = Some (Table (columns stg) (rows stg ++ new)) ∧
    (∀ name, name ≠ sn → conn' !! name = conn !! name) ∧
    (length new ≤ length (rows raw))%nat ∧
    stg_before st = Z.of_nat (length (rows stg)) ∧
    rows_inserted st = Z.of_nat (length new) ∧
    stg_after st = stg_before st + rows_inserted st.
Proof.
  intros (stg & raw & (Hstg & Hraw & _) & -> & ->)%move_data_to_stg_Ok.
  exists stg, raw, (accepted_rows kc dc now rn stg raw).
  split; [done|]. split; [done|]. split; [apply lookup_insert_eq|].
  split; [intros name Hname; by rewrite lookup_insert_ne|].
  split; [apply accepted_rows_length|]. simpl. rewrite length_app. lia.
Qed.

Lemma move_data_to_stg_appends_witness :
  let staged := [staged_customer (VText "C1") (VText "Ann") "2026-02-02 10:00:00";
                 staged_customer (VText "C2") (VText "Bea") "2026-02-02 10:00:00"] in
  ∃ stg raw new,
    customers_db two_customers !! "stgCustomers" = Some stg ∧
    customers_db two_customers !! "rawCustomers" = Some raw ∧
    customers_staged two_customers staged !! "stgCustomers"
      = Some (Table (columns stg) (rows stg ++ new)) ∧
    (length new ≤ length (rows raw))%nat.
Proof.
  intros staged.
  assert (move_data_to_stg (customers_db two_customers) "rawCustomers" "stgCustomers"
            (Some ["customer_id"]) ["customer_id"; "name"] "2026-02-02 10:00:00"
          = Ok (customers_staged two_customers staged, Stats 2 0 2)) as Hrun
    by (vm_compute; reflexivity).
  destruct (move_data_to_stg_appends _ _ _ _ _ _ _ _ Hrun)
    as (stg & raw & new & H1 & H2 & H3 & _ & H4 & _).
  exists stg, raw, new. split; [exact H1|]. split; [exact H2|]. split; [exact H3|].
  exact H4.
Defined.

Lemma meta_lookup dc (vals : list value) now rn :
  Forall (λ c, is_data_column c = true) dc → length vals = length dc →
  cell (insert_row dc now rn vals) "_stg_loaded_at" = VText now ∧
  cell (insert_row dc now rn vals) "_stg_source_table" = VText rn.
Proof.
  intros Hdc. unfold cell, insert_row. revert vals.
  induction Hdc as [|c dc Hc _ IH]; intros vals Hlen.
  - destruct vals; [|done]. split; reflexivity.
  - destruct vals as [|v vals]; [done|]. simpl.
    assert (Str.startswith "_" (norm_ident c) = false) as Hn.
    { unfold norm_ident. rewrite StrFacts.startswith_underscore_lower.
      unfold is_data_column in Hc. by destruct (Str.startswith "_" c). }
    rewrite !lookup_insert_ne.
    + apply IH. simpl in Hlen. lia.
    + intros E. rewrite E in Hn. done.
    + intros E. rewrite E in Hn. done.
Qed.

(** X2.  Every row a run appends carries its provenance and the cells of a raw
    row: [_stg_loaded_at] is the run's clock reading, [_stg_source_table] the
    raw table's name, and the data columns hold what some raw row holds
    (data columns being non-metadata columns of the raw table, as
    [process_single_table] computes them). *)
Theorem staged_rows_provenance conn rn sn kc dc now conn' st stg raw :
  conn !! sn = Some stg → conn !! rn = Some raw →
  Forall (λ c, is_data_column c = true ∧ has_column raw c = true) dc →
  move_data_to_stg conn rn sn kc dc now = Ok (conn', st) →
  ∃ new, conn' !! sn = Some (Table (columns stg) (rows stg ++ new)) ∧
    Forall (λ s, cell s "_stg_loaded_at" = VText now ∧
                 cell s "_stg_source_table" = VText rn ∧
                 ∃ r, r ∈ rows raw ∧ key_of dc s = key_of dc r) new.
Proof.
  intros Hstg Hraw Hdc (stg' & raw' & (Hstg' & Hraw' & _) & -> & ->)%move_data_to_stg_Ok.
  assert (stg' = stg) as -> by congruence.
  assert (raw' = raw) as -> by congruence.
  eexists. split; [apply lookup_insert_eq|].
  apply Forall_forall. intros s (r & Hr & _ & ->)%Reconciliation.elem_of_accepted_inv.
  destruct (meta_lookup dc (select_value raw r <$> dc) now rn) as [H1 H2].
  { eapply Forall_impl; [exact Hdc|]. by intros c [? _]. }
  { by rewrite length_fmap. }
  split; [done|]. split; [done|]. exists r. split; [done|].
  apply (insert_row_key_of raw); [done|].
  eapply Forall_impl; [exact Hdc|]. by intros c [_ ?].
Qed.

Lemma staged_rows_provenance_witness :
  let staged := [staged_customer (VText "C1") (VText "Ann") "2026-02-02 10:00:00";
                 staged_customer (VText "C2") (VText "Bea") "2026-02-02 10:00:00"] in
  ∃ new,
    customers_staged two_customers staged !! "stgCustomers"
      = Some (Table (columns (stg_customers [])) (rows (stg_customers []) ++ new)) ∧
    Forall (λ s, cell s "_stg_loaded_at" = VText "2026-02-02 10:00:00" ∧
                 cell s "_stg_source_table" = VText "rawCustomers" ∧
                 ∃ r, r ∈ two_customers ∧
                      key_of ["customer_id"; "name"] s = key_of ["customer_id"; "name"] r)
           new.
Proof.
  intros staged.
  assert (move_data_to_stg (customers_db two_customers) "rawCustomers" "stgCustomers"
            (Some ["customer_id"]) ["customer_id"; "name"] "2026-02-02 10:00:00"
          = Ok (customers_staged two_customers staged, Stats 2 0 2)) as Hrun
    by (vm_compute; reflexivity).
  refine (staged_rows_provenance _ _ _ _ _ _ _ _ (stg_customers [])
            (raw_customers two_customers) _ _ _ Hrun).
  - reflexivity.
  - reflexivity.
  - apply (bool_decide_unpack _). vm_compute. exact I.
Defined.

(** X3.  A keyed run never appends a row whose key a staging row already holds:
    the key test is false or NULL between every appended row and every row
    that was there before. *)
Theorem keyed_run_respects_existing_keys conn rn sn keys dc now conn' st stg :
  keys ≠ [] → keys ⊆ dc →
  conn !! sn = Some stg →
  move_data_to_stg conn rn sn (Some keys) dc now = Ok (conn', st) →
  ∃ new, conn' !! sn = Some (Table (columns stg) (rows stg ++ new)) ∧
    ∀ s t, s ∈ new → t ∈ rows stg → key_conditions keys t s ≠ Some true.
Proof.
  intros Hne Hsub Hstg (stg' & raw & (Hstg' & _ & _ & _ & Hcond) & -> & ->)%move_data_to_stg_Ok.
  assert (stg' = stg) as -> by congruence.
  rewrite truthy_Some in Hcond by done. simpl in Hcond.
  eexists. split; [apply lookup_insert_eq|].
  intros s t (r & Hr & Hadm & ->)%Reconciliation.elem_of_accepted_inv Ht Htrue.
  unfold accepts in Hadm. rewrite truthy_Some in Hadm by done. simpl in Hadm.
  rewrite not_exists_true in Hadm. apply (Hadm t Ht).
  apply key_conditions_true in Htrue as [E Hnn].
  assert (key_of keys (insert_row dc now rn (select_value raw r <$> dc)) = key_of keys r)
    as Hk.
  { apply (insert_row_key_of raw); [done|].
    eapply Forall_impl; [exact Hcond|]. by intros k [_ ?]. }
  apply key_conditions_true. split; [congruence|].
  apply Forall_forall. intros k Hk'. rewrite Forall_forall in Hnn.
  specialize (Hnn k Hk').
  assert (cell (insert_row dc now rn (select_value raw r <$> dc)) k = cell r k) as <-; [|done].
  apply (insert_row_cell raw); [by apply Hsub|].
  rewrite Forall_forall in Hcond. by apply Hcond.
Qed.

Lemma keyed_run_respects_existing_keys_witness :
  let first := staged_customer (VText "C1") (VText "Ann") "2026-02-02 10:00:00" in
  let second := staged_customer (VText "C2") (VText "Bea") "2026-02-03 10:00:00" in
  ∃ new,
    customers_staged two_customers [first; second] !! "stgCustomers"
      = Some (Table (columns (stg_customers [first])) (rows (stg_customers [first]) ++ new)) ∧
    ∀ s t, s ∈ new → t ∈ [first] → key_conditions ["customer_id"] t s ≠ Some true.
Proof.
  intros first second.
  refine (keyed_run_respects_existing_keys
            (customers_staged two_customers [first]) "rawCustomers" "stgCustomers"
            ["customer_id"] ["customer_id"; "name"] "2026-02-03 10:00:00"
            (customers_staged two_customers [first; second]) (Stats 1 1 2)
            (stg_customers [first]) _ _ _ _).
  - done.
  - intros k Hk. apply elem_of_cons. left. by apply list_elem_of_singleton in Hk.
  - reflexivity.
  - vm_compute. reflexivity.
Defined.

(** X4.  After a keyed run, every raw row without NULL key cell is represented:
    staging holds a row with the same key. *)
Theorem keyed_run_covers_raw_keys conn rn sn keys dc now conn' st raw (r : row) :
  keys ≠ [] → keys ⊆ dc →
  conn !! rn = Some raw →
  move_data_to_stg conn rn sn (Some keys) dc now = Ok (conn', st) →
  r ∈ rows raw → Forall (λ k, cell r k ≠ VNull) keys →
  ∃ stg' t, conn' !! sn = Some stg' ∧ t ∈ rows stg' ∧ key_of keys t = key_of keys r.
Proof.
  intros Hne Hsub Hraw (stg & raw' & (Hstg & Hraw' & _ & _ & Hcond) & -> & ->)%move_data_to_stg_Ok
         Hr Hnn.
  assert (raw' = raw) as -> by congruence.
  rewrite truthy_Some in Hcond by done. simpl in Hcond.
  assert (Forall (λ k, has_column raw k = true) keys) as Hcols.
  { eapply Forall_impl; [exact Hcond|]. by intros k [_ ?]. }
  eexists. rewrite lookup_insert_eq.
  destruct (accepts (Some keys) dc stg r) eqn:Hadm.
  - eexists. split; [done|]. split.
    + simpl. apply elem_of_app. right. by apply elem_of_accepted.
    + by apply (insert_row_key_of raw).
  - unfold accepts in Hadm. rewrite truthy_Some in Hadm by done. simpl in Hadm.
    unfold not_exists in Hadm. apply negb_false_iff, existsb_exists in Hadm
      as (t & Ht%list_elem_of_In & Htrue%where_true_iff).
    apply key_conditions_true in Htrue as [E _].
    exists t. split; [done|]. split; [|done]. simpl. apply elem_of_app. by left.
Qed.

Lemma keyed_run_covers_raw_keys_witness :
  let staged := [staged_customer (VText "C1") (VText "Ann") "2026-02-02 10:00:00";
                 staged_customer (VText "C2") (VText "Bea") "2026-02-02 10:00:00"] in
  ∃ stg' t, customers_staged two_customers staged !! "stgCustomers" = Some stg' ∧
            t ∈ rows stg' ∧
            key_of ["customer_id"] t
              = key_of ["customer_id"] (customer (VText "C2") (VText "Bea")).
Proof.
  intros staged.
  refine (keyed_run_covers_raw_keys
            (customers_db two_customers) "rawCustomers" "stgCustomers"
            ["customer_id"] ["customer_id"; "name"] "2026-02-02 10:00:00"
            (customers_staged two_customers staged) (Stats 2 0 2)
            (raw_customers two_customers) (customer (VText "C2") (VText "Bea"))
            _ _ _ _ _ _).
  - done.
  - intros k Hk. apply elem_of_cons. left. by apply list_elem_of_singleton in Hk.
  - reflexivity.
  - vm_compute. reflexivity.
  - apply elem_of_cons. right. apply elem_of_cons. by left.
  - apply (bool_decide_unpack _). vm_compute. exact I.
Defined.

(** X5.  Exact duplicates within a batch are staged once: no two rows appended by
    one run agree on every data column (NULL agreeing with NULL). *)
Theorem one_run_stages_distinct_rows conn rn sn kc dc now conn' st stg raw :
  conn !! sn = Some stg → conn !! rn = Some raw →
  Forall (λ c, has_column raw c = true) dc →
  move_data_to_stg conn rn sn kc dc now = Ok (conn', st) →
  ∃ new, conn' !! sn = Some (Table (columns stg) (rows stg ++ new)) ∧
         NoDup (key_of dc <$> new).
Proof.
  intros Hstg Hraw Hdc (stg' & raw' & (Hstg' & Hraw' & _) & -> & ->)%move_data_to_stg_Ok.
  assert (stg' = stg) as -> by congruence.
  assert (raw' = raw) as -> by congruence.
  eexists. split; [apply lookup_insert_eq|].
  unfold accepted_rows. rewrite <- list_fmap_compose.
  apply NoDup_fmap_2_strong; [|apply NoDup_remove_dups].
  intros p1 p2 Hp1 Hp2 E. unfold select_distinct in Hp1, Hp2.
  apply elem_of_remove_dups, list_elem_of_fmap in Hp1 as (r1 & -> & _).
  apply elem_of_remove_dups, list_elem_of_fmap in Hp2 as (r2 & -> & _).
  simpl in E. rewrite !(insert_row_key_of raw) in E by done.
  by apply Reconciliation.select_value_ext.
Qed.

Lemma one_run_stages_distinct_rows_witness :
  let batch := [customer (VText "C1") (VText "Ann"); customer (VText "C1") (VText "Ann")] in
  let staged := [staged_customer (VText "C1") (VText "Ann") "2026-02-02 10:00:00"] in
  ∃ new,
    customers_staged batch staged !! "stgCustomers"
      = Some (Table (columns (stg_customers [])) (rows (stg_customers []) ++ new)) ∧
    NoDup (key_of ["customer_id"; "name"] <$> new).
Proof.
  intros batch staged.
  refine (one_run_stages_distinct_rows
            (customers_db batch) "rawCustomers" "stgCustomers"
            (Some ["customer_id"]) ["customer_id"; "name"] "2026-02-02 10:00:00"
            (customers_staged batch staged) (Stats 1 0 1)
            (stg_customers []) (raw_customers batch) _ _ _ _).
  - reflexivity.
  - reflexivity.
  - apply (bool_decide_unpack _). vm_compute. exact I.
  - vm_compute. reflexivity.
Defined.

End Staging.

(** ** process_single_table and the staging run *)

Module StagingRun.
Import RawToStg RawToStgRun RawToStgMain Spec SqlFacts RawToStgFacts Idempotence Scenarios.

Lemma raw_to_stg_name_not_raw rn : like_raw (raw_to_stg_name rn) = false.
Proof. unfold raw_to_stg_name. by destruct (Str.startswith "raw" rn). Qed.

Lemma raw_to_stg_name_neq rn : raw_to_stg_name rn ≠ rn.
Proof.
  unfold raw_to_stg_name. destruct (Str.startswith "raw" rn) eqn:E.
  - destruct rn as [|a [|b [|c rest]]]; try done.
    unfold Str.startswith in E. cbn -[Ascii.ascii_dec] in E.
    destruct (Ascii.ascii_dec _ a) as [<-|]; [|done]. intros H. discriminate H.
  - clear E. simpl. generalize "s"%char "t"%char "g"%char.
    induction rn as [|x r IH]; intros a b c H; [discriminate H|].
    injection H as -> H. exact (IH _ _ _ H).
Qed.

Lemma data_columns_spec (raw : table) c :
  c ∈ filter (λ name, is_data_column name = true) (columns raw) →
  is_data_column c = true ∧ has_column raw c = true.
Proof.
  intros [? ?]%list_elem_of_filter. split; [done|]. by apply has_column_elem.
Qed.

Lemma accepts_empty kc dc cols (r : row) : accepts kc dc (Table cols []) r = true.
Proof. unfold accepts. by destruct (truthy kc). Qed.

Lemma filter_all {A} (P : A → Prop) `{!∀ x, Decision (P x)} (l : list A) :
  (∀ x, P x) → filter P l = l.
Proof.
  intros HP. induction l as [|x l IH]; [done|].
  rewrite filter_cons_True by done. by rewrite IH.
Qed.

Lemma filter_none {A} (P : A → Prop) `{!∀ x, Decision (P x)} (l : list A) :
  (∀ x, x ∈ l → ¬ P x) → filter P l = [].
Proof.
  induction l as [|x l IH]; [done|]. intros HP.
  rewrite filter_cons_False by (apply HP; by left).
  apply IH. intros y Hy. apply HP. by right.
Qed.

Lemma select_distinct_data_columns (raw : table) dc (l : list row) :
  Forall (λ c, has_column raw c = true) dc →
  select_distinct raw dc l = remove_dups (key_of dc <$> l).
Proof.
  intros Hdc. unfold select_distinct, key_of. f_equal.
  apply list_fmap_ext. intros _ r _. apply Forall_fmap_ext_1.
  eapply Forall_impl; [exact Hdc|]. intros c Hc. unfold select_value. by rewrite Hc.
Qed.

(** X6.  First load of a keyed entity: when the staging table does not exist yet,
    the raw table has rows and the declared keys are among its data columns,
    [process_single_table] creates the staging table (data columns plus the
    two staging metadata columns), stages every distinct raw row, and
    succeeds with that count and one log entry. *)
Theorem first_load_stages_every_row conn rn kcfg log n1 n2 raw keys :
  conn !! rn = Some raw → rows raw ≠ [] →
  conn !! raw_to_stg_name rn = None →
  get_key_columns (get_base_table_name rn) kcfg = Some keys →
  keys ≠ [] →
  let sn := raw_to_stg_name rn in
  let dc := filter (λ name, is_data_column name = true) (columns raw) in
  keys ⊆ dc →
  let distinct := remove_dups (key_of dc <$> rows raw) in
  process_single_table conn rn kcfg log n1 n2
    = Ok (TableResult rn (Some sn) true (Z.of_nat (length distinct)) MsgSuccess,
          <[sn := Table (dc ++ stg_meta_columns) (insert_row dc n1 rn <$> distinct)]> conn,
          log ++ [LogEntry "raw_to_stg" sn (Z.of_nat (length distinct)) "success"
                           ("From " +:+ rn) n2 n2]).
Proof.
  intros Hraw Hrows Hnostg Hkeys Hne sn dc Hsub distinct.
  rewrite (Processing.process_single_table_unfold conn rn kcfg log n1 n2 raw) by done.
  fold sn dc. fold sn in Hnostg. rewrite Hnostg, Hkeys.
  change (default [] (Some keys)) with keys.
  rewrite truthy_Some by done.
  rewrite (filter_none (λ k, k ∉ dc) keys) by (intros k Hk Hn; by apply Hn, Hsub).
  rewrite bool_decide_eq_true_2 by done. cbn [negb andb].
  assert (Forall (λ c, has_column raw c = true) dc) as Hdcraw.
  { apply Forall_forall. intros c Hc. by apply data_columns_spec. }
  set (stg := Table (dc ++ stg_meta_columns) []).
  assert (move_data_to_stg (<[sn := stg]> conn) rn sn (Some keys) dc n1
          = Ok (<[sn := Table (dc ++ stg_meta_columns) (insert_row dc n1 rn <$> distinct)]> conn,
                Stats (Z.of_nat (length distinct)) 0 (Z.of_nat (length distinct)))) as ->.
  { apply move_data_to_stg_Ok. exists stg, raw.
    assert (accepted_rows (Some keys) dc n1 rn stg raw = insert_row dc n1 rn <$> distinct)
      as Hacc.
    { unfold accepted_rows. f_equal.
      rewrite (filter_all _ (rows raw)) by (intros r; apply accepts_empty).
      by apply select_distinct_data_columns. }
    split; [|split].
    - split; [apply lookup_insert_eq|]. split.
      { rewrite lookup_insert_ne; [done | apply raw_to_stg_name_neq]. }
      split. { intros E. rewrite E in Hsub. destruct keys as [|k ?]; [done|].
               specialize (Hsub k (list_elem_of_here _ _)). by apply elem_of_nil in Hsub. }
      split. { apply Forall_forall. intros c Hc. by apply has_column_elem. }
      rewrite truthy_Some by done. simpl. apply Forall_forall. intros k Hk. split.
      + apply has_column_elem. simpl. apply elem_of_app. left. by apply Hsub.
      + rewrite Forall_forall in Hdcraw. by apply Hdcraw, Hsub.
    - rewrite Hacc. simpl. by rewrite insert_insert_eq.
    - rewrite Hacc. simpl. rewrite length_fmap. f_equal. lia. }
  done.
Qed.

Lemma first_load_stages_every_row_witness :
  process_single_table (audit_db login_event) "rawAuditLog"
      {[ "AuditLog" := ["event"] ]} [] "2026-02-02 10:00:00" "2026-02-02 10:00:01"
    = Ok (TableResult "rawAuditLog" (Some "stgAuditLog") true 1 MsgSuccess,
          <["stgAuditLog" :=
              Table ["event"; "_stg_loaded_at"; "_stg_source_table"]
                    (insert_row ["event"] "2026-02-02 10:00:00" "rawAuditLog"
                       <$> [[VText "login"]])]> (audit_db login_event),
          [LogEntry "raw_to_stg" "stgAuditLog" 1 "success" "From rawAuditLog"
                    "2026-02-02 10:00:01" "2026-02-02 10:00:01"]).
Proof.
  refine (first_load_stages_every_row (audit_db login_event) "rawAuditLog"
            {[ "AuditLog" := ["event"] ]} [] "2026-02-02 10:00:00" "2026-02-02 10:00:01"
            (raw_audit_log login_event) ["event"] _ _ _ _ _ _).
  - reflexivity.
  - done.
  - reflexivity.
  - reflexivity.
  - done.
  - intros k Hk. exact Hk.
Defined.

(** X7.  A batch that fails costs nothing: [process_single_table] then reports 0
    rows, adds no log entry, and leaves every table that existed exactly as
    it was; the only trace it can leave is the staging table it has just
    created, empty. *)
Theorem failed_batch_changes_nothing conn rn kcfg log n1 n2 r conn' log' :
  process_single_table conn rn kcfg log n1 n2 = Ok (r, conn', log') →
  success r = false →
  result_rows_inserted r = 0 ∧ log' = log ∧
  (∀ name t, conn !! name = Some t → conn' !! name = Some t) ∧
  (∀ name t, conn' !! name = Some t →
             conn !! name = Some t ∨ (name = raw_to_stg_name rn ∧ rows t = [])).
Proof.
  unfold process_single_table, get_row_count, get_table.
  destruct (conn !! rn) as [raw|]; simpl; [|done].
  case_bool_decide; simpl; [intros [= <- <- <-] _; naive_solver|].
  assert (∀ conn1 dc,
    (if table_exists conn (raw_to_stg_name rn)
     then (conn, filter (λ name, is_data_column name = true) (get_table_columns conn rn))
     else create_stg_table conn rn (raw_to_stg_name rn)) = (conn1, dc) →
    (∀ name t, conn !! name = Some t → conn1 !! name = Some t) ∧
    (∀ name t, conn1 !! name = Some t →
               conn !! name = Some t ∨ (name = raw_to_stg_name rn ∧ rows t = []))) as Hcreate.
  { intros conn1 dc. destruct (table_exists _ _); [intros [= <- _]; naive_solver|].
    unfold create_stg_table.
    destruct (conn !! raw_to_stg_name rn) eqn:Hs; intros [= <- _]; [naive_solver|].
    split.
    - intros name t Ht. rewrite lookup_insert_ne; [done | congruence].
    - intros name t. destruct (decide (raw_to_stg_name rn = name)) as [<-|Hn].
      + rewrite lookup_insert_eq. intros [= <-]. by right.
      + rewrite lookup_insert_ne by done. by left. }
  destruct (if table_exists conn (raw_to_stg_name rn) then _ else _) as [conn1 dc].
  specialize (Hcreate conn1 dc eq_refl).
  destruct (truthy _ && negb _); simpl; [intros [= <- <- <-] _; naive_solver|].
  destruct (move_data_to_stg _ _ _ _ _ _) as [[conn2 st]|e]; simpl.
  - by intros [= <- <- <-].
  - intros [= <- <- <-] _. naive_solver.
Qed.

Lemma failed_batch_changes_nothing_witness :
  (∀ name t, customers_db two_customers !! name = Some t →
             customers_db two_customers !! name = Some t) ∧
  process_single_table (customers_db two_customers) "rawCustomers" wrong_key_config []
      "2026-02-02 10:00:00" "2026-02-02 10:00:01"
    = Ok (TableResult "rawCustomers" (Some "stgCustomers") false 0
            (MsgKeyColumnsNotFound ["customer_no"]), customers_db two_customers, []).
Proof.
  assert (process_single_table (customers_db two_customers) "rawCustomers"
            wrong_key_config [] "2026-02-02 10:00:00" "2026-02-02 10:00:01"
          = Ok (TableResult "rawCustomers" (Some "stgCustomers") false 0
                  (MsgKeyColumnsNotFound ["customer_no"]), customers_db two_customers, []))
    as Hrun by (vm_compute; reflexivity).
  split; [|exact Hrun].
  exact (proj1 (proj2 (proj2 (failed_batch_changes_nothing _ _ _ _ _ _ _ _ _ Hrun eq_refl)))).
Defined.

(** X8.  The staging step is idempotent end to end for a keyed entity: when a
    batch has just been staged successfully and no raw row has a NULL key
    cell, processing the same raw table again succeeds, inserts 0 rows,
    leaves the database as it is, and logs that second run. *)
Theorem keyed_batch_restaged_inserts_nothing conn rn kcfg log n1 n2 n3 n4 r1 conn1 log1 raw keys :
  conn !! rn = Some raw →
  get_key_columns (get_base_table_name rn) kcfg = Some keys → keys ≠ [] →
  key_cells_not_null keys raw →
  process_single_table conn rn kcfg log n1 n2 = Ok (r1, conn1, log1) →
  success r1 = true →
  process_single_table conn1 rn kcfg log1 n3 n4
    = Ok (TableResult rn (Some (raw_to_stg_name rn)) true 0 MsgSuccess, conn1,
          log1 ++ [LogEntry "raw_to_stg" (raw_to_stg_name rn) 0 "success"
                            ("From " +:+ rn) n4 n4]).
Proof.
  intros Hraw Hkeys Hne Hnn Hrun Hok.
  assert (rows raw ≠ []) as Hrows.
  { intros E. unfold process_single_table, get_row_count, get_table in Hrun.
    rewrite Hraw in Hrun. simpl in Hrun. rewrite E in Hrun. simpl in Hrun.
    injection Hrun as <- _ _. done. }
  rewrite (Processing.process_single_table_unfold conn rn kcfg log n1 n2 raw) in Hrun by done.
  rewrite Hkeys in Hrun. change (default [] (Some keys)) with keys in Hrun.
  set (sn := raw_to_stg_name rn) in *.
  set (dc := filter (λ name, is_data_column name = true) (columns raw)) in *.
  set (conn0 := match conn !! sn with
                | Some _ => conn
                | None => <[sn := Table (dc ++ stg_meta_columns) []]> conn
                end) in *.
  destruct (truthy (Some keys) && negb (bool_decide (filter (λ k, k ∉ dc) keys = [])))
    eqn:Hmiss; [by injection Hrun as <- _ _|].
  destruct (move_data_to_stg conn0 rn sn (Some keys) dc n1) as [[conn2 st]|e] eqn:Hmove;
    [|by injection Hrun as <- _ _].
  injection Hrun as <- <- <-.
  assert (rn ≠ sn) as Hdiff by (intros E; by apply (raw_to_stg_name_neq rn)).
  assert (conn0 !! rn = Some raw) as Hraw0.
  { unfold conn0. destruct (conn !! sn); [done|]. by rewrite lookup_insert_ne. }
  assert (keys ⊆ dc) as Hsub.
  { rewrite truthy_Some in Hmiss by done. simpl in Hmiss.
    apply negb_false_iff, bool_decide_eq_true in Hmiss.
    intros k Hk. destruct (decide (k ∈ dc)) as [|Hn]; [done|].
    exfalso. by eapply (filter_nil_not_elem_of _ _ k Hmiss). }
  assert (move_data_to_stg conn2 rn sn (Some keys) dc n3
          = Ok (conn2, Stats 0 (stg_after st) (stg_after st))) as Hsecond.
  { eapply second_run; [done | exact Hmove |].
    intros stg raw' Hstg Hraw' (_ & _ & _ & _ & Hcond).
    assert (raw' = raw) as -> by congruence.
    rewrite truthy_Some in Hcond by done. simpl in Hcond.
    unfold key_cells_not_null in Hnn. rewrite Forall_forall in Hnn |- *.
    intros r Hr. apply keyed_accepts_nothing_after; auto.
    eapply Forall_impl; [exact Hcond|]. by intros k [_ ?]. }
  assert (conn2 !! rn = Some raw) as Hraw2.
  { apply move_data_to_stg_Ok in Hmove as (stg & raw' & _ & -> & _).
    by rewrite lookup_insert_ne. }
  assert (is_Some (conn2 !! sn)) as [stg2 Hstg2].
  { apply move_data_to_stg_Ok in Hmove as (stg & raw' & _ & -> & _).
    rewrite lookup_insert_eq. eauto. }
  rewrite (Processing.process_single_table_unfold conn2 rn kcfg _ n3 n4 raw) by done.
  fold sn dc. rewrite Hstg2, Hkeys. change (default [] (Some keys)) with keys.
  rewrite Hmiss, Hsecond. done.
Qed.

Lemma keyed_batch_restaged_inserts_nothing_witness :
  let staged := [staged_customer (VText "C1") (VText "Ann") "2026-02-02 10:00:00";
                 staged_customer (VText "C2") (VText "Bea") "2026-02-02 10:00:00"] in
  let entry := LogEntry "raw_to_stg" "stgCustomers" 2 "success" "From rawCustomers"
                        "2026-02-02 10:00:01" "2026-02-02 10:00:01" in
  process_single_table (customers_staged two_customers staged) "rawCustomers"
      {[ "Customers" := ["customer_id"] ]} [entry]
      "2026-02-03 10:00:00" "2026-02-03 10:00:01"
    = Ok (TableResult "rawCustomers" (Some "stgCustomers") true 0 MsgSuccess,
          customers_staged two_customers staged,
          [entry; LogEntry "raw_to_stg" "stgCustomers" 0 "success" "From rawCustomers"
                           "2026-02-03 10:00:01" "2026-02-03 10:00:01"]).
Proof.
  intros staged entry.
  assert (process_single_table (customers_db two_customers) "rawCustomers"
            {[ "Customers" := ["customer_id"] ]} []
            "2026-02-02 10:00:00" "2026-02-02 10:00:01"
          = Ok (TableResult "rawCustomers" (Some "stgCustomers") true 2 MsgSuccess,
                customers_staged two_customers staged, [entry])) as Hrun
    by (vm_compute; reflexivity).
  refine (keyed_batch_restaged_inserts_nothing
            (customers_db two_customers) "rawCustomers" {[ "Customers" := ["customer_id"] ]}
            [] "2026-02-02 10:00:00" "2026-02-02 10:00:01"
            "2026-02-03 10:00:00" "2026-02-03 10:00:01"
            _ _ _ (raw_customers two_customers) ["customer_id"] _ _ _ _ Hrun _).
  - reflexivity.
  - reflexivity.
  - done.
  - unfold key_cells_not_null. apply (bool_decide_unpack _). vm_compute. exact I.
  - reflexivity.
Defined.

End StagingRun.

(** ** The staging script as a whole *)

Module StagingMain.
Import RawToStg RawToStgRun RawToStgMain Spec Notions SqlFacts Scenarios StagingRun.

Lemma like_raw_not_underscore name :
  like_raw name = true → Str.startswith "_" name = false.
Proof.
  unfold like_raw. destruct name as [|c name]; [done|].
  rewrite StrFacts.startswith_underscore_cons. intros H.
  apply bool_decide_eq_false. intros ->. done.
Qed.

Lemma startswith_cons c p c' s :
  Str.startswith (String c p) (String c' s) = bool_decide (c = c') && Str.startswith p s.
Proof.
  unfold Str.startswith. cbn -[Ascii.ascii_dec].
  destruct (Ascii.ascii_dec c c'); case_bool_decide; done.
Qed.

Lemma elem_of_get_all_raw_tables conn name :
  name ∈ get_all_raw_tables conn ↔ is_Some (conn !! name) ∧ like_raw name = true.
Proof.
  unfold get_all_raw_tables.
  rewrite merge_sort_Permutation, list_elem_of_filter, elem_of_elements, elem_of_dom.
  split.
  - by intros [[H _]%andb_prop ?].
  - intros [? H]. split; [|done]. by rewrite H, (like_raw_not_underscore _ H).
Qed.

(** X9.  The raw tables the staging script works on are exactly the tables whose
    name begins with raw in any letter case (the second pattern of the query,
    which excludes names that begin with an underscore, never excludes
    anything); each is listed once, in ascending byte order of the names. *)
Theorem raw_tables_listed conn :
  Sorted name_le (get_all_raw_tables conn) ∧
  NoDup (get_all_raw_tables conn) ∧
  ∀ name, name ∈ get_all_raw_tables conn ↔ is_Some (conn !! name) ∧ like_raw name = true.
Proof.
  split; [|split; [|apply elem_of_get_all_raw_tables]]; unfold get_all_raw_tables.
  - apply Sorted_merge_sort. intros a b. apply String.leb_total.
  - rewrite merge_sort_Permutation. apply NoDup_filter, NoDup_elements.
Qed.

(** X10.  A raw table whose name begins with raw (in lower case) is the prefix
    put before its base name, and its staging table is the base name behind
    stg; so two such raw tables never share a staging table, nor an entry of
    the key configuration. *)
Theorem staging_names_distinct a b :
  Str.startswith "raw" a = true → Str.startswith "raw" b = true →
  a = "raw" +:+ get_base_table_name a ∧
  raw_to_stg_name a = "stg" +:+ get_base_table_name a ∧
  (raw_to_stg_name a = raw_to_stg_name b → a = b) ∧
  (get_base_table_name a = get_base_table_name b → a = b).
Proof.
  assert (∀ x, Str.startswith "raw" x = true → x = "raw" +:+ drop3 x) as Hsplit.
  { intros [|c1 [|c2 [|c3 x]]]; rewrite ?startswith_cons; try done.
    - by intros [_ ?]%andb_prop.
    - by intros [_ [_ ?]%andb_prop]%andb_prop.
    - intros [->%bool_decide_eq_true [->%bool_decide_eq_true
        [->%bool_decide_eq_true _]%andb_prop]%andb_prop]%andb_prop. done. }
  intros Ha Hb. unfold raw_to_stg_name, get_base_table_name. rewrite Ha, Hb.
  split; [by apply Hsplit|]. split; [done|].
  split.
  - intros H. injection H as H. assert (drop3 a = drop3 b) as E by exact H.
    transitivity ("raw" +:+ drop3 a); [by apply Hsplit|].
    rewrite E. symmetry. by apply Hsplit.
  - intros E. transitivity ("raw" +:+ drop3 a); [by apply Hsplit|].
    rewrite E. symmetry. by apply Hsplit.
Qed.

Lemma staging_names_distinct_witness :
  "rawCustomers" = "raw" +:+ get_base_table_name "rawCustomers" ∧
  raw_to_stg_name "rawCustomers" = "stg" +:+ get_base_table_name "rawCustomers" ∧
  (raw_to_stg_name "rawCustomers" = raw_to_stg_name "rawLoans" → "rawCustomers" = "rawLoans") ∧
  (get_base_table_name "rawCustomers" = get_base_table_name "rawLoans" →
   "rawCustomers" = "rawLoans").
Proof. apply (staging_names_distinct "rawCustomers" "rawLoans"); reflexivity. Defined.

(** X11.  The query lists raw tables whatever the letter case of their prefix,
    while [raw_to_stg_name] strips the prefix in lower case only: a table
    RAWx and a table rawRAWx are both listed and are staged into the same
    table stgRAWx. *)
Theorem staging_name_collision x :
  like_raw ("RAW" +:+ x) = true ∧ like_raw ("rawRAW" +:+ x) = true ∧
  "RAW" +:+ x ≠ "rawRAW" +:+ x ∧
  raw_to_stg_name ("RAW" +:+ x) = raw_to_stg_name ("rawRAW" +:+ x).
Proof.
  assert (∀ p, like_raw ("raw" +:+ p) = true ∧ like_raw ("RAW" +:+ p) = true) as Hlike.
  { intros p. unfold like_raw.
    change (Str.lower ("raw" +:+ p)) with ("raw" +:+ Str.lower p).
    change (Str.lower ("RAW" +:+ p)) with ("raw" +:+ Str.lower p).
    change ("raw" +:+ Str.lower p) with (String "r" (String "a" (String "w" (Str.lower p)))).
    rewrite !startswith_cons. by destruct (Str.lower p). }
  split; [apply Hlike|]. split; [apply (Hlike ("RAW" +:+ x))|]. split; [|reflexivity].
  intros H. discriminate H.
Qed.

Lemma process_single_table_returns conn rn kcfg log n1 n2 :
  is_Some (conn !! rn) →
  ∃ r conn' log', process_single_table conn rn kcfg log n1 n2 = Ok (r, conn', log').
Proof.
  intros [raw Hraw]. unfold process_single_table, get_row_count, get_table.
  rewrite Hraw. simpl. case_bool_decide; simpl; [eauto|].
  destruct (if table_exists conn (raw_to_stg_name rn) then _ else _) as [conn1 dc].
  destruct (truthy _ && negb _); simpl; [eauto|].
  destruct (move_data_to_stg _ _ _ _ _ _) as [[conn2 st]|e]; simpl; eauto.
Qed.

Lemma process_single_table_keeps_tables conn rn kcfg log n1 n2 r conn' log' name :
  process_single_table conn rn kcfg log n1 n2 = Ok (r, conn', log') →
  is_Some (conn !! name) → is_Some (conn' !! name).
Proof.
  intros Hrun Hname.
  destruct (decide (name = raw_to_stg_name rn)) as [->|Hne];
    [|by rewrite (Audit.process_single_table_frame _ _ _ _ _ _ _ _ _ _ Hrun Hne)].
  revert Hrun. unfold process_single_table, get_row_count, get_table.
  destruct (conn !! rn) as [raw|]; simpl; [|done].
  case_bool_decide; simpl; [by intros [= <- <- <-]|].
  unfold table_exists, create_stg_table. destruct Hname as [stg Hstg]. rewrite Hstg. simpl.
  destruct (truthy _ && negb _); simpl; [intros [= <- <- <-]; eauto|].
  destruct (move_data_to_stg _ _ _ _ _ _) as [[conn2 st]|e] eqn:Hmove; simpl.
  - intros [= <- <- <-].
    apply RawToStgFacts.move_data_to_stg_Ok in Hmove as (stg' & raw' & _ & -> & _).
    rewrite lookup_insert_eq. eauto.
  - intros [= <- <- <-]. eauto.
Qed.

Lemma process_tables_run conn raw_tables kcfg times results log :
  Forall (λ rn, is_Some (conn !! rn)) raw_tables →
  ∃ rs conn' log',
    process_tables conn raw_tables kcfg times results log = Ok (results ++ rs, conn', log') ∧
    raw_table <$> rs = raw_tables ∧
    (∀ name, like_raw name = true → conn' !! name = conn !! name) ∧
    (∀ name, is_Some (conn !! name) → is_Some (conn' !! name)).
Proof.
  revert conn results log.
  induction raw_tables as [|rn raw_tables IH]; intros conn results log Hall; simpl.
  - exists [], conn, log. by rewrite app_nil_r.
  - apply Forall_cons in Hall as [Hrn Hall].
    destruct (process_single_table_returns conn rn kcfg log (times rn).1 (times rn).2 Hrn)
      as (r & conn1 & log1 & Hone).
    rewrite Hone. simpl.
    destruct (IH conn1 (results ++ [r]) log1) as (rs & conn' & log' & Hrun & Hnames & Hraw & Hdom).
    { eapply Forall_impl; [exact Hall|]. intros name.
      by apply (process_single_table_keeps_tables _ _ _ _ _ _ _ _ _ _ Hone). }
    exists (r :: rs), conn', log'. split; [by rewrite Hrun, <- app_assoc|].
    split; [|split].
    + simpl. f_equal; [|done].
      by apply (Audit.process_single_table_result _ _ _ _ _ _ _ _ _ Hone).
    + intros name Hname. rewrite (Hraw name Hname).
      apply (Audit.process_single_table_frame _ _ _ _ _ _ _ _ _ _ Hone).
      intros ->. by rewrite raw_to_stg_name_not_raw in Hname.
    + intros name Hname. apply Hdom.
      by apply (process_single_table_keeps_tables _ _ _ _ _ _ _ _ _ _ Hone).
Qed.

Lemma write_log_entries_frame conn entries name :
  name ≠ "_etl_log" → write_log_entries conn entries !! name = conn !! name.
Proof.
  intros Hname. unfold write_log_entries. revert conn.
  induction entries as [|e entries IH]; intros conn; simpl; [done|].
  rewrite IH. unfold write_log_entry.
  destruct (conn !! "_etl_log"); [|done].
  destruct (forallb _ _); [|done]. by rewrite lookup_insert_ne.
Qed.

Lemma write_log_entries_keeps_tables conn entries name :
  is_Some (conn !! name) → is_Some (write_log_entries conn entries !! name).
Proof.
  unfold write_log_entries. revert conn.
  induction entries as [|e entries IH]; intros conn; simpl; [done|].
  intros H. apply IH. unfold write_log_entry.
  destruct (conn !! "_etl_log") eqn:E; [|done].
  destruct (forallb _ _); [|done].
  destruct (decide (name = "_etl_log")) as [->|];
    [rewrite lookup_insert_eq; eauto | by rewrite lookup_insert_ne].
Qed.

Lemma verdict_all_succeeded {A} (P : A → Prop) `{!∀ x, Decision (P x)} (l : list A) :
  (length l - length (filter P l))%nat = 0%nat ↔ Forall P l.
Proof.
  induction l as [|x l IH]; [by split|].
  pose proof (length_filter P l). destruct (decide (P x)).
  - rewrite filter_cons_True by done. simpl. rewrite IH.
    split; [by constructor | by intros [_ ?]%Forall_cons].
  - rewrite filter_cons_False by done. simpl. split; [lia|]. by intros [? _]%Forall_cons.
Qed.

Lemma process_tables_results conn raw_tables kcfg times results log results' conn' log' :
  process_tables conn raw_tables kcfg times results log = Ok (results', conn', log') →
  ∃ rs, results' = results ++ rs ∧ raw_table <$> rs = raw_tables ∧
        stg_table <$> rs = (λ rn, Some (raw_to_stg_name rn)) <$> raw_tables.
Proof.
  revert conn results log.
  induction raw_tables as [|rn raw_tables IH]; intros conn results log; simpl.
  - intros [= <- <- <-]. exists []. by rewrite app_nil_r.
  - destruct (process_single_table _ _ _ _ _ _) as [[[r conn1] log1]|] eqn:Hone;
      simpl; [|done].
    apply Audit.process_single_table_result in Hone as [Hraw Hstg].
    intros (rs & -> & Hnames & Hstgs)%IH.
    exists (r :: rs). split; [by rewrite <- app_assoc|].
    rewrite !fmap_cons, Hraw, Hstg, Hnames, Hstgs. done.
Qed.

(** X12.  The staging script reports one result per raw table, in the order of
    the table list, each naming its raw table and its staging table; the
    value it returns is true exactly when every table succeeded, so one
    empty raw table or one table with a wrong key makes the run false. *)
Theorem staging_run_verdict conn raw_tables kcfg times ok results conn' :
  main_body conn raw_tables kcfg times = Ok (ok, results, conn') →
  raw_table <$> results = raw_tables ∧
  stg_table <$> results = (λ rn, Some (raw_to_stg_name rn)) <$> raw_tables ∧
  (ok = true ↔ Forall (λ r, success r = true) results).
Proof.
  unfold main_body.
  destruct (process_tables _ _ _ _ _ _) as [[[results' conn1] log1]|] eqn:Hrun; simpl; [|done].
  apply process_tables_results in Hrun as (rs & -> & Hnames & Hstgs).
  intros [= <- <- <-]. simpl. split; [done|]. split; [done|].
  rewrite bool_decide_eq_true. apply verdict_all_succeeded.
Qed.

Lemma staging_run_verdict_witness :
  let staged := [staged_customer (VText "C1") (VText "Ann") "2026-02-02 10:00:00";
                 staged_customer (VText "C2") (VText "Bea") "2026-02-02 10:00:00"] in
  let results := [TableResult "rawCustomers" (Some "stgCustomers") true 2 MsgSuccess] in
  main_body (customers_db two_customers) ["rawCustomers"]
      {[ "Customers" := ["customer_id"] ]} fixed_times
    = Ok (true, results, customers_staged two_customers staged) ∧
  (true = true ↔ Forall (λ r, success r = true) results).
Proof.
  intros staged results.
  assert (main_body (customers_db two_customers) ["rawCustomers"]
            {[ "Customers" := ["customer_id"] ]} fixed_times
          = Ok (true, results, customers_staged two_customers staged)) as Hrun
    by (vm_compute; reflexivity).
  split; [exact Hrun|].
  exact (proj2 (proj2 (staging_run_verdict _ _ _ _ _ _ _ Hrun))).
Defined.

(** X13.  The staging script never lets an exception escape once the
    configuration is loaded and the database file exists (its tables and
    columns bearing plain names): [main] returns.  It leaves every raw table
    as it found it and loses no table, and when there is no raw table it
    returns false without touching the database. *)
Theorem staging_main_returns w kcfg conn :
  configs w = Some kcfg → db_file w = Some conn → plain_names conn →
  ∃ ok conn',
    main w = Ok (ok, Some conn') ∧
    (∀ name, like_raw name = true → conn' !! name = conn !! name) ∧
    (∀ name, is_Some (conn !! name) → is_Some (conn' !! name)) ∧
    (get_all_raw_tables conn = [] → ok = false ∧ conn' = conn).
Proof.
  intros Hcfg Hdb _. unfold main. rewrite Hcfg, Hdb.
  case_bool_decide as Hnone; simpl; [by exists false, conn|].
  destruct (process_tables_run conn (get_all_raw_tables conn) kcfg (times w) [] [])
    as (rs & conn' & log' & Hrun & _ & Hraw & Hdom).
  { apply Forall_forall. intros rn Hrn. by apply elem_of_get_all_raw_tables in Hrn as [? _]. }
  unfold main_body. rewrite Hrun. simpl.
  eexists _, _. split; [reflexivity|]. split; [|split; [|done]].
  - intros name Hname. rewrite write_log_entries_frame; [by apply Hraw|].
    intros ->. done.
  - intros name Hname. by apply write_log_entries_keeps_tables, Hdom.
Qed.

Lemma staging_main_returns_witness :
  ∃ ok conn',
    main (World (Some wrong_key_config) (Some (customers_db two_customers)) fixed_times)
      = Ok (ok, Some conn') ∧
    (∀ name, like_raw name = true → conn' !! name = customers_db two_customers !! name) ∧
    (∀ name, is_Some (customers_db two_customers !! name) → is_Some (conn' !! name)) ∧
    (get_all_raw_tables (customers_db two_customers) = [] →
     ok = false ∧ conn' = customers_db two_customers).
Proof.
  refine (staging_main_returns
           (World (Some wrong_key_config) (Some (customers_db two_customers)) fixed_times)
           wrong_key_config (customers_db two_customers) eq_refl eq_refl _).
  unfold plain_names. apply (bool_decide_unpack _). vm_compute. exact I.
Defined.

End StagingMain.

(** ** File names *)

Module FileNames.
Import CsvImporter Notions.

Lemma of_chars_chars s : of_chars (chars s) = s.
Proof. apply String.string_of_list_ascii_of_string. Qed.

Lemma chars_of_chars l : chars (of_chars l) = l.
Proof. apply String.list_ascii_of_string_of_list_ascii. Qed.

Lemma chars_app a b : chars (a +:+ b) = chars a ++ chars b.
Proof.
  unfold chars. induction a as [|c a IH]; [done|].
  change (String c a +:+ b) with (String c (a +:+ b)). simpl. by rewrite IH.
Qed.

Lemma of_chars_app a b : of_chars (a ++ b) = of_chars a +:+ of_chars b.
Proof.
  unfold of_chars. induction a as [|c a IH]; [done|].
  simpl. rewrite IH. done.
Qed.

Lemma append_assoc a b c : (a +:+ b) +:+ c = a +:+ b +:+ c.
Proof.
  induction a as [|x a IH]; [done|].
  change (String x a +:+ b) with (String x (a +:+ b)).
  change (String x (a +:+ b) +:+ c) with (String x ((a +:+ b) +:+ c)).
  by rewrite IH.
Qed.

Lemma of_chars_nil l : of_chars l = "" → l = [].
Proof. by destruct l. Qed.

Lemma splitext_root_nonempty f : f ≠ "" → splitext_root f ≠ "".
Proof.
  intros Hf. unfold splitext_root.
  destruct (list_find _ _) as [[i c]|]; [|done].
  destruct (existsb _ _) eqn:E; [|done].
  intros H%of_chars_nil. by rewrite H in E.
Qed.

(** X14.  The two parts [parse_filename] returns always reassemble to the file
    name without its extension: either the date part is 8 digits and the
    name is base, underscore, date, or there is no date part and the base is
    the whole name.  The base is empty only for the empty file name, so
    no file of a folder is refused as invalid. *)
Theorem parse_filename_parts f base date :
  ascii_name f →
  parse_filename f = (base, date) →
  (f ≠ "" → base ≠ "") ∧
  match date with
  | Some d => splitext_root f = base +:+ "_" +:+ d ∧
              length (chars d) = 8%nat ∧ forallb is_digit (chars d) = true
  | None => base = splitext_root f
  end.
Proof.
  intros _. unfold parse_filename.
  set (name := splitext_root f). set (l := chars name).
  destruct (drop (length l - 9) l) as [|sep digits] eqn:Hdrop.
  { intros [= <- <-]. split; [apply splitext_root_nonempty | done]. }
  destruct (_ && _) eqn:Hcond.
  - intros [= <- <-].
    apply andb_prop in Hcond as [[[Hsep%bool_decide_eq_true Hdig]%andb_prop
      Hlen%bool_decide_eq_true]%andb_prop Hbase%negb_true_iff%bool_decide_eq_false].
    split; [by intros _ ?%of_chars_nil|].
    rewrite chars_of_chars. split; [|done].
    rewrite <- (of_chars_chars name). fold l.
    rewrite <- (take_drop (length l - 9) l) at 1. rewrite Hdrop, Hsep.
    rewrite of_chars_app. done.
  - intros [= <- <-]. split; [apply splitext_root_nonempty | done].
Qed.

Lemma parse_filename_parts_witness :
  ("customer_profiles_20260202.csv" ≠ "" → "customer_profiles" ≠ "") ∧
  splitext_root "customer_profiles_20260202.csv" = "customer_profiles" +:+ "_" +:+ "20260202" ∧
  length (chars "20260202") = 8%nat ∧ forallb is_digit (chars "20260202") = true.
Proof.
  refine (parse_filename_parts "customer_profiles_20260202.csv" "customer_profiles"
            (Some "20260202") _ _).
  - unfold ascii_name. apply (bool_decide_unpack _). vm_compute. exact I.
  - reflexivity.
Defined.

Lemma splitext_root_csv x :
  existsb (λ c, negb (is_dot c)) (chars x) = true → splitext_root (x +:+ ".csv") = x.
Proof.
  intros Hx. unfold splitext_root. rewrite chars_app.
  change (chars ".csv") with ["."; "c"; "s"; "v"]%char.
  assert (list_find (λ c, is_dot c = true) (reverse (chars x ++ ["."; "c"; "s"; "v"]%char))
          = Some (3%nat, "."%char)) as ->.
  { rewrite reverse_app. apply list_find_Some. split; [done|]. split; [done|].
    intros j y Hj Hlt. destruct j as [|[|[|j]]]; [| | |lia]; by injection Hj as <-. }
  rewrite length_app. simpl length.
  replace (length (chars x) + 4 - 4)%nat with (length (chars x)) by lia.
  rewrite take_app_length, Hx. apply of_chars_chars.
Qed.

(** X15.  A dated file name is read back as it was put together: the name made of
    a non-empty base, an underscore, 8 digits and the extension .csv parses
    into that base and that date. *)
Theorem dated_filename_round_trip base date :
  ascii_name base → base ≠ "" →
  length (chars date) = 8%nat → forallb is_digit (chars date) = true →
  parse_filename (base +:+ "_" +:+ date +:+ ".csv") = (base, Some date).
Proof.
  intros _ Hbase Hlen Hdig.
  assert (chars (base +:+ "_" +:+ date) = chars base ++ "_"%char :: chars date) as Hchars
    by (by rewrite chars_app).
  unfold parse_filename.
  replace (base +:+ "_" +:+ date +:+ ".csv") with ((base +:+ "_" +:+ date) +:+ ".csv").
  2:{ by rewrite !append_assoc. }
  rewrite splitext_root_csv.
  2:{ rewrite Hchars, existsb_app. apply orb_true_iff. by right. }
  rewrite Hchars, length_app. simpl length. rewrite Hlen.
  replace (length (chars base) + 9 - 9)%nat with (length (chars base)) by lia.
  rewrite take_app_length, drop_app_length, Hdig, Hlen.
  rewrite !bool_decide_eq_true_2 by done.
  rewrite bool_decide_eq_false_2.
  2:{ intros H. apply Hbase. by rewrite <- (of_chars_chars base), H. }
  simpl. by rewrite !of_chars_chars.
Qed.

Lemma dated_filename_round_trip_witness :
  parse_filename ("customer_profiles" +:+ "_" +:+ "20260202" +:+ ".csv")
    = ("customer_profiles", Some "20260202").
Proof.
  apply (dated_filename_round_trip "customer_profiles" "20260202").
  - unfold ascii_name. apply (bool_decide_unpack _). vm_compute. exact I.
  - done.
  - reflexivity.
  - reflexivity.
Defined.

End FileNames.

(** ** Table names *)

Module TableNames.
Import CsvImporter Notions FileNames.

Lemma chars_lower s : chars (Str.lower s) = Str.lower_ascii <$> chars s.
Proof. unfold chars. induction s as [|c s IH]; [done|]. simpl. by rewrite IH. Qed.

Lemma upper_lower_ascii c : upper_ascii (Str.lower_ascii c) = upper_ascii c.
Proof. by destruct c as [[] [] [] [] [] [] [] []]; vm_compute. Qed.

Lemma lower_lower_ascii c : Str.lower_ascii (Str.lower_ascii c) = Str.lower_ascii c.
Proof. by destruct c as [[] [] [] [] [] [] [] []]; vm_compute. Qed.

Lemma upper_ascii_underscore c : upper_ascii c = "_"%char → c = "_"%char.
Proof.
  destruct c as [[] [] [] [] [] [] [] []]; vm_compute; intros H;
    first [exact H | discriminate H].
Qed.

Lemma split_underscore_lower (l : list ascii) :
  split_underscore (Str.lower_ascii <$> l)
    = (λ w : list ascii, Str.lower_ascii <$> w) <$> split_underscore l.
Proof.
  induction l as [|c l IH]; [done|]. rewrite fmap_cons. cbn [split_underscore].
  rewrite (bool_decide_ext _ _ (StrFacts.lower_ascii_underscore c)).
  case_bool_decide; rewrite IH; [done|].
  by destruct (split_underscore l).
Qed.

Lemma capitalize_lower (w : list ascii) : capitalize (Str.lower_ascii <$> w) = capitalize w.
Proof.
  destruct w as [|c w]; [done|]. rewrite fmap_cons. cbn [capitalize].
  rewrite upper_lower_ascii. f_equal. rewrite <- list_fmap_compose.
  apply list_fmap_ext. intros _ x _. apply lower_lower_ascii.
Qed.

Lemma base_name_to_table_name_lower s :
  base_name_to_table_name (Str.lower s) = base_name_to_table_name s.
Proof.
  unfold base_name_to_table_name. rewrite chars_lower, split_underscore_lower.
  rewrite <- list_fmap_compose. f_equal. f_equal.
  apply list_fmap_ext. intros _ w _. apply capitalize_lower.
Qed.

Lemma split_underscore_words l :
  Forall (λ w, "_"%char ∉ w) (split_underscore l).
Proof.
  induction l as [|c l IH]; cbn [split_underscore].
  - repeat constructor. apply not_elem_of_nil.
  - case_bool_decide as Hc; [constructor; [apply not_elem_of_nil | done]|].
    destruct (split_underscore l) as [|w ws].
    + repeat constructor. by intros ?%list_elem_of_singleton.
    + apply Forall_cons in IH as [Hw Hws]. constructor; [|done].
      intros [?|?]%elem_of_cons; congruence.
Qed.

Lemma capitalize_no_underscore (w : list ascii) : "_"%char ∉ w → "_"%char ∉ capitalize w.
Proof.
  destruct w as [|c w]; [done|]. cbn [capitalize]. intros Hw [H|H]%elem_of_cons.
  - symmetry in H. apply upper_ascii_underscore in H. subst c. apply Hw. by left.
  - apply list_elem_of_fmap in H as (x & Hx & Hin).
    symmetry in Hx. apply (proj1 (StrFacts.lower_ascii_underscore x)) in Hx. subst x.
    apply Hw. by right.
Qed.

(** X16.  The table name made from a base name has no underscore in it, and does
    not depend on the letter case of the base name: files that spell an
    entity in different cases feed the same table. *)
Theorem table_name_ignores_case a b :
  ascii_name a → ascii_name b →
  Str.lower a = Str.lower b →
  base_name_to_table_name a = base_name_to_table_name b ∧
  "_"%char ∉ chars (base_name_to_table_name a).
Proof.
  intros _ _ Hab. split.
  - by rewrite <- (base_name_to_table_name_lower a), Hab, base_name_to_table_name_lower.
  - unfold base_name_to_table_name. rewrite chars_of_chars.
    intros (w & Hw & Hin)%list_elem_of_In%in_concat.
    apply list_elem_of_In in Hw, Hin.
    apply list_elem_of_fmap in Hw as (w0 & -> & Hw0).
    revert Hin. apply capitalize_no_underscore.
    pose proof (split_underscore_words (chars a)) as Hall.
    rewrite Forall_forall in Hall. by apply Hall.
Qed.

Lemma table_name_ignores_case_witness :
  base_name_to_table_name "customer_profiles" = base_name_to_table_name "Customer_PROFILES" ∧
  "_"%char ∉ chars (base_name_to_table_name "customer_profiles").
Proof.
  apply (table_name_ignores_case "customer_profiles" "Customer_PROFILES").
  - unfold ascii_name. apply (bool_decide_unpack _). vm_compute. exact I.
  - unfold ascii_name. apply (bool_decide_unpack _). vm_compute. exact I.
  - reflexivity.
Defined.

End TableNames.

(** ** One import, and the importer as a whole *)

Module Imports.
Import RawToStgMain CsvImporter Notions Scenarios MoreScenarios.

(** The table an import targets. *)
Lemma like_raw_prefixed base : like_raw ("raw" +:+ base) = true.
Proof.
  unfold like_raw.
  change (Str.lower ("raw" +:+ base)) with (String "r" (String "a" (String "w" (Str.lower base)))).
  rewrite !StagingMain.startswith_cons. by destruct (Str.lower base).
Qed.

Lemma to_sql_append_Ok conn tn df conn' :
  to_sql_append conn tn df = Ok conn' →
  ∃ t, conn !! tn = Some t ∧
       first_bad (has_column t) (df_columns df) = None ∧
       conn' = <[tn := Table (columns t) (rows t ++ (to_sql_row df <$> df_rows df))]> conn.
Proof.
  unfold to_sql_append, get_table. destruct (conn !! tn) as [t|]; simpl; [|done].
  destruct (first_bad _ _) eqn:E; simpl; [done|]. intros [= <-]. eauto.
Qed.

Lemma to_sql_replace_Ok conn tn df conn' :
  to_sql_replace conn tn df = Ok conn' →
  NoDup (norm_ident <$> df_columns df) ∧
  conn' = <[tn := Table (df_columns df) (to_sql_row df <$> df_rows df)]> conn.
Proof.
  unfold to_sql_replace, guard. case_bool_decide; simpl; [|done]. by intros [= <-].
Qed.

(** What a successful import went through. *)
Lemma import_success_inv conn file settings log now now_done r conn' log' :
  import_single_csv conn file settings log now now_done = Returned (r, conn', log') →
  success r = true →
  ∃ base date df enc,
    parse_filename (filename file) = (base, date) ∧ base ≠ "" ∧
    read_csv_file file settings = (Some df, enc) ∧
    (if RawToStg.table_exists conn ("raw" +:+ base_name_to_table_name base)
     then to_sql_append conn ("raw" +:+ base_name_to_table_name base)
                        (stamped now (filename file) date df)
     else to_sql_replace conn ("raw" +:+ base_name_to_table_name base)
                         (stamped now (filename file) date df)) = Ok conn' ∧
    r = ImportResult (filename file) true (Some ("raw" +:+ base_name_to_table_name base))
          (Z.of_nat (length (df_rows (stamped now (filename file) date df)))) MsgSuccess ∧
    log' = log ++ [LogEntry "csv_import" ("raw" +:+ base_name_to_table_name base)
                     (Z.of_nat (length (df_rows (stamped now (filename file) date df))))
                     "success" ("Imported from " +:+ filename file) now now_done].
Proof.
  unfold import_single_csv.
  destruct (parse_filename (filename file)) as [base date].
  case_bool_decide as Hbase; [by intros [= <- <- <-]|].
  set (tn := "raw" +:+ base_name_to_table_name base).
  fold (stamped now (filename file) date).
  assert (∀ load,
    load = match read_csv_file file settings with
           | (None, encoding) =>
               Returned (ImportResult (filename file) false (Some tn) 0
                           (MsgErrorReadingCSV encoding), conn, log)
           | (Some df, encoding) =>
               match (if RawToStg.table_exists conn tn
                      then to_sql_append conn tn (stamped now (filename file) date df)
                      else to_sql_replace conn tn (stamped now (filename file) date df)) with
               | Ok conn' =>
                   Returned (ImportResult (filename file) true (Some tn)
                               (Z.of_nat (length (df_rows (stamped now (filename file) date df))))
                               MsgSuccess, conn',
                             log ++ [LogEntry "csv_import" tn
                                       (Z.of_nat (length (df_rows (stamped now (filename file) date df))))
                                       "success" ("Imported from " +:+ filename file)
                                       now now_done])
               | Raise e =>
                   Returned (ImportResult (filename file) false (Some tn) 0 (MsgException e),
                             conn, log)
               end
           end →
    load = Returned (r, conn', log') → success r = true →
    ∃ base0 date0 df enc,
      (base, date) = (base0, date0) ∧ base0 ≠ "" ∧
      read_csv_file file settings = (Some df, enc) ∧
      (if RawToStg.table_exists conn ("raw" +:+ base_name_to_table_name base0)
       then to_sql_append conn ("raw" +:+ base_name_to_table_name base0)
                          (stamped now (filename file) date0 df)
       else to_sql_replace conn ("raw" +:+ base_name_to_table_name base0)
                           (stamped now (filename file) date0 df)) = Ok conn' ∧
      r = ImportResult (filename file) true (Some ("raw" +:+ base_name_to_table_name base0))
            (Z.of_nat (length (df_rows (stamped now (filename file) date0 df)))) MsgSuccess ∧
      log' = log ++ [LogEntry "csv_import" ("raw" +:+ base_name_to_table_name base0)
                       (Z.of_nat (length (df_rows (stamped now (filename file) date0 df))))
                       "success" ("Imported from " +:+ filename file) now now_done]) as Hload.
  { intros load ->. destruct (read_csv_file file settings) as [[df|] enc];
      [|by intros [= <- <- <-]].
    fold tn.
    destruct (if RawToStg.table_exists conn tn then _ else _) as [conn1|e] eqn:Hsql;
      [|by intros [= <- <- <-]].
    intros [= <- <- <-] _. by exists base, date, df, enc. }
  destruct (RawToStg.table_exists conn tn) eqn:Hex; [|by apply Hload].
  destruct (get_csv_columns file settings) as [[cc|] [err|]]; try done.
  - case_bool_decide; [done | by intros [= <- <- <-]].
  - destruct (compare_columns _ cc) as [[[] missing] extra]; simpl;
      [by apply Hload | by intros [= <- <- <-]].
  - case_bool_decide; [done | by intros [= <- <- <-]].
Qed.

(** X17.  An import that fails leaves no trace: it reports 0 rows, and the
    database and the list of log entries are the ones it was given. *)
Theorem failed_import_changes_nothing conn file settings log now now_done r conn' log' :
  import_single_csv conn file settings log now now_done = Returned (r, conn', log') →
  success r = false →
  conn' = conn ∧ log' = log ∧ rows_imported r = 0.
Proof.
  unfold import_single_csv.
  destruct (parse_filename (filename file)) as [base date].
  case_bool_decide as Hbase; [by intros [= <- <- <-]|].
  set (tn := "raw" +:+ base_name_to_table_name base).
  set (load := match read_csv_file file settings with (_, _) => _ end).
  assert (load = Returned (r, conn', log') → success r = false →
          conn' = conn ∧ log' = log ∧ rows_imported r = 0) as Hload.
  { subst load. destruct (read_csv_file file settings) as [[df|] enc];
      [|by intros [= <- <- <-]].
    destruct (if RawToStg.table_exists conn tn then _ else _) as [conn1|e];
      by intros [= <- <- <-]. }
  destruct (RawToStg.table_exists conn tn) eqn:Hex; [|done].
  destruct (get_csv_columns file settings) as [[cc|] [err|]]; try done.
  - case_bool_decide; [done | by intros [= <- <- <-]].
  - destruct (compare_columns _ cc) as [[[] missing] extra]; simpl;
      [done | by intros [= <- <- <-]].
  - case_bool_decide; [done | by intros [= <- <- <-]].
Qed.

Lemma failed_import_changes_nothing_witness :
  import_single_csv accounts_db drifted_file default_settings []
      "2026-02-02 10:00:00" "2026-02-02 10:00:01"
    = Returned (ImportResult "accounts_20260202.csv" false (Some "rawAccounts") 0
                             (MsgColumnMismatch ["c"] ["d"]), accounts_db, []) ∧
  accounts_db = accounts_db.
Proof.
  assert (import_single_csv accounts_db drifted_file default_settings []
            "2026-02-02 10:00:00" "2026-02-02 10:00:01"
          = Returned (ImportResult "accounts_20260202.csv" false (Some "rawAccounts") 0
                                   (MsgColumnMismatch ["c"] ["d"]), accounts_db, []))
    as Hrun by (vm_compute; reflexivity).
  split; [exact Hrun|].
  exact (proj1 (failed_import_changes_nothing _ _ _ _ _ _ _ _ _ Hrun eq_refl)).
Defined.

(** X18.  What the importer loads, the staging step finds: the table of a
    successful import exists afterwards under a name that begins with raw,
    so [get_all_raw_tables] lists it. *)
Theorem imported_table_is_listed conn file settings log now now_done r conn' log' :
  import_single_csv conn file settings log now now_done = Returned (r, conn', log') →
  success r = true →
  ∃ table_name, result_table_name r = Some table_name ∧
                is_Some (conn' !! table_name) ∧
                table_name ∈ get_all_raw_tables conn'.
Proof.
  intros Hrun Hok.
  destruct (import_success_inv _ _ _ _ _ _ _ _ _ Hrun Hok)
    as (base & date & df & enc & _ & _ & _ & Hsql & -> & _).
  eexists. split; [reflexivity|].
  assert (is_Some (conn' !! ("raw" +:+ base_name_to_table_name base))) as Hsome.
  { destruct (RawToStg.table_exists conn _).
    - apply to_sql_append_Ok in Hsql as (t & _ & _ & ->). rewrite lookup_insert_eq. eauto.
    - apply to_sql_replace_Ok in Hsql as (_ & ->). rewrite lookup_insert_eq. eauto. }
  split; [done|]. apply StagingMain.elem_of_get_all_raw_tables. split; [done|].
  apply like_raw_prefixed.
Qed.

Lemma imported_table_is_listed_witness :
  import_single_csv accounts_db matching_file default_settings []
      "2026-02-02 10:00:00" "2026-02-02 10:00:01"
    = Returned (ImportResult "accounts_20260204.csv" true (Some "rawAccounts") 1 MsgSuccess,
                accounts_loaded "2026-02-02 10:00:00" 1,
                [LogEntry "csv_import" "rawAccounts" 1 "success"
                          "Imported from accounts_20260204.csv"
                          "2026-02-02 10:00:00" "2026-02-02 10:00:01"]) ∧
  "rawAccounts" ∈ get_all_raw_tables (accounts_loaded "2026-02-02 10:00:00" 1).
Proof.
  assert (import_single_csv accounts_db matching_file default_settings []
            "2026-02-02 10:00:00" "2026-02-02 10:00:01"
          = Returned (ImportResult "accounts_20260204.csv" true (Some "rawAccounts") 1
                                   MsgSuccess,
                      accounts_loaded "2026-02-02 10:00:00" 1,
                      [LogEntry "csv_import" "rawAccounts" 1 "success"
                                "Imported from accounts_20260204.csv"
                                "2026-02-02 10:00:00" "2026-02-02 10:00:01"]))
    as Hrun by (vm_compute; reflexivity).
  split; [exact Hrun|].
  destruct (imported_table_is_listed _ _ _ _ _ _ _ _ _ Hrun eq_refl)
    as (table_name & [= <-] & _ & Hin).
  exact Hin.
Defined.



(** The header check a successful import into an existing table passed. *)
Lemma import_success_header conn file settings log now now_done r conn' log' base date :
  import_single_csv conn file settings log now now_done = Returned (r, conn', log') →
  success r = true →
  parse_filename (filename file) = (base, date) →
  RawToStg.table_exists conn ("raw" +:+ base_name_to_table_name base) = true →
  ∃ cc missing extra,
    get_csv_columns file settings = (Some cc, None) ∧
    compare_columns (RawToStg.get_table_columns conn ("raw" +:+ base_name_to_table_name base))
                    cc = (true, missing, extra).
Proof.
  unfold import_single_csv. intros Hrun Hok Hparse Hex. revert Hrun.
  rewrite Hparse. case_bool_decide as Hbase; [intros [= <- <- <-]; done|].
  rewrite Hex.
  destruct (get_csv_columns file settings) as [[cc|] [err|]]; try done.
  - case_bool_decide; [done | intros [= <- <- <-]; done].
  - destruct (compare_columns _ cc) as [[[] missing] extra] eqn:Hcmp; simpl.
    + intros _. by exists cc, missing, extra.
    + intros [= <- <- <-]. done.
  - case_bool_decide; [done | intros [= <- <- <-]; done].
Qed.

Lemma stamped_rows now fn date df :
  ∃ f : gmap string value → gmap string value,
    df_rows (stamped now fn date df) = f <$> df_rows df ∧
    (∀ r, f r !! "_imported_at" = Some (VText now)) ∧
    (∀ r, f r !! "_source_file" = Some (VText fn)) ∧
    (∀ r c, Str.startswith "_" c = false → f r !! c = r !! c).
Proof.
  assert (∀ c m, Str.startswith "_" c = false → Str.startswith "_" m = true → m ≠ c)
    as Hne by (intros c m Hc Hm ->; congruence).
  unfold stamped. destruct date as [d|]; [destruct (bool_decide (d = ""))|];
    unfold set_column; simpl; rewrite <- ?list_fmap_compose; eexists; (split; [reflexivity|]); simpl;
    (split; [|split]); intros r; try intros c Hc;
    rewrite ?lookup_insert_eq; try done.
  all: try (by rewrite !lookup_insert_ne by (by apply Hne)).
  all: rewrite !lookup_insert_ne by done; by rewrite lookup_insert_eq.
Qed.

Lemma stamped_columns now fn date df :
  Forall (λ c, Str.startswith "_" c = false) (df_columns df) →
  ∃ metas,
    df_columns (stamped now fn date df) = df_columns df ++ metas ∧
    "_imported_at" ∈ metas ∧ "_source_file" ∈ metas ∧
    NoDup (norm_ident <$> metas) ∧
    Forall (λ m, Str.startswith "_" (norm_ident m) = true) metas.
Proof.
  intros Hcols. rewrite Forall_forall in Hcols.
  assert (∀ m metas, Str.startswith "_" m = true → m ∉ metas →
          bool_decide (m ∈ df_columns df ++ metas) = false) as Hfresh.
  { intros m metas Hm Hmetas. apply bool_decide_eq_false. intros [H|H]%elem_of_app; [|done].
    apply Hcols in H. congruence. }
  assert (bool_decide ("_imported_at" ∈ df_columns df) = false) as H1.
  { rewrite <- (app_nil_r (df_columns df)). apply Hfresh; [done | apply not_elem_of_nil]. }
  assert (bool_decide ("_source_file" ∈ df_columns df ++ ["_imported_at"]) = false) as H2.
  { apply Hfresh; [done|]. by intros ?%list_elem_of_singleton. }
  assert (bool_decide ("_file_date" ∈ (df_columns df ++ ["_imported_at"]) ++ ["_source_file"])
          = false) as H3.
  { rewrite <- app_assoc. apply Hfresh; [done|].
    intros [?|?%list_elem_of_singleton]%elem_of_cons; done. }
  assert (∀ metas : list string,
            bool_decide (NoDup (norm_ident <$> metas)) = true →
            forallb (λ m, Str.startswith "_" (norm_ident m)) metas = true →
            NoDup (norm_ident <$> metas) ∧
            Forall (λ m, Str.startswith "_" (norm_ident m) = true) metas) as Hmetas.
  { intros metas Hn Hf. split; [by apply bool_decide_eq_true in Hn|].
    apply Forall_forall. intros m Hm. rewrite forallb_forall in Hf.
    by apply Hf, list_elem_of_In. }
  unfold stamped. destruct date as [d|]; [destruct (bool_decide (d = ""))|];
    unfold set_column; simpl;
    rewrite H1; simpl; rewrite H2; simpl; rewrite ?H3; rewrite <- ?app_assoc; simpl.
  - exists ["_imported_at"; "_source_file"]. split; [done|].
    split; [set_solver|]. split; [set_solver|]. by apply Hmetas.
  - exists ["_imported_at"; "_source_file"; "_file_date"]. split; [done|].
    split; [set_solver|]. split; [set_solver|]. by apply Hmetas.
  - exists ["_imported_at"; "_source_file"]. split; [done|].
    split; [set_solver|]. split; [set_solver|]. by apply Hmetas.
Qed.

Lemma to_sql_row_cell df (r : gmap string value) c :
  NoDup (norm_ident <$> df_columns df) → c ∈ df_columns df →
  cell (to_sql_row df r) c = default VNull (r !! c).
Proof.
  intros Hnodup Hc. unfold cell, to_sql_row.
  erewrite elem_of_list_to_map_1; [done | by rewrite <- list_fmap_compose |].
  apply list_elem_of_fmap. by exists c.
Qed.

(** X20.  A successful import only adds rows, to its own table: the rows the
    table held stay, in their order, no other table changes, and there is
    one new row per row of the file.  Every new row carries the file's cells
    and is stamped with the import time and the name of the file it came
    from. *)
Theorem import_appends_stamped_rows conn file settings log now now_done r conn' log' df enc :
  import_single_csv conn file settings log now now_done = Returned (r, conn', log') →
  success r = true →
  read_csv_file file settings = (Some df, enc) →
  Forall (λ c, Str.startswith "_" c = false) (df_columns df) →
  NoDup (norm_ident <$> df_columns df) →
  ∃ table_name new,
    result_table_name r = Some table_name ∧
    rows <$> conn' !! table_name = Some (default [] (rows <$> conn !! table_name) ++ new) ∧
    (∀ name, name ≠ table_name → conn' !! name = conn !! name) ∧
    rows_imported r = Z.of_nat (length new) ∧
    Forall2 (λ d s, cell s "_imported_at" = VText now ∧
                    cell s "_source_file" = VText (filename file) ∧
                    ∀ c, c ∈ df_columns df → cell s c = default VNull (d !! c))
            (df_rows df) new.
Proof.
  intros Hrun Hok Hread Hplain Hnodup.
  destruct (import_success_inv _ _ _ _ _ _ _ _ _ Hrun Hok)
    as (base & date & df0 & enc0 & _ & _ & Hread0 & Hsql & -> & _).
  assert (df0 = df) as -> by congruence.
  set (tn := "raw" +:+ base_name_to_table_name base) in *.
  set (df3 := stamped now (filename file) date df) in *.
  exists tn, (to_sql_row df3 <$> df_rows df3).
  split; [done|].
  assert (rows <$> conn' !! tn
            = Some (default [] (rows <$> conn !! tn) ++ (to_sql_row df3 <$> df_rows df3)) ∧
          ∀ name, name ≠ tn → conn' !! name = conn !! name) as [Hrows Hframe].
  { destruct (RawToStg.table_exists conn tn) eqn:Hex.
    - apply to_sql_append_Ok in Hsql as (t & Ht & _ & ->).
      rewrite lookup_insert_eq, Ht. split; [done|].
      intros name Hname. by rewrite lookup_insert_ne.
    - apply to_sql_replace_Ok in Hsql as (_ & ->).
      apply bool_decide_eq_false in Hex.
      rewrite lookup_insert_eq. destruct (conn !! tn) eqn:Ht; [by destruct Hex; eauto|].
      split; [done|]. intros name Hname. by rewrite lookup_insert_ne. }
  split; [done|]. split; [done|].
  split; [simpl; by rewrite length_fmap|].
  destruct (stamped_rows now (filename file) date df) as (f & Hf & Hat & Hfile & Hdata).
  destruct (stamped_columns now (filename file) date df Hplain)
    as (metas & Hcols & Hin1 & Hin2 & Hmetas & Hunder).
  fold df3 in Hf, Hcols.
  assert (NoDup (norm_ident <$> df_columns df3)) as Hnodup3.
  { rewrite Hcols, fmap_app. apply NoDup_app. split; [done|]. split; [|done].
    intros x (c & -> & Hc)%list_elem_of_fmap (m & Hm & Hmin)%list_elem_of_fmap.
    rewrite Forall_forall in Hplain, Hunder.
    specialize (Hplain c Hc). specialize (Hunder m Hmin).
    rewrite <- Hm in Hunder. unfold norm_ident in Hunder.
    rewrite StrFacts.startswith_underscore_lower in Hunder. congruence. }
  rewrite Hf, <- list_fmap_compose.
  apply Forall2_fmap_r, Forall_Forall2_diag, Forall_forall. intros d _. simpl.
  split; [|split].
  - rewrite to_sql_row_cell; [by rewrite Hat | done |].
    rewrite Hcols. apply elem_of_app. by right.
  - rewrite to_sql_row_cell; [by rewrite Hfile | done |].
    rewrite Hcols. apply elem_of_app. by right.
  - intros c Hc. rewrite to_sql_row_cell; [| done |].
    + rewrite Hdata; [done|]. rewrite Forall_forall in Hplain. by apply Hplain.
    + rewrite Hcols. apply elem_of_app. by left.
Qed.

Lemma import_appends_stamped_rows_witness :
  import_single_csv accounts_db matching_file default_settings []
      "2026-02-02 10:00:00" "2026-02-02 10:00:01"
    = Returned (ImportResult "accounts_20260204.csv" true (Some "rawAccounts") 1 MsgSuccess,
                accounts_loaded "2026-02-02 10:00:00" 1,
                [LogEntry "csv_import" "rawAccounts" 1 "success"
                          "Imported from accounts_20260204.csv"
                          "2026-02-02 10:00:00" "2026-02-02 10:00:01"]) ∧
  ∃ new,
    rows <$> accounts_loaded "2026-02-02 10:00:00" 1 !! "rawAccounts"
      = Some (default [] (rows <$> accounts_db !! "rawAccounts") ++ new) ∧
    Forall2 (λ d s, cell s "_imported_at" = VText "2026-02-02 10:00:00" ∧
                    cell s "_source_file" = VText "accounts_20260204.csv" ∧
                    ∀ c, c ∈ ["a"; "b"; "c"] → cell s c = default VNull (d !! c))
            [(<["a" := VInt 1]> (<["b" := VInt 2]> (<["c" := VInt 3]> ∅)) : gmap string value)]
            new.
Proof.
  assert (import_single_csv accounts_db matching_file default_settings []
            "2026-02-02 10:00:00" "2026-02-02 10:00:01"
          = Returned (ImportResult "accounts_20260204.csv" true (Some "rawAccounts") 1
                                   MsgSuccess,
                      accounts_loaded "2026-02-02 10:00:00" 1,
                      [LogEntry "csv_import" "rawAccounts" 1 "success"
                                "Imported from accounts_20260204.csv"
                                "2026-02-02 10:00:00" "2026-02-02 10:00:01"]))
    as Hrun by (vm_compute; reflexivity).
  split; [exact Hrun|].
  destruct (import_appends_stamped_rows _ _ _ _ _ _ _ _ _
              (DataFrame ["a"; "b"; "c"]
                 [<["a" := VInt 1]> (<["b" := VInt 2]> (<["c" := VInt 3]> ∅))])
              "utf-8" Hrun eq_refl)
    as (table_name & new & [= <-] & Hrows & _ & _ & Hcells).
  - vm_compute. reflexivity.
  - repeat constructor.
  - apply (bool_decide_unpack _). vm_compute. exact I.
  - exists new. split; [exact Hrows | exact Hcells].
Defined.

Lemma stamped_length now fn date df :
  length (df_rows (stamped now fn date df)) = length (df_rows df).
Proof.
  destruct (stamped_rows now fn date df) as (f & -> & _). apply length_fmap.
Qed.

Lemma stamped_columns_clock now now' fn date df :
  df_columns (stamped now fn date df) = df_columns (stamped now' fn date df).
Proof.
  unfold stamped. by destruct date as [d|]; [destruct (bool_decide (d = ""))|].
Qed.

(** X21.  The raw layer keeps every delivery: importing a file again into its
    table, right after it was imported, succeeds again and appends as many
    rows once more.  Nothing in the importer recognises a file it has
    already loaded. *)
Theorem reimport_appends_again conn file settings log now now_done r conn1 log1
    now2 now_done2 table_name t :
  import_single_csv conn file settings log now now_done = Returned (r, conn1, log1) →
  success r = true →
  result_table_name r = Some table_name → conn !! table_name = Some t →
  ∃ r2 conn2 log2 new new2,
    import_single_csv conn1 file settings log1 now2 now_done2 = Returned (r2, conn2, log2) ∧
    success r2 = true ∧ rows_imported r2 = rows_imported r ∧
    conn1 !! table_name = Some (Table (columns t) (rows t ++ new)) ∧
    conn2 !! table_name = Some (Table (columns t) (rows t ++ new ++ new2)) ∧
    length new = length new2 ∧ rows_imported r = Z.of_nat (length new).
Proof.
  intros Hrun Hok Htn Ht.
  destruct (import_success_inv _ _ _ _ _ _ _ _ _ Hrun Hok)
    as (base & date & df & enc & Hparse & Hbase & Hread & Hsql & Hr & Hlog).
  assert (table_name = "raw" +:+ base_name_to_table_name base) as Hname
    by (rewrite Hr in Htn; by injection Htn).
  rewrite <- Hname in Hsql, Hr, Hlog.
  assert (RawToStg.table_exists conn table_name = true) as Hex
    by (apply bool_decide_eq_true; eauto).
  destruct (import_success_header _ _ _ _ _ _ _ _ _ base date Hrun Hok Hparse)
    as (cc & missing & extra & Hcsv & Hcmp); [by rewrite <- Hname|].
  rewrite <- Hname in Hcmp. unfold RawToStg.get_table_columns in Hcmp. rewrite Ht in Hcmp.
  rewrite Hex in Hsql. apply to_sql_append_Ok in Hsql as (t' & Ht' & Hbad & Hconn1).
  assert (t' = t) as -> by congruence.
  set (df3 := stamped now (filename file) date df) in *.
  set (df4 := stamped now2 (filename file) date df).
  set (new := to_sql_row df3 <$> df_rows df3) in *.
  set (new2 := to_sql_row df4 <$> df_rows df4).
  set (t1 := Table (columns t) (rows t ++ new)) in *.
  assert (conn1 !! table_name = Some t1) as Ht1 by (rewrite Hconn1; apply lookup_insert_eq).
  assert (to_sql_append conn1 table_name df4
          = Ok (<[table_name := Table (columns t) ((rows t ++ new) ++ new2)]> conn1)) as Happ.
  { unfold to_sql_append, get_table. rewrite Ht1. simpl.
    unfold df4. rewrite (stamped_columns_clock now2 now). fold df3.
    change (first_bad (has_column t1)) with (first_bad (has_column t)).
    by rewrite Hbad. }
  eexists _, _, _, new, new2. split; [|split; [|split; [|split; [|split; [|split]]]]].
  - unfold import_single_csv. rewrite Hparse.
    rewrite bool_decide_eq_false_2 by done. rewrite <- Hname.
    assert (RawToStg.table_exists conn1 table_name = true) as ->
      by (apply bool_decide_eq_true; eauto).
    unfold RawToStg.get_table_columns. rewrite Ht1, Hcsv.
    change (columns t1) with (columns t). rewrite Hcmp. cbn [negb].
    rewrite Hread. fold (stamped now2 (filename file) date df). fold df4.
    rewrite Happ. reflexivity.
  - done.
  - rewrite Hr. simpl. unfold df4, df3. by rewrite !stamped_length.
  - done.
  - rewrite lookup_insert_eq. by rewrite <- app_assoc.
  - unfold new, new2, df3, df4. by rewrite !length_fmap, !stamped_length.
  - rewrite Hr. simpl. unfold new. by rewrite length_fmap.
Qed.

Lemma reimport_appends_again_witness :
  import_single_csv accounts_db matching_file default_settings []
      "2026-02-02 10:00:00" "2026-02-02 10:00:01"
    = Returned (ImportResult "accounts_20260204.csv" true (Some "rawAccounts") 1 MsgSuccess,
                accounts_loaded "2026-02-02 10:00:00" 1,
                [LogEntry "csv_import" "rawAccounts" 1 "success"
                          "Imported from accounts_20260204.csv"
                          "2026-02-02 10:00:00" "2026-02-02 10:00:01"]) ∧
  ∃ r2 conn2 log2,
    import_single_csv (accounts_loaded "2026-02-02 10:00:00" 1) matching_file
        default_settings
        [LogEntry "csv_import" "rawAccounts" 1 "success"
                  "Imported from accounts_20260204.csv"
                  "2026-02-02 10:00:00" "2026-02-02 10:00:01"]
        "2026-02-02 10:00:00" "2026-02-02 10:00:01"
      = Returned (r2, conn2, log2) ∧
    success r2 = true ∧ rows_imported r2 = 1.
Proof.
  assert (import_single_csv accounts_db matching_file default_settings []
            "2026-02-02 10:00:00" "2026-02-02 10:00:01"
          = Returned (ImportResult "accounts_20260204.csv" true (Some "rawAccounts") 1
                                   MsgSuccess,
                      accounts_loaded "2026-02-02 10:00:00" 1,
                      [LogEntry "csv_import" "rawAccounts" 1 "success"
                                "Imported from accounts_20260204.csv"
                                "2026-02-02 10:00:00" "2026-02-02 10:00:01"]))
    as Hrun by (vm_compute; reflexivity).
  split; [exact Hrun|].
  destruct (reimport_appends_again _ _ _ _ _ _ _ _ _
              "2026-02-02 10:00:00" "2026-02-02 10:00:01" "rawAccounts"
              (Table ["a"; "b"; "c"; "_imported_at"; "_source_file"; "_file_date"] [])
              Hrun eq_refl eq_refl eq_refl)
    as (r2 & conn2 & log2 & new & new2 & Hrun2 & Hok2 & Hrows2 & _).
  exists r2, conn2, log2. split; [exact Hrun2|]. split; [exact Hok2 | exact Hrows2].
Defined.

Lemma import_files_results conn files settings times results log results' conn' log' :
  import_files conn files settings times results log = Returned (results', conn', log') →
  ∃ rs, results' = results ++ rs ∧ result_filename <$> rs = filename <$> files.
Proof.
  revert conn results log.
  induction files as [|file files IH]; intros conn results log; simpl.
  - intros [= <- <- <-]. exists []. by rewrite app_nil_r.
  - destruct (import_single_csv _ _ _ _ _ _) as [[[r conn1] log1]|] eqn:Hone; [|done].
    apply Audit.import_single_csv_log in Hone as (Hname & _).
    intros (rs & -> & Hnames)%IH.
    exists (r :: rs). split; [by rewrite <- app_assoc|].
    rewrite !fmap_cons, Hname, Hnames. done.
Qed.

(** X22.  The importer reports one result per file, in the order of the file
    list, and the value [main] returns is true exactly when every file was
    imported: one rejected file makes the run false, and does not stop the
    files after it. *)
Theorem import_run_verdict use_sample w settings conn files b d :
  configs w = Some settings → db_file w = Some conn → folder w = Some files →
  main use_sample w = Returned (b, d) →
  ∃ results conn',
    process_csv_folder files settings conn (times w) = Returned (results, conn') ∧
    d = Some conn' ∧
    result_filename <$> results = filename <$> files ∧
    (b = true ↔ Forall (λ r, success r = true) results).
Proof.
  intros Hc Hd Hf. unfold main. rewrite Hc, Hd, Hf.
  destruct (process_csv_folder files settings conn (times w)) as [[results conn']|] eqn:Hrun;
    [|done].
  intros Hmain. exists results, conn'. split; [done|].
  assert (b = bool_decide ((length results
                            - length (filter (λ r, success r = true) results))%nat = 0%nat)
          ∧ d = Some conn') as [-> ->].
  { destruct (negb use_sample && _); [destruct (stdin w); [|done]|];
      by injection Hmain as <- <-. }
  split; [done|]. split.
  - unfold process_csv_folder in Hrun.
    destruct (import_files _ _ _ _ _ _) as [[[rs conn1] log1]|] eqn:Hfiles; [|done].
    injection Hrun as <- _.
    by apply import_files_results in Hfiles as (rs' & -> & ?).
  - rewrite bool_decide_eq_true. apply StagingMain.verdict_all_succeeded.
Qed.

Lemma import_run_verdict_witness :
  let rejected := ImportResult "accounts_20260202.csv" false (Some "rawAccounts") 0
                    (MsgColumnMismatch ["c"] ["d"]) in
  main false drifted_world = Returned (false, Some accounts_db) ∧
  ∃ results conn',
    process_csv_folder [drifted_file] default_settings accounts_db fixed_times
      = Returned (results, conn') ∧
    Some accounts_db = Some conn' ∧
    result_filename <$> results = filename <$> [drifted_file] ∧
    (false = true ↔ Forall (λ r, success r = true) results).
Proof.
  intros rejected.
  assert (main false drifted_world = Returned (false, Some accounts_db)) as Hrun
    by (vm_compute; reflexivity).
  split; [exact Hrun|].
  exact (import_run_verdict false drifted_world default_settings accounts_db [drifted_file]
           false (Some accounts_db) eq_refl eq_refl eq_refl Hrun).
Defined.

End Imports.

(** ** The two readings of a header *)

Module Headers.
Import RawToStgMain CsvImporter Notions Spec Scenarios HeaderScenarios.

Lemma stamped_columns_any now fn date df :
  ∃ metas, df_columns (stamped now fn date df) = df_columns df ++ metas ∧
           Forall (λ m, Str.startswith "_" (Str.lower m) = true) metas.
Proof.
  assert (∀ c v d, ∃ metas, df_columns (set_column c v d) = df_columns d ++ metas ∧
                            (metas = [] ∨ metas = [c])) as Hset.
  { intros c v d. unfold set_column. simpl. case_bool_decide.
    - exists []. split; [by rewrite app_nil_r | by left].
    - exists [c]. split; [done | by right]. }
  assert (∀ d, (∃ metas, df_columns d = df_columns df ++ metas ∧
                         Forall (λ m, Str.startswith "_" (Str.lower m) = true) metas) →
               ∀ c v, Str.startswith "_" (Str.lower c) = true →
               ∃ metas, df_columns (set_column c v d) = df_columns df ++ metas ∧
                        Forall (λ m, Str.startswith "_" (Str.lower m) = true) metas) as Hstep.
  { intros d (metas & Hd & Hmetas) c v Hc.
    destruct (Hset c v d) as (ms & -> & [-> | ->]).
    - exists metas. by rewrite app_nil_r.
    - exists (metas ++ [c]). rewrite Hd, <- app_assoc. split; [done|].
      apply Forall_app. split; [done|]. by repeat constructor. }
  assert (∃ metas, df_columns df = df_columns df ++ metas ∧
                   Forall (λ m, Str.startswith "_" (Str.lower m) = true) metas) as H0.
  { exists []. by rewrite app_nil_r. }
  unfold stamped. destruct date as [d|]; [destruct (bool_decide (d = ""))|];
    repeat (apply Hstep; [|done]); exact H0.
Qed.

Lemma clean_columns settings cols rws :
  trim_whitespace settings = true →
  df_columns (clean settings (DataFrame cols rws))
    = (λ c, Str.collapse_ws (Str.strip c)) <$> cols.
Proof.
  intros Htrim. unfold clean. rewrite Htrim. by destruct (skip_empty_rows settings).
Qed.

(** X23.  The file that created a table can be refused by it.  The table is
    created with the header cleaned by [read_csv_file] (blanks trimmed and
    runs of blanks made one), the check a later import makes reads the header
    with [get_csv_columns] (blanks trimmed only): a column that the cleaning
    changes is then reported as extra, and the same file is rejected for a
    column mismatch. *)
Theorem cleaned_header_rejected_on_reimport conn file settings log now now_done
    r conn1 log1 now2 now_done2 encoding rest cols rws table_name c :
  encoding_attempts settings = encoding :: rest → trim_whitespace settings = true →
  read_csv file encoding = ReadOk (DataFrame cols rws) →
  read_header file encoding = ReadOk cols →
  import_single_csv conn file settings log now now_done = Returned (r, conn1, log1) →
  success r = true → result_table_name r = Some table_name → conn !! table_name = None →
  c ∈ cols →
  (∀ c', c' ∈ cols → Str.lower (Str.collapse_ws (Str.strip c')) ≠ Str.lower (Str.strip c)) →
  ∃ missing extra,
    import_single_csv conn1 file settings log1 now2 now_done2
      = Returned (ImportResult (filename file) false (Some table_name) 0
                               (MsgColumnMismatch missing extra), conn1, log1) ∧
    Str.lower (Str.strip c) ∈ extra.
Proof.
  intros Henc Htrim Hread Hheader Hrun Hok Htn Hnew Hc Hchanged.
  destruct (Imports.import_success_inv _ _ _ _ _ _ _ _ _ Hrun Hok)
    as (base & date & df & enc & Hparse & Hbase & Hdf & Hsql & Hr & _).
  assert (table_name = "raw" +:+ base_name_to_table_name base) as Hname
    by (rewrite Hr in Htn; by injection Htn).
  rewrite <- Hname in Hsql.
  assert (RawToStg.table_exists conn table_name = false) as Hex.
  { apply bool_decide_eq_false. rewrite Hnew. by intros [? ?]. }
  rewrite Hex in Hsql. apply Imports.to_sql_replace_Ok in Hsql as (_ & Hconn1).
  assert (df = clean settings (DataFrame cols rws)) as Hclean.
  { unfold read_csv_file in Hdf. rewrite Henc in Hdf. simpl in Hdf.
    rewrite Hread in Hdf. by injection Hdf as <- _. }
  destruct (stamped_columns_any now (filename file) date df) as (metas & Hcols & Hmetas).
  rewrite Hclean, clean_columns in Hcols by done. rewrite <- Hclean in Hcols.
  set (t := Table (df_columns (stamped now (filename file) date df))
                  (to_sql_row (stamped now (filename file) date df)
                     <$> df_rows (stamped now (filename file) date df))) in *.
  assert (conn1 !! table_name = Some t) as Ht by (rewrite Hconn1; apply lookup_insert_eq).
  assert (get_csv_columns file settings = (Some (Str.strip <$> cols), None)) as Hcsv.
  { unfold get_csv_columns. rewrite Henc. simpl. by rewrite Hheader. }
  destruct (Importing.compare_columns_spec (columns t) (Str.strip <$> cols))
    as (m & missing & extra & Hcmp & Hm & _ & Hextra & _).
  assert (in_csv_set (Str.strip <$> cols) (Str.lower (Str.strip c))) as Hin.
  { exists (Str.strip c). split; [by apply list_elem_of_fmap_2 | done]. }
  assert (¬ in_table_set (columns t) (Str.lower (Str.strip c))) as Hout.
  { intros (c0 & Hc0 & Heq & Hplain). simpl in Hc0. rewrite Hcols in Hc0.
    apply elem_of_app in Hc0 as [Hc0|Hc0].
    - apply list_elem_of_fmap in Hc0 as (c' & -> & Hc'). by apply (Hchanged c' Hc').
    - rewrite Forall_forall in Hmetas. specialize (Hmetas c0 Hc0).
      rewrite <- Heq in Hmetas. congruence. }
  assert (m = false) as ->.
  { destruct m; [|done]. exfalso. apply Hout. by apply (proj1 Hm eq_refl). }
  exists missing, extra. split; [|by apply Hextra].
  rewrite Hname. rewrite Hname in Ht.
  by apply (Importing.import_rejects_mismatch _ _ _ _ _ _ base date t (Str.strip <$> cols)).
Qed.

Lemma cleaned_header_rejected_on_reimport_witness :
  import_single_csv accounts_db spaced_file default_settings []
      "2026-03-01 10:00:00" "2026-03-01 10:00:01"
    = Returned (ImportResult "people_20260301.csv" true (Some "rawPeople") 1 MsgSuccess,
                people_loaded,
                [LogEntry "csv_import" "rawPeople" 1 "success"
                          "Imported from people_20260301.csv"
                          "2026-03-01 10:00:00" "2026-03-01 10:00:01"]) ∧
  ∃ missing extra,
    import_single_csv people_loaded spaced_file default_settings
        [LogEntry "csv_import" "rawPeople" 1 "success"
                  "Imported from people_20260301.csv"
                  "2026-03-01 10:00:00" "2026-03-01 10:00:01"]
        "2026-03-02 10:00:00" "2026-03-02 10:00:01"
      = Returned (ImportResult "people_20260301.csv" false (Some "rawPeople") 0
                               (MsgColumnMismatch missing extra), people_loaded,
                  [LogEntry "csv_import" "rawPeople" 1 "success"
                            "Imported from people_20260301.csv"
                            "2026-03-01 10:00:00" "2026-03-01 10:00:01"]) ∧
    Str.lower (Str.strip "first  name") ∈ extra.
Proof.
  assert (import_single_csv accounts_db spaced_file default_settings []
            "2026-03-01 10:00:00" "2026-03-01 10:00:01"
          = Returned (ImportResult "people_20260301.csv" true (Some "rawPeople") 1
                                   MsgSuccess,
                      people_loaded,
                      [LogEntry "csv_import" "rawPeople" 1 "success"
                                "Imported from people_20260301.csv"
                                "2026-03-01 10:00:00" "2026-03-01 10:00:01"]))
    as Hrun by (vm_compute; reflexivity).
  split; [exact Hrun|].
  refine (cleaned_header_rejected_on_reimport accounts_db spaced_file default_settings []
            "2026-03-01 10:00:00" "2026-03-01 10:00:01" _ _ _
            "2026-03-02 10:00:00" "2026-03-02 10:00:01"
            "utf-8" ["latin-1"; "cp1252"] ["first  name"]
            [<["first  name" := VText "Ann"]> ∅] "rawPeople" "first  name"
            eq_refl eq_refl eq_refl eq_refl Hrun eq_refl eq_refl eq_refl _ _).
  - by left.
  - intros c' ->%list_elem_of_singleton. vm_compute. intros H. discriminate H.
Defined.

End Headers.

(** ** The archive *)

Module Archive.
Import RawToStgMain CsvImporter CsvImporterArchive Scenarios MoreScenarios.

(** X24.  The archive takes the rejected files too: when at least one file of the
    incoming folder was imported and the user answers yes, every file of
    the folder is moved away, the ones whose import failed included, so a
    later run does not see them again. *)
Theorem archive_takes_rejected_files w settings conn files results conn' line r :
  configs w = Some settings → db_file w = Some conn → folder w = Some files →
  process_csv_folder files settings conn (times w) = Returned (results, conn') →
  stdin w = Some line → Str.lower (Str.strip line) = "yes" →
  (∃ r0, r0 ∈ results ∧ success r0 = true) →
  r ∈ results → success r = false →
  ∃ names, archived false w = Returned names ∧ result_filename r ∈ names.
Proof.
  intros Hc Hd Hf Hrun Hin Hyes (r0 & Hr0 & Hok) Hr Hfail.
  unfold archived. rewrite Hc, Hd, Hf, Hrun, Hin.
  rewrite bool_decide_eq_true_2.
  2:{ assert (r0 ∈ filter (λ r, success r = true) results) as Hmem
        by (by apply list_elem_of_filter).
      destruct (filter _ results); [by apply elem_of_nil in Hmem | simpl; lia]. }
  rewrite bool_decide_eq_true_2 by done. simpl.
  eexists. split; [reflexivity|].
  unfold process_csv_folder in Hrun.
  destruct (import_files _ _ _ _ _ _) as [[[rs conn1] log1]|] eqn:Hfiles; [|done].
  injection Hrun as <- _.
  apply Imports.import_files_results in Hfiles as (rs' & -> & <-).
  by apply list_elem_of_fmap_2.
Qed.

Lemma archive_takes_rejected_files_witness :
  ∃ names, archived false mixed_world = Returned names ∧ "accounts_20260202.csv" ∈ names.
Proof.
  refine (archive_takes_rejected_files mixed_world default_settings accounts_db
            [drifted_file; matching_file]
            [ImportResult "accounts_20260202.csv" false (Some "rawAccounts") 0
               (MsgColumnMismatch ["c"] ["d"]);
             ImportResult "accounts_20260204.csv" true (Some "rawAccounts") 1 MsgSuccess]
            accounts_imported " Yes "
            (ImportResult "accounts_20260202.csv" false (Some "rawAccounts") 0
               (MsgColumnMismatch ["c"] ["d"]))
            eq_refl eq_refl eq_refl _ eq_refl _ _ _ eq_refl).
  - vm_compute. reflexivity.
  - vm_compute. reflexivity.
  - eexists. split; [right; left; reflexivity | reflexivity].
  - by left.
Defined.

End Archive.

(** ** The pipeline runner *)

Module Pipeline.

(** X25.  The pipeline ends with status 0 exactly when every step's process ended
    with status 0, and with status 1 otherwise; the first step that fails
    decides, whatever the steps after it would have returned. *)
Theorem pipeline_exit_status returncodes :
  (RunPipeline.main returncodes = 0 ↔ Forall (λ rc, rc = 0) returncodes) ∧
  (RunPipeline.main returncodes = 0 ∨ RunPipeline.main returncodes = 1) ∧
  (∀ passed rc rest,
     returncodes = passed ++ rc :: rest → Forall (λ rc, rc = 0) passed → rc ≠ 0 →
     RunPipeline.main returncodes = 1).
Proof.
  split; [|split].
  - induction returncodes as [|rc rest IH]; [by split|].
    cbn [RunPipeline.main]. unfold RunPipeline.run_step. rewrite Forall_cons.
    case_bool_decide as Hrc.
    + split; [done | by intros [? _]].
    + rewrite IH. by split; [|intros [_ ?]].
  - induction returncodes as [|rc rest IH]; [by left|].
    cbn [RunPipeline.main]. destruct (RunPipeline.run_step rc); [done | by right].
  - intros passed rc rest -> Hpassed Hrc.
    induction Hpassed as [|x passed -> _ IH]; cbn [app RunPipeline.main].
    + unfold RunPipeline.run_step. by rewrite bool_decide_eq_true_2.
    + unfold RunPipeline.run_step at 1. by rewrite bool_decide_eq_false_2 by (by intros ?).
Qed.

Lemma pipeline_exit_status_witness : RunPipeline.main [0; 2; 0] = 1.
Proof.
  apply (proj2 (proj2 (pipeline_exit_status [0; 2; 0])) [0] 2 [0]).
  - reflexivity.
  - by repeat constructor.
  - done.
Defined.

End Pipeline.

(** ** The account report *)

Module Reports.
Import StgToRpt SqlFacts Scenarios ReportScenarios.

Section Aggregates.
Variables sql_sum sql_avg sql_min sql_max : list value → value.

(** X26.  A rebuild that fails destroys the report it was to replace: when the
    staging table lacks one of the columns the query names, the exception
    escapes after the old report table has been dropped, and nothing else
    has changed. *)
Theorem failed_rebuild_drops_report conn now stg :
  conn !! "stgAccountProducts" = Some stg →
  ¬ Forall (λ c, has_column stg c = true) ["account_type"; "currency"; "status"; "balance"] →
  ∃ conn' c,
    create_account_summary sql_sum sql_avg sql_min sql_max conn now
      = (conn', Raise (NoSuchColumn "" c)) ∧
    c ∈ ["account_type"; "currency"; "status"; "balance"] ∧ has_column stg c = false ∧
    conn' !! "rptAccountSummary" = None ∧
    (∀ name, name ≠ "rptAccountSummary" → conn' !! name = conn !! name).
Proof.
  intros Hstg Hcols. unfold create_account_summary. rewrite Hstg.
  destruct (first_bad (has_column stg) _) as [c|] eqn:Hbad;
    [|by apply first_bad_None in Hbad].
  exists (delete "rptAccountSummary" conn), c. split; [done|].
  unfold first_bad in Hbad. apply find_some in Hbad as [Hin Hc].
  split; [by apply list_elem_of_In|]. split; [by apply negb_true_iff|].
  split; [apply lookup_delete_eq|]. intros name Hname. by apply lookup_delete_ne.
Qed.

(** X27.  The report has one row per stored group, not per label: staged accounts
    without account type and staged accounts whose type is spelt Unknown
    are two groups, and give two report rows with the same three labels. *)
Theorem report_labels_can_repeat conn now stg r1 r2 :
  conn !! "stgAccountProducts" = Some stg →
  Forall (λ c, has_column stg c = true) ["account_type"; "currency"; "status"; "balance"] →
  r1 ∈ rows stg → r2 ∈ rows stg →
  cell r1 "account_type" = VNull → cell r2 "account_type" = VText "Unknown" →
  cell r1 "currency" = cell r2 "currency" → cell r1 "status" = cell r2 "status" →
  ∃ conn' count rpt i j s1 s2,
    create_account_summary sql_sum sql_avg sql_min sql_max conn now = (conn', Ok count) ∧
    conn' !! "rptAccountSummary" = Some rpt ∧
    i ≠ j ∧ rows rpt !! i = Some s1 ∧ rows rpt !! j = Some s2 ∧
    cell s1 "account_type" = VText "Unknown" ∧ cell s2 "account_type" = VText "Unknown" ∧
    cell s1 "currency" = cell s2 "currency" ∧ cell s1 "status" = cell s2 "status".
Proof.
  intros Hstg Hcols Hr1 Hr2 Ht1 Ht2 Hcur Hstat.
  apply first_bad_None in Hcols.
  unfold create_account_summary. rewrite Hstg, Hcols.
  assert (group_key r1 ∈ groups stg) as [i Hi]%list_elem_of_lookup
    by (apply elem_of_remove_dups; by apply list_elem_of_fmap_2).
  assert (group_key r2 ∈ groups stg) as [j Hj]%list_elem_of_lookup
    by (apply elem_of_remove_dups; by apply list_elem_of_fmap_2).
  eexists _, _, _, i, j, _, _. split; [reflexivity|]. split; [apply lookup_insert_eq|].
  split.
  { intros ->. rewrite Hi in Hj. injection Hj as Hj.
    unfold group_key in Hj. rewrite Ht1, Ht2 in Hj. discriminate Hj. }
  cbn [rows]. rewrite !list_lookup_fmap, Hi, Hj. cbn [fmap option_fmap option_map].
  split; [reflexivity|]. split; [reflexivity|].
  unfold group_key.
  pose proof (Aggregation.summary_row_cells sql_sum sql_avg sql_min sql_max stg now
                (cell r1 "account_type") (cell r1 "currency") (cell r1 "status"))
    as (Ha1 & Hc1 & Hs1 & _).
  pose proof (Aggregation.summary_row_cells sql_sum sql_avg sql_min sql_max stg now
                (cell r2 "account_type") (cell r2 "currency") (cell r2 "status"))
    as (Ha2 & Hc2 & Hs2 & _).
  rewrite Ha1, Ha2, Hc1, Hc2, Hs1, Hs2, Ht1, Ht2, Hcur, Hstat. done.
Qed.

End Aggregates.

Lemma failed_rebuild_drops_report_witness :
  ∃ conn' c,
    create_account_summary no_aggregate no_aggregate no_aggregate no_aggregate
        accounts_without_balance "2026-02-02 11:00:00"
      = (conn', Raise (NoSuchColumn "" c)) ∧
    c ∈ ["account_type"; "currency"; "status"; "balance"] ∧
    conn' !! "rptAccountSummary" = None.
Proof.
  destruct (failed_rebuild_drops_report no_aggregate no_aggregate no_aggregate no_aggregate
              accounts_without_balance "2026-02-02 11:00:00"
              (Table ["account_id"; "account_type"; "currency"; "status"]
                     [<["account_type" := VText "checking"]> ∅]))
    as (conn' & c & Hrun & Hc & _ & Hrpt & _).
  - reflexivity.
  - intros H. apply first_bad_None in H. vm_compute in H. discriminate H.
  - by exists conn', c.
Defined.

Lemma report_labels_can_repeat_witness :
  ∃ conn' count rpt i j s1 s2,
    create_account_summary no_aggregate no_aggregate no_aggregate no_aggregate
        untyped_accounts "2026-02-02 11:00:00" = (conn', Ok count) ∧
    conn' !! "rptAccountSummary" = Some rpt ∧
    i ≠ j ∧ rows rpt !! i = Some s1 ∧ rows rpt !! j = Some s2 ∧
    cell s1 "account_type" = VText "Unknown" ∧ cell s2 "account_type" = VText "Unknown" ∧
    cell s1 "currency" = cell s2 "currency" ∧ cell s1 "status" = cell s2 "status".
Proof.
  refine (report_labels_can_repeat no_aggregate no_aggregate no_aggregate no_aggregate
            untyped_accounts "2026-02-02 11:00:00"
            (Table ["account_id"; "account_type"; "currency"; "status"; "balance"]
                   [<["currency" := VText "USD"]> (<["status" := VText "active"]> ∅);
                    account "Unknown" 10])
            (<["currency" := VText "USD"]> (<["status" := VText "active"]> ∅))
            (account "Unknown" 10) _ _ _ _ _ _ _ _).
  - reflexivity.
  - apply (bool_decide_unpack _). by vm_compute.
  - by left.
  - right. by left.
  - reflexivity.
  - reflexivity.
  - reflexivity.
  - reflexivity.
Defined.

End Reports.
